(** * Chatbot Builder & Deployer (main.py): registry, agents, persistence

    A shallow embedding of [main.py].  Python values are modelled by the
    type [pyobj]; Python [str] is a list of Unicode code points.  The
    handlers are written in a small state / exception / trace monad; the
    [json] codec the program persists its history with is modelled
    concretely (encoder with [ensure_ascii], recursive-descent decoder). *)

From Stdlib Require Import ZArith NArith List Ascii String Lia Bool.
From Stdlib Require DecimalPos DecimalFacts.
From stdpp Require Import gmap list.
Import ListNotations.

Local Open Scope N_scope.
Set Warnings "-register-all".

(** ** Python strings *)

(** A Python [str] is a sequence of code points. *)
Abbreviation pystr := (list N).

(** ASCII literal of the source, as a [str]. *)
Definition u (s : string) : pystr :=
  List.map N_of_ascii (list_ascii_of_string s).

Fixpoint pystr_eqb (a b : pystr) : bool :=
  match a, b with
  | [], [] => true
  | x :: a', y :: b' => (x =? y) && pystr_eqb a' b'
  | _, _ => false
  end.

(** Code points used by the JSON grammar. *)
Abbreviation c_dq := 34 (only parsing).
Abbreviation c_bsl := 92 (only parsing).
Abbreviation c_slash := 47 (only parsing).
Abbreviation c_lbrace := 123 (only parsing).
Abbreviation c_rbrace := 125 (only parsing).
Abbreviation c_lbrack := 91 (only parsing).
Abbreviation c_rbrack := 93 (only parsing).
Abbreviation c_comma := 44 (only parsing).
Abbreviation c_colon := 58 (only parsing).
Abbreviation c_space := 32 (only parsing).
Abbreviation c_nl := 10 (only parsing).
Abbreviation c_minus := 45 (only parsing).
Abbreviation c_plus := 43 (only parsing).
Abbreviation c_dot := 46 (only parsing).
Abbreviation c_u := 117 (only parsing).

(** [str.isspace] of one code point (the Unicode white-space set of CPython). *)
Definition py_isspace (c : N) : bool :=
  ((9 <=? c) && (c <=? 13)) || ((28 <=? c) && (c <=? 32))
  || (c =? 133) || (c =? 160) || (c =? 5760)
  || ((8192 <=? c) && (c <=? 8202))
  || (c =? 8232) || (c =? 8233) || (c =? 8239) || (c =? 8287) || (c =? 12288).

Fixpoint lstrip (s : pystr) : pystr :=
  match s with
  | c :: r => if py_isspace c then lstrip r else s
  | [] => []
  end.

Definition rstrip (s : pystr) : pystr := rev (lstrip (rev s)).

(** [str.strip()] *)
Definition strip (s : pystr) : pystr := rstrip (lstrip s).

(** ** Python objects *)

(** The values the program handles: what [json.load] can return and what
    the handlers build.  A float is kept as the literal it was read from;
    a [dict] has [str] keys and keeps insertion order. *)
Inductive pyobj : Type :=
| PNone
| PBool (b : bool)
| PInt (z : Z)
| PFloat (lit : pystr)
| PStr (s : pystr)
| PList (l : list pyobj)
| PDict (d : list (pystr * pyobj)).

(** [d[k] = v] on an insertion-ordered dict. *)
Fixpoint dict_set (d : list (pystr * pyobj)) (k : pystr) (v : pyobj)
  : list (pystr * pyobj) :=
  match d with
  | [] => [(k, v)]
  | (k', v') :: r =>
      if pystr_eqb k k' then (k', v) :: r else (k', v') :: dict_set r k v
  end.

(** [dict(pairs)] *)
Definition dict_of_pairs (pairs : list (pystr * pyobj)) : list (pystr * pyobj) :=
  fold_left (fun d kv => dict_set d (fst kv) (snd kv)) pairs [].

Fixpoint dict_get (d : list (pystr * pyobj)) (k : pystr) : option pyobj :=
  match d with
  | [] => None
  | (k', v) :: r => if pystr_eqb k k' then Some v else dict_get r k
  end.

(** ** json: encoder *)

Module Json.

Definition hexdigit (d : N) : N := if d <? 10 then 48 + d else 87 + d.

(** ['{0:04x}'.format(n)] for [n < 0x10000] *)
Definition hex4 (n : N) : pystr :=
  [hexdigit (n / 4096 mod 16); hexdigit (n / 256 mod 16);
   hexdigit (n / 16 mod 16); hexdigit (n mod 16)].

Definition u_escape (n : N) : pystr := c_bsl :: c_u :: hex4 n.

(** The replacement of one character by [encode_basestring_ascii]. *)
Definition escape_char (c : N) : pystr :=
  if c =? c_dq then [c_bsl; c_dq]
  else if c =? c_bsl then [c_bsl; c_bsl]
  else if c =? 10 then [c_bsl; 110]
  else if c =? 13 then [c_bsl; 114]
  else if c =? 9 then [c_bsl; 116]
  else if c =? 8 then [c_bsl; 98]
  else if c =? 12 then [c_bsl; 102]
  else if (32 <=? c) && (c <=? 126) then [c]
  else if c <? 65536 then u_escape c
  else
    let n := c - 65536 in
    u_escape (N.lor 55296 (N.land (N.shiftr n 10) 1023))
      ++ u_escape (N.lor 56320 (N.land n 1023)).

Definition encode_basestring_ascii (s : pystr) : pystr :=
  c_dq :: flat_map escape_char s ++ [c_dq].

Fixpoint uint_digits (d : Decimal.uint) : pystr :=
  match d with
  | Decimal.Nil => []
  | Decimal.D0 d => 48 :: uint_digits d
  | Decimal.D1 d => 49 :: uint_digits d
  | Decimal.D2 d => 50 :: uint_digits d
  | Decimal.D3 d => 51 :: uint_digits d
  | Decimal.D4 d => 52 :: uint_digits d
  | Decimal.D5 d => 53 :: uint_digits d
  | Decimal.D6 d => 54 :: uint_digits d
  | Decimal.D7 d => 55 :: uint_digits d
  | Decimal.D8 d => 56 :: uint_digits d
  | Decimal.D9 d => 57 :: uint_digits d
  end.

(** [int.__repr__].  The limit CPython puts on the conversion of very
    long integers (4300 digits by default) is not modelled. *)
Definition int_repr (z : Z) : pystr :=
  match Z.to_int z with
  | Decimal.Pos d => uint_digits d
  | Decimal.Neg d => c_minus :: uint_digits d
  end.

Section encoder.
(** [float.__repr__] of the float read from a literal: floating point is
    outside the model. *)
Variable float_repr : pystr -> pystr.
(** [indent=None] or [indent=k]. *)
Variable indent : option nat.

Definition newline_indent (level : nat) : pystr :=
  match indent with
  | None => []
  | Some k => c_nl :: repeat c_space (k * level)
  end.

Definition item_separator : pystr :=
  match indent with
  | None => [c_comma; c_space]
  | Some _ => [c_comma]
  end.

Definition key_separator : pystr := [c_colon; c_space].

Fixpoint iterencode (o : pyobj) (level : nat) : pystr :=
  match o with
  | PNone => u "null"
  | PBool true => u "true"
  | PBool false => u "false"
  | PInt z => int_repr z
  | PFloat lit => float_repr lit
  | PStr s => encode_basestring_ascii s
  | PList [] => u "[]"
  | PList (x :: xs) =>
      c_lbrack :: newline_indent (S level) ++ iterencode x (S level)
        ++ flat_map (fun y => item_separator ++ newline_indent (S level)
                                ++ iterencode y (S level)) xs
        ++ newline_indent level ++ [c_rbrack]
  | PDict [] => u "{}"
  | PDict (kv :: kvs) =>
      c_lbrace :: newline_indent (S level)
        ++ encode_basestring_ascii (fst kv) ++ key_separator
        ++ iterencode (snd kv) (S level)
        ++ flat_map (fun kv' => item_separator ++ newline_indent (S level)
                                  ++ encode_basestring_ascii (fst kv')
                                  ++ key_separator
                                  ++ iterencode (snd kv') (S level)) kvs
        ++ newline_indent level ++ [c_rbrace]
  end.

(** [json.dumps(o, indent=indent)], the text [json.dump] writes. *)
Definition dumps (o : pyobj) : pystr := iterencode o 0.
End encoder.

(** *** json: decoder *)

(** The result of a scanner: a value and the unread rest of the text, a
    decode error, or the recursion budget of the model spent. *)
Inductive presult (A : Type) : Type :=
| POk (a : A) (rest : pystr)
| PErr
| PFuel.
Arguments POk {A} a rest.
Arguments PErr {A}.
Arguments PFuel {A}.

Definition is_ws (c : N) : bool :=
  (c =? 32) || (c =? 9) || (c =? 10) || (c =? 13).

(** [WHITESPACE.match(s, end).end()] *)
Fixpoint skip_ws (s : pystr) : pystr :=
  match s with
  | c :: r => if is_ws c then skip_ws r else s
  | [] => []
  end.

Definition hexval (c : N) : option N :=
  if (48 <=? c) && (c <=? 57) then Some (c - 48)
  else if (97 <=? c) && (c <=? 102) then Some (c - 87)
  else if (65 <=? c) && (c <=? 70) then Some (c - 55)
  else None.

Definition decode_hex4 (a b c d : N) : option N :=
  match hexval a, hexval b, hexval c, hexval d with
  | Some x, Some y, Some z, Some w => Some (4096 * x + 256 * y + 16 * z + w)
  | _, _, _, _ => None
  end.

Definition is_high_surrogate (c : N) : bool := (55296 <=? c) && (c <=? 56319).
Definition is_low_surrogate (c : N) : bool := (56320 <=? c) && (c <=? 57343).

Definition join_surrogates (hi lo : N) : N :=
  65536 + N.lor (N.shiftl (hi - 55296) 10) (lo - 56320).

(** The BACKSLASH table of the decoder. *)
Definition unescape (e : N) : option N :=
  if e =? c_dq then Some c_dq
  else if e =? c_bsl then Some c_bsl
  else if e =? c_slash then Some c_slash
  else if e =? 98 then Some 8
  else if e =? 102 then Some 12
  else if e =? 110 then Some 10
  else if e =? 114 then Some 13
  else if e =? 116 then Some 9
  else None.

(** [scanstring(s, end, strict=True)]: [s] starts after the opening quote;
    [acc] holds the characters read so far, last first. *)
Fixpoint scanstring (s : pystr) (acc : pystr) : option (pystr * pystr) :=
  match s with
  | [] => None
  | c :: r =>
      if c =? c_dq then Some (rev acc, r)
      else if c =? c_bsl then
        match r with
        | [] => None
        | e :: r1 =>
            if e =? c_u then
              match r1 with
              | a :: b :: c' :: d :: r2 =>
                  match decode_hex4 a b c' d with
                  | None => None
                  | Some uni =>
                      if is_high_surrogate uni then
                        match r2 with
                        | b1 :: u1 :: a2 :: b2 :: c2 :: d2 :: r3 =>
                            if (b1 =? c_bsl) && (u1 =? c_u) then
                              match decode_hex4 a2 b2 c2 d2 with
                              | None => None
                              | Some uni2 =>
                                  if is_low_surrogate uni2
                                  then scanstring r3 (join_surrogates uni uni2 :: acc)
                                  else scanstring r2 (uni :: acc)
                              end
                            else scanstring r2 (uni :: acc)
                        | _ => scanstring r2 (uni :: acc)
                        end
                      else scanstring r2 (uni :: acc)
                  end
              | _ => None
              end
            else
              match unescape e with
              | Some x => scanstring r1 (x :: acc)
              | None => None
              end
        end
      else if c <? 32 then None
      else scanstring r (c :: acc)
  end.

Definition is_digit (c : N) : bool := (48 <=? c) && (c <=? 57).

(** The longest prefix of digits, and the rest. *)
Fixpoint span_digits (s : pystr) : pystr * pystr :=
  match s with
  | c :: r =>
      if is_digit c then let '(ds, r') := span_digits r in (c :: ds, r')
      else ([], s)
  | [] => ([], [])
  end.

Definition digits_value (ds : pystr) : Z :=
  fold_left (fun acc c => (10 * acc + (Z.of_N c - 48))%Z) ds 0%Z.

(** The integer part of NUMBER_RE, an optional minus sign and then 0 or
    a digit string without leading zero: sign, digits matched, rest. *)
Definition match_integer (s : pystr) : option (bool * pystr * pystr) :=
  let '(neg, s1) :=
    match s with
    | c :: r => if c =? c_minus then (true, r) else (false, s)
    | [] => (false, s)
    end in
  match s1 with
  | c :: r =>
      if c =? 48 then Some (neg, [c], r)
      else if is_digit c then
        let '(ds, r') := span_digits r in Some (neg, c :: ds, r')
      else None
  | [] => None
  end.

(** [(\.[0-9]+)?] *)
Definition match_frac (s : pystr) : pystr * pystr :=
  match s with
  | c :: r =>
      if c =? c_dot then
        match span_digits r with
        | ([], _) => ([], s)
        | (ds, r') => (c :: ds, r')
        end
      else ([], s)
  | [] => ([], s)
  end.

(** The optional exponent of NUMBER_RE: e or E, an optional sign and at
    least one digit. *)
Definition match_exp (s : pystr) : pystr * pystr :=
  match s with
  | c :: r =>
      if (c =? 101) || (c =? 69) then
        let '(sign, r1) :=
          match r with
          | g :: r' => if (g =? c_minus) || (g =? c_plus) then ([g], r') else ([], r)
          | [] => ([], r)
          end in
        match span_digits r1 with
        | ([], _) => ([], s)
        | (ds, r') => (c :: sign ++ ds, r')
        end
      else ([], s)
  | [] => ([], s)
  end.

(** [NUMBER_RE.match] and the conversion that follows it: an [int] when
    there is neither fraction nor exponent, a [float] otherwise. *)
Definition match_number (s : pystr) : option (pyobj * pystr) :=
  match match_integer s with
  | None => None
  | Some (neg, ds, r) =>
      let '(frac, r1) := match_frac r in
      let '(exp, r2) := match_exp r1 in
      match frac, exp with
      | [], [] =>
          Some (PInt (if neg then - digits_value ds else digits_value ds)%Z, r2)
      | _, _ =>
          Some (PFloat ((if neg then [c_minus] else []) ++ ds ++ frac ++ exp), r2)
      end
  end.

(** [s[end:end+len(p)] == p]: the rest after the prefix. *)
Fixpoint strip_prefix (p s : pystr) : option pystr :=
  match p, s with
  | [], _ => Some s
  | x :: p', y :: s' => if x =? y then strip_prefix p' s' else None
  | _ :: _, [] => None
  end.

(** The constants of [scan_once], in its order. *)
Definition scan_constant (s : pystr) : option (pyobj * pystr) :=
  match strip_prefix (u "null") s with
  | Some r => Some (PNone, r)
  | None =>
  match strip_prefix (u "true") s with
  | Some r => Some (PBool true, r)
  | None =>
  match strip_prefix (u "false") s with
  | Some r => Some (PBool false, r)
  | None =>
  match match_number s with
  | Some vr => Some vr
  | None =>
  match strip_prefix (u "NaN") s with
  | Some r => Some (PFloat (u "NaN"), r)
  | None =>
  match strip_prefix (u "Infinity") s with
  | Some r => Some (PFloat (u "Infinity"), r)
  | None =>
  match strip_prefix (u "-Infinity") s with
  | Some r => Some (PFloat (u "-Infinity"), r)
  | None => None
  end end end end end end end.

(** [scan_once], [JSONArray] and [JSONObject].  [parse_array] starts at an
    element, [parse_object] just after the opening quote of a key; [acc]
    holds what the loop has appended so far, last first. *)
Fixpoint scan_once (fuel : nat) (s : pystr) : presult pyobj :=
  match fuel with
  | O => PFuel
  | S f =>
      match s with
      | [] => PErr
      | c :: r =>
          if c =? c_dq then
            match scanstring r [] with
            | Some (str, r') => POk (PStr str) r'
            | None => PErr
            end
          else if c =? c_lbrace then
            match skip_ws r with
            | c1 :: r1 =>
                if c1 =? c_rbrace then POk (PDict []) r1
                else if c1 =? c_dq then parse_object f r1 []
                else PErr
            | [] => PErr
            end
          else if c =? c_lbrack then
            match skip_ws r with
            | c1 :: r1 =>
                if c1 =? c_rbrack then POk (PList []) r1
                else parse_array f (c1 :: r1) []
            | [] => PErr
            end
          else
            match scan_constant s with
            | Some (v, r') => POk v r'
            | None => PErr
            end
      end
  end
with parse_array (fuel : nat) (s : pystr) (acc : list pyobj) : presult pyobj :=
  match fuel with
  | O => PFuel
  | S f =>
      match scan_once f s with
      | POk v r =>
          match skip_ws r with
          | c :: r1 =>
              if c =? c_rbrack then POk (PList (rev (v :: acc))) r1
              else if c =? c_comma then parse_array f (skip_ws r1) (v :: acc)
              else PErr
          | [] => PErr
          end
      | PErr => PErr
      | PFuel => PFuel
      end
  end
with parse_object (fuel : nat) (s : pystr) (acc : list (pystr * pyobj))
  : presult pyobj :=
  match fuel with
  | O => PFuel
  | S f =>
      match scanstring s [] with
      | None => PErr
      | Some (key, r) =>
          match skip_ws r with
          | c :: r1 =>
              if c =? c_colon then
                match scan_once f (skip_ws r1) with
                | POk v r2 =>
                    match skip_ws r2 with
                    | c2 :: r3 =>
                        if c2 =? c_rbrace
                        then POk (PDict (dict_of_pairs (rev ((key, v) :: acc)))) r3
                        else if c2 =? c_comma then
                          match skip_ws r3 with
                          | c3 :: r4 =>
                              if c3 =? c_dq
                              then parse_object f r4 ((key, v) :: acc)
                              else PErr
                          | [] => PErr
                          end
                        else PErr
                    | [] => PErr
                    end
                | PErr => PErr
                | PFuel => PFuel
                end
              else PErr
          | [] => PErr
          end
      end
  end.

(** A recursion budget that no text exhausts (lemma [scan_once_fuel]). *)
Definition fuel_for (s : pystr) : nat := 2 * length s + 2.

(** [JSONDecoder.decode]: one value between optional white space, then
    the end of the text.  Two limits of CPython are not modelled: an
    integer literal of more than 4300 digits (ValueError) and a nesting
    deeper than the recursion limit (RecursionError). *)
Definition decode (s : pystr) : presult pyobj :=
  if match s with c :: _ => c =? 65279 | [] => false end   (* a BOM *)
  then PErr
  else
    match scan_once (fuel_for s) (skip_ws s) with
    | POk v r =>
        match skip_ws r with
        | [] => POk v []
        | _ :: _ => PErr
        end
    | PErr => PErr
    | PFuel => PFuel
    end.

(** [json.loads(s)]: [None] stands for [JSONDecodeError]. *)
Definition loads (s : pystr) : option pyobj :=
  match decode s with
  | POk v _ => Some v
  | _ => None
  end.

(** *** Views of the codec used by the proofs *)

(** The two halves of the surrogate pair the encoder writes for a code
    point above 0xFFFF. *)
Definition high_of (c : N) : N := N.lor 55296 (N.land (N.shiftr (c - 65536) 10) 1023).
Definition low_of (c : N) : N := N.lor 56320 (N.land (c - 65536) 1023).

(** A string the codec returns unchanged: code points only, and no high
    surrogate immediately followed by a low one. *)
Fixpoint json_safe (s : pystr) : bool :=
  match s with
  | [] => true
  | c :: r =>
      (c <? 1114112)
      && negb (is_high_surrogate c
               && match r with c' :: _ => is_low_surrogate c' | [] => false end)
      && json_safe r
  end.

(** The text after a [\\uXXXX] escape does not start with the escape of a
    low surrogate, nor with a malformed escape. *)
Definition lookahead_safe (tail : pystr) : bool :=
  match tail with
  | b1 :: u1 :: a2 :: b2 :: c2 :: d2 :: _ =>
      if (b1 =? 92) && (u1 =? 117) then
        match decode_hex4 a2 b2 c2 d2 with
        | Some x => negb (is_low_surrogate x)
        | None => false
        end
      else true
  | _ => true
  end.

(** The shape of the replacement of one character. *)
Inductive escape_shape (c : N) : pystr -> Prop :=
| shape_simple e :
    (e =? 117) = false -> unescape e = Some c -> escape_shape c [92; e]
| shape_plain :
    (c =? 34) = false -> (c =? 92) = false -> (c <? 32) = false ->
    escape_shape c [c]
| shape_u : c < 65536 -> escape_shape c (u_escape c)
| shape_pair :
    65536 <= c < 1114112 ->
    escape_shape c (u_escape (high_of c) ++ u_escape (low_of c)).

(** An object of two string fields, as [iterencode] writes it. *)
Definition two_fields (k1 r k2 t : pystr) : pyobj :=
  PDict [(k1, PStr r); (k2, PStr t)].

Section views.
Variable fr : pystr -> pystr.
Variable indent : option nat.

(** [e] is read back from its encoding with fuel [n], and its encoding
    starts with a character that is neither white space nor a closing
    bracket. *)
Definition decodes (n : nat) (e : pyobj) : Prop :=
  forall level,
    (forall f rest, (n <= f)%nat ->
       scan_once f (iterencode fr indent e level ++ rest) = POk e rest)
    /\ exists c x, iterencode fr indent e level = c :: x
                  /\ is_ws c = false /\ (c =? 93) = false.

(** The encoding of the elements of a list after the first. *)
Definition items (level : nat) (es : list pyobj) : pystr :=
  flat_map (fun y => item_separator indent ++ newline_indent indent (S level)
                       ++ iterencode fr indent y (S level)) es.
End views.

End Json.

(** ** Exceptions and the handler monad *)

Inductive exc_class : Type :=
| JSONDecodeError | AttributeError | IndexError | KeyError | TypeError
| ValidationError | OSError
| LibraryError.   (* any other Exception of transformers, requests or the OS *)

(** A raised exception: FastAPI's [HTTPException], or a Python exception
    with its class and its [str(e)].  All are subclasses of [Exception]:
    [KeyboardInterrupt] and the like, which [except Exception] lets
    through, are outside the model. *)
Inductive exn : Type :=
| HTTPException (status_code : Z) (detail : pystr)
| PyExc (cls : exc_class) (msg : pystr).

Definition exn_str (e : exn) : pystr :=
  match e with
  | HTTPException c d => Json.int_repr c ++ u ": " ++ d
  | PyExc _ m => m
  end.

Inductive outcome (A : Type) : Type :=
| Returns (a : A)
| Raises (e : exn).
Arguments Returns {A} a.
Arguments Raises {A} e.

(** The two locks of the program: the module-level [bots_lock] and the
    [self.lock] of the instance at hand. *)
Inductive lock_id : Type := bots_lock | self_lock.

(** What a handler does besides changing the state, in program order:
    lock operations, accesses to the [bots] dict, calls out of the process. *)
Inductive event : Type :=
| Acquire (l : lock_id)
| Release (l : lock_id)
| RegContains (name : pystr)      (* name in bots *)
| RegGet (name : pystr)           (* bots.get(name) *)
| RegSet (name : pystr)           (* bots[name] = inst *)
| RegKeys                         (* bots.keys() *)
| ModelLoad                       (* pipeline("text-generation", ...) *)
| ModelCall (prompt : pystr)      (* self.pipeline(full_prompt, ...) *)
| HttpPost (url : pystr) (name : pystr)
| HttpGet (url : pystr).

(** A computation over a state [S]: its outcome, the state it leaves (also
    when it raises: mutations are not undone) and the events it emitted. *)
Definition M (S A : Type) : Type := S -> outcome A * S * list event.

Definition ret {S A} (a : A) : M S A := fun s => (Returns a, s, []).
Definition raise {S A} (e : exn) : M S A := fun s => (Raises e, s, []).

Definition bind {S A B} (m : M S A) (k : A -> M S B) : M S B :=
  fun s =>
    let '(r, s1, t1) := m s in
    match r with
    | Returns a => let '(r2, s2, t2) := k a s1 in (r2, s2, t1 ++ t2)
    | Raises e => (Raises e, s1, t1)
    end.

Notation "x <- m ;; k" := (bind m (fun x => k))
  (at level 62, m at next level, right associativity).
Notation "m ;;; k" := (bind m (fun _ => k))
  (at level 62, right associativity).

Definition gets {S A} (f : S -> A) : M S A := fun s => (Returns (f s), s, []).
Definition modify {S} (f : S -> S) : M S unit := fun s => (Returns tt, f s, []).
Definition emit {S} (e : event) : M S unit := fun s => (Returns tt, s, [e]).
Definition lift {S A} (r : outcome A) : M S A := fun s => (r, s, []).

(** [try: m  except Exception as e: h e] *)
Definition try_except {S A} (m : M S A) (h : exn -> M S A) : M S A :=
  fun s =>
    let '(r, s1, t1) := m s in
    match r with
    | Returns a => (Returns a, s1, t1)
    | Raises e => let '(r2, s2, t2) := h e s1 in (r2, s2, t1 ++ t2)
    end.

(** [with l: m]: the lock is released on both exits. *)
Definition with_lock {S A} (l : lock_id) (m : M S A) : M S A :=
  fun s =>
    let '(r, s1, t1) := m s in (r, s1, Acquire l :: t1 ++ [Release l]).

(** ** Python operations on objects *)

Definition type_name (o : pyobj) : pystr :=
  match o with
  | PNone => u "NoneType" | PBool _ => u "bool" | PInt _ => u "int"
  | PFloat _ => u "float" | PStr _ => u "str" | PList _ => u "list"
  | PDict _ => u "dict"
  end.

Definition no_attribute (o : pyobj) (attr : string) : exn :=
  PyExc AttributeError
    ([39] ++ type_name o ++ u "' object has no attribute '" ++ u attr ++ [39]).

(** [o.append(x)] *)
Definition py_append (o x : pyobj) : outcome pyobj :=
  match o with
  | PList l => Returns (PList (l ++ [x]))
  | _ => Raises (no_attribute o "append")
  end.

(** [list(o)] *)
Definition py_list (o : pyobj) : outcome pyobj :=
  match o with
  | PList l => Returns (PList l)
  | PDict d => Returns (PList (List.map (fun kv => PStr (fst kv)) d))
  | PStr s => Returns (PList (List.map (fun c => PStr [c]) s))
  | _ => Raises (PyExc TypeError
                   ([39] ++ type_name o ++ u "' object is not iterable"))
  end.

(** [o[0]] *)
Definition py_first (o : pyobj) : outcome pyobj :=
  match o with
  | PList (x :: _) => Returns x
  | PList [] => Raises (PyExc IndexError (u "list index out of range"))
  | PStr (c :: _) => Returns (PStr [c])
  | PStr [] => Raises (PyExc IndexError (u "string index out of range"))
  | PDict _ => Raises (PyExc KeyError (u "0"))
  | _ => Raises (PyExc TypeError
                   ([39] ++ type_name o ++ u "' object is not subscriptable"))
  end.

(** [o[k]] for a [str] key [k] *)
Definition py_getitem (o : pyobj) (k : pystr) : outcome pyobj :=
  match o with
  | PDict d =>
      match dict_get d k with
      | Some v => Returns v
      | None => Raises (PyExc KeyError ([39] ++ k ++ [39]))
      end
  | PList _ =>
      Raises (PyExc TypeError
                (u "list indices must be integers or slices, not str"))
  | PStr _ => Raises (PyExc TypeError (u "string indices must be integers, not 'str'"))
  | _ => Raises (PyExc TypeError
                   ([39] ++ type_name o ++ u "' object is not subscriptable"))
  end.

(** [o.strip()] *)
Definition py_strip (o : pyobj) : outcome pystr :=
  match o with
  | PStr s => Returns (strip s)
  | _ => Raises (no_attribute o "strip")
  end.

(** [posixpath.join(a, b)] *)
Definition os_path_join (a b : pystr) : pystr :=
  match b with
  | c_slash :: _ => b
  | _ =>
      match rev a with
      | [] => b
      | c_slash :: _ => a ++ b
      | _ => a ++ [c_slash] ++ b
      end
  end.

(** ** Data model *)

(** [class BotConfig(BaseModel)] *)
Record BotConfig : Type := mkBotConfig {
  cfg_name : pystr;
  cfg_persona : pystr;
  cfg_max_length : Z
}.

(** [class CreateReq(BaseModel)] *)
Record CreateReq : Type := mkCreateReq {
  req_name : pystr;
  req_persona : pystr;
  req_max_length : Z
}.

(** [cfg.dict()] *)
Definition BotConfig_dict (c : BotConfig) : pyobj :=
  PDict [(u "name", PStr (cfg_name c)); (u "persona", PStr (cfg_persona c));
         (u "max_length", PInt (cfg_max_length c))].

(** A loaded text-generation pipeline: an opaque handle. *)
Inductive Pipeline : Type := mkPipeline (task model : pystr).

(** [class BotInstance]: [history] holds whatever was assigned to it, a
    list in normal operation. *)
Record BotInstance : Type := mkBotInstance {
  cfg : BotConfig;
  pipeline : option Pipeline;
  history : pyobj
}.

Definition set_history (h : pyobj) (b : BotInstance) : BotInstance :=
  {| cfg := cfg b; pipeline := pipeline b; history := h |}.

Definition set_pipeline (p : option Pipeline) (b : BotInstance) : BotInstance :=
  {| cfg := cfg b; pipeline := p; history := history b |}.

(** An HTTP response of [requests]. *)
Record Response : Type := mkResponse {
  status_code : Z;
  text : pystr
}.

(** [r.ok] *)
Definition resp_ok (r : Response) : bool :=
  negb ((400 <=? status_code r)%Z && (status_code r <? 600)%Z).

(** What the program does not contain: the behaviour, during one handler
    call, of the model, of the memory server and of the file system's
    permissions, and the library functions left abstract. *)
Record Env : Type := mkEnv {
  MEMORY_URL : pystr;
  (** [pipeline("text-generation", model="distilgpt2")] *)
  pipeline_new : outcome Pipeline;
  (** [self.pipeline(full_prompt, max_length=n, num_return_sequences=1)] *)
  pipeline_call : pystr -> Z -> outcome pyobj;
  (** [requests.post(url, data={'name': name}, files={'file': (name, f)})] *)
  requests_post : pystr -> pystr -> pystr -> outcome Response;
  (** [requests.get(url)] *)
  requests_get : pystr -> outcome Response;
  (** [open(path, "w")]: the exception it raises, if any *)
  open_w : pystr -> option exn;
  (** [repr] and [bool] of the float a literal denotes *)
  float_repr : pystr -> pystr;
  float_bool : pystr -> bool;
  (** [str(o)] of a float, list or dict *)
  obj_str : pyobj -> pystr;
  (** [str(e)] of the [JSONDecodeError] of a text *)
  json_errmsg : pystr -> pystr;
  (** pydantic's validation of the keyword arguments of [BotConfig] *)
  BotConfig_validate : list (pystr * pyobj) -> outcome BotConfig
}.

(** The state of the process: the module-level dict [bots] and the files
    under the working directory (path to text). *)
Record World : Type := mkWorld {
  bots : gmap pystr BotInstance;
  files : gmap pystr pystr
}.

Definition set_bots (f : gmap pystr BotInstance -> gmap pystr BotInstance)
  (w : World) : World :=
  {| bots := f (bots w); files := files w |}.

Definition set_files (f : gmap pystr pystr -> gmap pystr pystr)
  (w : World) : World :=
  {| bots := bots w; files := f (files w) |}.

Definition DATA_DIR : pystr := u "bots".

(** ** The program *)

(** The answer of [GET /health]: "status", "bots" and "memory". *)
Record HealthReport : Type := mkHealthReport {
  health_status : pystr;
  health_bots : gset pystr;
  health_memory : pystr
}.

Section program.
Variable env : Env.

(** [bool(o)] *)
Definition py_truthy (o : pyobj) : bool :=
  match o with
  | PNone => false
  | PBool b => b
  | PInt z => negb (z =? 0)%Z
  | PFloat lit => float_bool env lit
  | PStr s => negb (pystr_eqb s [])
  | PList l => match l with [] => false | _ => true end
  | PDict d => match d with [] => false | _ => true end
  end.

(** [str(o)], what an f-string puts in place of [{o}] *)
Definition py_str (o : pyobj) : pystr :=
  match o with
  | PNone => u "None"
  | PBool true => u "True"
  | PBool false => u "False"
  | PInt z => Json.int_repr z
  | PStr s => s
  | _ => obj_str env o
  end.

(** [json.load] of a text already read: the value or [JSONDecodeError]. *)
Definition json_load {S} (doc : pystr) : M S pyobj :=
  match Json.loads doc with
  | Some v => ret v
  | None => raise (PyExc JSONDecodeError (json_errmsg env doc))
  end.

(** [json.dumps(o, indent=indent)] *)
Definition json_dumps (indent : option nat) (o : pyobj) : pystr :=
  Json.dumps (float_repr env) indent o.

(** *** File system *)

(** [open(path, "w")]: creates or truncates the file. *)
Definition open_write (path : pystr) : M World unit :=
  match open_w env path with
  | Some e => raise e
  | None => modify (set_files (insert path []))
  end.

(** [f.write(data)] on a file opened by [open_write] and closed after. *)
Definition file_write (path data : pystr) : M World unit :=
  modify (set_files (insert path data)).

(** [os.path.exists(path)] *)
Definition os_path_exists (path : pystr) : M World bool :=
  gets (fun w => bool_decide (is_Some (files w !! path))).

(** [open(path, "r").read()] *)
Definition file_read (path : pystr) : M World pystr :=
  o <- gets (fun w => files w !! path) ;;
  match o with
  | Some data => ret data
  | None => raise (PyExc OSError (u "No such file or directory"))
  end.

(** *** class BotInstance *)

(** [_load_model] *)
Definition _load_model {S} : M S (option Pipeline) :=
  emit ModelLoad ;;;
  match pipeline_new env with
  | Returns p => ret (Some p)
  | Raises e => ret None            (* print("Model load error:", e) *)
  end.

(** [BotInstance(cfg)] *)
Definition BotInstance_init {S} (c : BotConfig) : M S BotInstance :=
  p <- _load_model ;;
  ret {| cfg := c; pipeline := p; history := PList [] |}.

Definition history_entry (role : string) (text : pyobj) : pyobj :=
  PDict [(u "role", PStr (u role)); (u "text", text)].

(** [self.history.append(x)] *)
Definition history_append (x : pyobj) : M BotInstance unit :=
  h <- gets history ;;
  h' <- lift (py_append h x) ;;
  modify (set_history h').

Definition fallback_reply : pystr := u "Model not available.".

(** [f"{self.cfg.persona}\nUser: {prompt}\nAssistant:"] *)
Definition full_prompt (c : BotConfig) (prompt : pyobj) : pystr :=
  cfg_persona c ++ [c_nl] ++ u "User: " ++ py_str prompt
    ++ [c_nl] ++ u "Assistant:".

(** [BotInstance.chat] *)
Definition chat (prompt : pyobj) : M BotInstance pystr :=
  with_lock self_lock (
    history_append (history_entry "user" prompt) ;;;
    p <- gets pipeline ;;
    reply <-
      match p with
      | None => ret fallback_reply
      | Some _ =>
          c <- gets cfg ;;
          emit (ModelCall (full_prompt c prompt)) ;;;
          out <- lift (pipeline_call env (full_prompt c prompt)
                         (cfg_max_length c)) ;;
          first <- lift (py_first out) ;;
          generated <- lift (py_getitem first (u "generated_text")) ;;
          lift (py_strip generated)
      end ;;
    history_append (history_entry "bot" (PStr reply)) ;;;
    ret reply).

(** [BotInstance.get_history] *)
Definition get_history (self : BotInstance) : outcome pyobj :=
  py_list (history self).

(** A method call on the instance [inst] that [bots] holds under [key]:
    the object is shared, so its mutations are seen through [bots].
    Returns the result and the instance as the call left it. *)
Definition on_instance {A} (key : pystr) (inst : BotInstance)
  (m : M BotInstance A) : M World (A * BotInstance) :=
  fun w =>
    let '(r, inst', t) := m inst in
    (match r with
     | Returns a => Returns (a, inst')
     | Raises e => Raises e
     end, set_bots (insert key inst') w, t).

(** *** Utilities *)

(** The local copy of a config, and the two endpoints of the memory
    server. *)
Definition config_path (c : BotConfig) : pystr :=
  os_path_join DATA_DIR (cfg_name c ++ u ".bot.json").

Definition save_url : pystr := MEMORY_URL env ++ u "/ml/save".

Definition load_url (name : pystr) : pystr :=
  MEMORY_URL env ++ u "/ml/load/" ++ (name ++ u ".bot.json").

(** [save_bot_to_memory] *)
Definition save_bot_to_memory (c : BotConfig) : M World (bool * pystr) :=
  try_except (
    let filename := cfg_name c ++ u ".bot.json" in
    let tmp_path := config_path c in
    open_write tmp_path ;;;
    file_write tmp_path (json_dumps (Some 2%nat) (BotConfig_dict c)) ;;;
    data <- file_read tmp_path ;;
    let url := save_url in
    emit (HttpPost url filename) ;;;
    r <- lift (requests_post env url filename data) ;;
    ret (resp_ok r, text r))
  (fun e => ret (false, exn_str e)).

(** [load_bot_from_memory]: the pair [(cfg, err)]. *)
Definition load_bot_from_memory (name : pystr) : M World (pyobj * pyobj) :=
  let filename := name ++ u ".bot.json" in
  try_except (
    let url := load_url name in
    emit (HttpGet url) ;;;
    r <- lift (requests_get env url) ;;
    if negb (status_code r =? 200)%Z
    then ret (PNone, PStr (u "memory returned " ++ Json.int_repr (status_code r)))
    else
      c <- json_load (text r) ;;
      ret (c, PNone))
  (fun e => ret (PNone, PStr (exn_str e))).

Definition history_file (name : pystr) : pystr := name ++ u ".history.json".

Definition history_path (name : pystr) : pystr :=
  os_path_join DATA_DIR (history_file name).

(** [persist_local_history] *)
Definition persist_local_history (name : pystr) (h : pyobj) : M World unit :=
  let path := history_path name in
  open_write path ;;;
  file_write path (json_dumps (Some 2%nat) h).

(** [load_local_history] *)
Definition load_local_history (name : pystr) : M World pyobj :=
  let path := history_path name in
  ex <- os_path_exists path ;;
  if ex : bool then
    doc <- file_read path ;;
    json_load doc
  else ret (PList []).

(** *** Handlers *)

Definition reg_contains (name : pystr) : M World bool :=
  emit (RegContains name) ;;;
  gets (fun w => bool_decide (is_Some (bots w !! name))).

Definition reg_get (name : pystr) : M World (option BotInstance) :=
  emit (RegGet name) ;;;
  gets (fun w => bots w !! name).

Definition reg_set (name : pystr) (inst : BotInstance) : M World unit :=
  emit (RegSet name) ;;;
  modify (set_bots (insert name inst)).

(** The config [create_bot] builds from a request, the pipeline
    [_load_model] leaves in a new instance, and the response of a
    successful [create_bot]. *)
Definition config_of (req : CreateReq) : BotConfig :=
  {| cfg_name := strip (req_name req); cfg_persona := req_persona req;
     cfg_max_length := req_max_length req |}.

Definition loaded_pipeline : option Pipeline :=
  match pipeline_new env with
  | Returns p => Some p
  | Raises _ => None
  end.

Definition created_response (name : pystr) (saved : bool * pystr) : pyobj :=
  PDict [(u "created", PStr name); (u "saved_to_memory", PBool (fst saved));
         (u "memory_resp", PStr (snd saved))].

(** [POST /create_bot] *)
Definition create_bot (req : CreateReq) : M World pyobj :=
  let name := strip (req_name req) in
  if pystr_eqb name [] then
    raise (HTTPException 400 (u "name required"))
  else
    c <- with_lock bots_lock (
      ex <- reg_contains name ;;
      if ex : bool then raise (HTTPException 400 (u "bot already exists"))
      else
        let c := {| cfg_name := name; cfg_persona := req_persona req;
                    cfg_max_length := req_max_length req |} in
        inst <- BotInstance_init c ;;
        h <- load_local_history name ;;
        reg_set name (set_history h inst) ;;;
        ret c) ;;
    saved <- save_bot_to_memory c ;;
    ret (PDict [(u "created", PStr name);
                (u "saved_to_memory", PBool (fst saved));
                (u "memory_resp", PStr (snd saved))]).

(** [BotConfig] called with the keyword arguments unpacked from
    [cfg_data]; the message names the class with its module, [main]. *)
Definition BotConfig_unpack (cfg_data : pyobj) : outcome BotConfig :=
  match cfg_data with
  | PDict d => BotConfig_validate env d
  | _ =>
      Raises (PyExc TypeError
                (u "main.BotConfig() argument after ** must be a mapping, not "
                   ++ type_name cfg_data))
  end.

(** [POST /deploy_bot]: the body of the [with] block returns [Some] of
    the response it returns early, or [None] when control leaves the
    block at its end. *)
Definition deploy_bot (name : pystr) : M World pyobj :=
  early <- with_lock bots_lock (
    ex <- reg_contains name ;;
    if ex : bool then
      ret (Some (PDict [(u "status", PStr (u "already_deployed"));
                        (u "name", PStr name)]))
    else
      loaded <- load_bot_from_memory name ;;
      let '(cfg_data, err) := loaded in
      c <- (if py_truthy cfg_data then lift (BotConfig_unpack cfg_data)
            else raise (HTTPException 404
                   (u "bot config not found in memory: " ++ py_str err))) ;;
      inst <- BotInstance_init c ;;
      h <- load_local_history name ;;
      reg_set name (set_history h inst) ;;;
      ret None) ;;
  match early with
  | Some resp => ret resp
  | None => ret (PDict [(u "deployed", PStr name)])
  end.

(** [body.get("message") if isinstance(body, dict) else None] *)
Definition body_message (body : pyobj) : pyobj :=
  match body with
  | PDict d => match dict_get d (u "message") with Some v => v | None => PNone end
  | _ => PNone
  end.

(** [POST /bot/{name}/chat] *)
Definition bot_chat (name : pystr) (body : pyobj) : M World pyobj :=
  let msg := body_message body in
  if negb (py_truthy msg) then
    raise (HTTPException 400 (u "message required"))
  else
    inst <- with_lock bots_lock (
      o <- reg_get name ;;
      match o with
      | None => raise (HTTPException 404 (u "bot not deployed"))
      | Some inst => ret inst
      end) ;;
    chatted <- on_instance name inst (chat msg) ;;
    let '(reply, inst1) := chatted in
    h <- lift (get_history inst1) ;;
    persist_local_history name h ;;;
    try_except (
      let hist_file := history_path name in
      open_write hist_file ;;;
      h2 <- lift (get_history inst1) ;;
      file_write hist_file (json_dumps None h2) ;;;
      data <- file_read hist_file ;;
      let url := save_url in
      emit (HttpPost url (history_file name)) ;;;
      _ <- lift (requests_post env url (history_file name) data) ;;
      ret tt)
    (fun _ => ret tt) ;;;
    ret (PDict [(u "reply", PStr reply)]).

(** [GET /bot/{name}/history] *)
Definition bot_history (name : pystr) : M World pyobj :=
  with_lock bots_lock (
    o <- reg_get name ;;
    match o with
    | None => raise (HTTPException 404 (u "bot not deployed"))
    | Some inst =>
        h <- lift (get_history inst) ;;
        ret (PDict [(u "history", h)])
    end).

(** [bots.keys()].  The dict lists its keys in insertion order, which the
    map of the model does not record: the keys are given as a set. *)
Definition reg_keys : M World (gset pystr) :=
  emit RegKeys ;;;
  gets (fun w => dom (bots w)).

(** [GET /bots]: the answer [{"bots": list(bots.keys())}], as the set of
    the names. *)
Definition list_bots : M World (gset pystr) :=
  with_lock bots_lock reg_keys.

(** [GET /health]: the keys are read without [bots_lock].  The route
    [GET /] returns a static file and is left out. *)
Definition health : M World HealthReport :=
  ks <- reg_keys ;;
  ret {| health_status := u "ok"; health_bots := ks;
         health_memory := MEMORY_URL env |}.

End program.

(** ** Derived views *)

(** What [load_bot_from_memory] returns, as a function of the answer of
    the memory server. *)
Definition fetch_config (env : Env) (name : pystr) : pyobj * pyobj :=
  match requests_get env (load_url env name) with
  | Raises e => (PNone, PStr (exn_str e))
  | Returns r =>
      if negb (status_code r =? 200)%Z
      then (PNone, PStr (u "memory returned " ++ Json.int_repr (status_code r)))
      else
        match Json.loads (text r) with
        | Some c => (c, PNone)
        | None => (PNone, PStr (json_errmsg env (text r)))
        end
  end.

(** [env] with another behaviour of [requests.post]. *)
Definition with_post (env : Env)
  (post : pystr -> pystr -> pystr -> outcome Response) : Env := {|
  MEMORY_URL := MEMORY_URL env;
  pipeline_new := pipeline_new env;
  pipeline_call := pipeline_call env;
  requests_post := post;
  requests_get := requests_get env;
  open_w := open_w env;
  float_repr := float_repr env;
  float_bool := float_bool env;
  obj_str := obj_str env;
  json_errmsg := json_errmsg env;
  BotConfig_validate := BotConfig_validate env
|}.

(** An entry of a history as [chat] appends them: a dict with the keys
    "role" and "text", in this order, both with a string the codec returns
    unchanged. *)
Definition is_history_entry (e : pyobj) : bool :=
  match e with
  | PDict [(k1, PStr r); (k2, PStr t)] =>
      pystr_eqb k1 (u "role") && pystr_eqb k2 (u "text")
      && Json.json_safe r && Json.json_safe t
  | _ => false
  end.

(** ** Scenarios *)

(** [n] sequential calls of [chat] on one instance, each with the
    behaviour of the world during that call; the replies in call order. *)
Fixpoint chat_sequence (calls : list (Env * pyobj)) : M BotInstance (list pystr) :=
  match calls with
  | [] => ret []
  | call :: rest =>
      reply <- chat (fst call) (snd call) ;;
      replies <- chat_sequence rest ;;
      ret (reply :: replies)
  end.

(** The two entries of one turn. *)
Definition turn (prompt : pyobj) (reply : pystr) : list pyobj :=
  [history_entry "user" prompt; history_entry "bot" (PStr reply)].

(** The entries of the turns of a sequence of calls, in call order. *)
Fixpoint turns (prompts : list pyobj) (replies : list pystr) : list pyobj :=
  match prompts, replies with
  | p :: ps, r :: rs => turn p r ++ turns ps rs
  | _, _ => []
  end.

(** A world in which nothing outside the process works: the model does
    not load, the memory server is unreachable; files can be written. *)
Definition env_offline : Env := {|
  MEMORY_URL := u "http://localhost:8000";
  pipeline_new := Raises (PyExc OSError (u "distilgpt2 not found"));
  pipeline_call := fun _ _ => Raises (PyExc LibraryError (u "no model"));
  requests_post := fun _ _ _ => Raises (PyExc LibraryError (u "connection refused"));
  requests_get := fun _ => Raises (PyExc LibraryError (u "connection refused"));
  open_w := fun _ => None;
  float_repr := fun lit => lit;
  float_bool := fun _ => true;
  obj_str := fun _ => u "<object>";
  json_errmsg := fun _ => u "Expecting value";
  BotConfig_validate := fun _ => Raises (PyExc ValidationError (u "invalid"))
|}.

(** As [env_offline], but the model loads and every call of it raises. *)
Definition env_model_raises : Env := {|
  MEMORY_URL := MEMORY_URL env_offline;
  pipeline_new := Returns (mkPipeline (u "text-generation") (u "distilgpt2"));
  pipeline_call := fun _ _ => Raises (PyExc LibraryError (u "CUDA out of memory"));
  requests_post := requests_post env_offline;
  requests_get := requests_get env_offline;
  open_w := open_w env_offline;
  float_repr := float_repr env_offline;
  float_bool := float_bool env_offline;
  obj_str := obj_str env_offline;
  json_errmsg := json_errmsg env_offline;
  BotConfig_validate := BotConfig_validate env_offline
|}.

Definition empty_world : World := {| bots := ∅; files := ∅ |}.

(** A bot as [BotInstance(cfg)] leaves it when the model does not load. *)
Definition helper_bot : BotInstance := {|
  cfg := {| cfg_name := u "helper"; cfg_persona := u "You are terse.";
            cfg_max_length := 64 |};
  pipeline := None;
  history := PList []
|}.

(** A bot whose model loaded. *)
Definition helper_bot_loaded : BotInstance :=
  set_pipeline (Some (mkPipeline (u "text-generation") (u "distilgpt2"))) helper_bot.

Definition helper_req : CreateReq :=
  {| req_name := u "helper"; req_persona := u "You are terse.";
     req_max_length := 64 |}.

(** A body [{"message": text}] of a chat request. *)
Definition message (text : string) : pyobj := PDict [(u "message", PStr (u text))].

(** The working directory of a process that ran before: the history file
    of "helper" holds one turn. *)
Definition seeded_world : World := {|
  bots := ∅;
  files := {[ history_path (u "helper") :=
                json_dumps env_offline (Some 2%nat)
                  (PList (turn (PStr (u "hello")) (u "Hello."))) ]}
|}.

(** Two chat calls while the model is down. *)
Definition two_calls : list (Env * pyobj) :=
  [(env_offline, PStr (u "hi")); (env_offline, PStr (u "again"))].

Definition after_two_calls : BotInstance :=
  snd (fst (chat_sequence two_calls helper_bot)).

(** The process after "helper" was created in an empty directory while
    nothing outside worked. *)
Definition world_with_helper : World :=
  snd (fst (create_bot env_offline helper_req empty_world)).

(** A directory whose history file for "helper" is not JSON. *)
Definition corrupt_world : World := {|
  bots := ∅;
  files := {[ history_path (u "helper") := u "[{" ]}
|}.

(** A directory whose history file for "helper" holds a JSON object. *)
Definition object_history_world : World := {|
  bots := ∅;
  files := {[ history_path (u "helper") := u "{}" ]}
|}.

(** A memory server that answers every upload with status 500. *)
Definition server_error : pystr -> pystr -> pystr -> outcome Response :=
  fun _ _ _ => Returns {| status_code := 500; text := u "Internal Server Error" |}.

(** A memory server that holds a config for every name, and the
    validation of pydantic on the configs it holds. *)
Definition env_remote_config : Env := {|
  MEMORY_URL := MEMORY_URL env_offline;
  pipeline_new := pipeline_new env_offline;
  pipeline_call := pipeline_call env_offline;
  requests_post := requests_post env_offline;
  requests_get := fun _ =>
    Returns {| status_code := 200;
               text := json_dumps env_offline None
                         (BotConfig_dict (config_of helper_req)) |};
  open_w := open_w env_offline;
  float_repr := float_repr env_offline;
  float_bool := float_bool env_offline;
  obj_str := obj_str env_offline;
  json_errmsg := json_errmsg env_offline;
  BotConfig_validate := fun _ => Returns (config_of helper_req)
|}.

(** *** Lock discipline of a trace *)

Definition is_bots_access (e : event) : bool :=
  match e with
  | RegContains _ | RegGet _ | RegSet _ | RegKeys => true
  | _ => false
  end.

(** Every access to [bots] happens while [bots_lock] is held ([held]
    tells whether it is at the start), the lock is never taken twice, and
    it is free at the end. *)
Fixpoint bots_guarded (held : bool) (t : list event) : bool :=
  match t with
  | [] => negb held
  | Acquire bots_lock :: t' => negb held && bots_guarded true t'
  | Release bots_lock :: t' => held && bots_guarded false t'
  | e :: t' => (if is_bots_access e then held else true) && bots_guarded held t'
  end.

(** The number of critical sections of [bots_lock] in a trace. *)
Fixpoint bots_sections (t : list event) : nat :=
  match t with
  | [] => 0
  | Acquire bots_lock :: t' => S (bots_sections t')
  | _ :: t' => bots_sections t'
  end.

(** ** Views for the further properties *)

(** What the model branch of [chat] computes for a prompt: the call of
    the pipeline, [out[0]["generated_text"]] and [.strip()]. *)
Definition generate (env : Env) (c : BotConfig) (prompt : pyobj) : outcome pystr :=
  match pipeline_call env (full_prompt env c prompt) (cfg_max_length c) with
  | Raises e => Raises e
  | Returns out =>
      match py_first out with
      | Raises e => Raises e
      | Returns first =>
          match py_getitem first (u "generated_text") with
          | Raises e => Raises e
          | Returns generated => py_strip generated
          end
      end
  end.


(** A string that neither starts nor ends with white space. *)
Definition trimmed (s : pystr) : bool :=
  match s with [] => true | c :: _ => negb (py_isspace c) end
  && match rev s with [] => true | c :: _ => negb (py_isspace c) end.

Definition lock_eqb (a b : lock_id) : bool :=
  match a, b with
  | bots_lock, bots_lock | self_lock, self_lock => true
  | _, _ => false
  end.

(** Whether the lock [l] is held after the event [e]. *)
Definition lock_after (l : lock_id) (held : bool) (e : event) : bool :=
  match e with
  | Acquire l' => if lock_eqb l l' then true else held
  | Release l' => if lock_eqb l l' then false else held
  | _ => held
  end.

(** Every event of the trace that satisfies [p] happens while the lock [l]
    is held ([want = true]) or while it is free ([want = false]); [held]
    tells whether [l] is held at the start. *)
Fixpoint always_when (l : lock_id) (want : bool) (p : event -> bool)
  (held : bool) (t : list event) : bool :=
  match t with
  | [] => true
  | e :: t' =>
      (if p e then Bool.eqb held want else true)
      && always_when l want p (lock_after l held e) t'
  end.

Definition is_model_load (e : event) : bool :=
  match e with ModelLoad => true | _ => false end.
Definition is_model_call (e : event) : bool :=
  match e with ModelCall _ => true | _ => false end.
Definition is_upload (e : event) : bool :=
  match e with HttpPost _ _ => true | _ => false end.
Definition is_download (e : event) : bool :=
  match e with HttpGet _ => true | _ => false end.
(** A call out of the process. *)
Definition is_external (e : event) : bool :=
  is_model_load e || is_model_call e || is_upload e || is_download e.

(** A request to one of the four handlers that work on one bot; the two
    routes that list the names are [list_bots] and [health]. *)
Inductive request : Type :=
| CreateBot (req : CreateReq)
| DeployBot (name : pystr)
| BotChat (name : pystr) (body : pyobj)
| BotHistory (name : pystr).

Definition handle (env : Env) (rq : request) : M World pyobj :=
  match rq with
  | CreateBot req => create_bot env req
  | DeployBot name => deploy_bot env name
  | BotChat name body => bot_chat env name body
  | BotHistory name => bot_history name
  end.

(** The state after a sequence of requests, each served in the world as it
    is during that request; a request that raises is answered with an
    error and the server goes on. *)
Fixpoint serve (rqs : list (Env * request)) (w : World) : World :=
  match rqs with
  | [] => w
  | rq :: rest => serve rest (snd (fst (handle (fst rq) (snd rq) w)))
  end.

(** [b'] is [b] with, at most, entries appended to its history. *)
Definition extends (b b' : BotInstance) : Prop :=
  cfg b' = cfg b /\ pipeline b' = pipeline b
  /\ forall h, history b = PList h -> exists more, history b' = PList (h ++ more).

(** *** Numbers of the codec *)

(** The text after a number does not continue it. *)
Definition number_stop (rest : pystr) : bool :=
  match rest with
  | [] => true
  | c :: _ => negb (Json.is_digit c || (c =? 46) || (c =? 101) || (c =? 69))
  end.

(** One step of [Json.digits_value]. *)
Definition digit_step (acc : Z) (c : N) : Z := (10 * acc + (Z.of_N c - 48))%Z.

(** *** Scenarios of the further properties *)

(** As [env_offline], but the model loads and answers every prompt with
    one sequence, padded with white space. *)
Definition env_model_ok : Env := {|
  MEMORY_URL := MEMORY_URL env_offline;
  pipeline_new := Returns (mkPipeline (u "text-generation") (u "distilgpt2"));
  pipeline_call := fun _ _ =>
    Returns (PList [PDict [(u "generated_text", PStr ([32; 32] ++ u "Hello there." ++ [32; 10]))]]);
  requests_post := requests_post env_offline;
  requests_get := requests_get env_offline;
  open_w := open_w env_offline;
  float_repr := float_repr env_offline;
  float_bool := float_bool env_offline;
  obj_str := obj_str env_offline;
  json_errmsg := json_errmsg env_offline;
  BotConfig_validate := BotConfig_validate env_offline
|}.

(** A bot whose history file held a JSON object. *)
Definition broken_bot : BotInstance := set_history (PDict []) helper_bot.

(** A morning of requests. *)
Definition some_requests : list (Env * request) :=
  [(env_offline, BotChat (u "helper") (message "hi"));
   (env_model_raises, CreateBot {| req_name := u " other ";
                                    req_persona := u "You are kind.";
                                    req_max_length := 32 |});
   (env_offline, CreateBot helper_req);
   (env_remote_config, DeployBot (u "third"));
   (env_model_raises, BotChat (u "other") (message "hello"));
   (env_offline, BotHistory (u "helper"));
   (env_offline, BotChat (u "helper") (message "again"))].

(** Text constants, paths and codec calls stay folded when a handler is
    run symbolically. *)
Arguments u : simpl never.
Arguments strip : simpl never.
Arguments os_path_join : simpl never.
Arguments history_path : simpl never.
Arguments json_dumps : simpl never.
Arguments Json.loads : simpl never.
Arguments Json.dumps : simpl never.
Arguments Json.int_repr : simpl never.
Arguments exn_str : simpl never.
Arguments full_prompt : simpl never.
Arguments py_str : simpl never.
Arguments py_truthy : simpl never.
Arguments pystr_eqb : simpl never.
Arguments load_local_history : simpl never.
Arguments save_bot_to_memory : simpl never.
Arguments load_bot_from_memory : simpl never.
Arguments chat : simpl never.
Arguments get_history : simpl never.
Arguments persist_local_history : simpl never.
Arguments body_message : simpl never.
Arguments config_path : simpl never.
Arguments save_url : simpl never.
Arguments load_url : simpl never.
Arguments history_file : simpl never.
Arguments generate : simpl never.

(** * Properties *)

(** Unfolds the monad so that a handler applied to a state computes. *)
Ltac run_m :=
  unfold with_lock, try_except, bind, ret, raise, gets, modify, emit, lift;
  cbn.

(** ** The Bot Agent *)

Section agent.
Variable env : Env.

Lemma history_append_list x self h :
  history self = PList h ->
  history_append x self
  = (Returns tt, set_history (PList (h ++ [x])) self, []).
Proof.
  intros Hh. unfold history_append. run_m. rewrite Hh. reflexivity.
Qed.

(** The user entry is appended first, whatever happens next. *)
Lemma chat_unavailable_run prompt self h :
  history self = PList h ->
  pipeline self = None ->
  chat env prompt self
  = (Returns fallback_reply,
     set_history (PList (h ++ [history_entry "user" prompt;
                               history_entry "bot" (PStr fallback_reply)])) self,
     [Acquire self_lock; Release self_lock]).
Proof.
  intros Hh Hp. unfold chat, history_append. run_m.
  rewrite Hh. cbn. rewrite Hp. cbn.
  rewrite <- app_assoc. reflexivity.
Qed.
(** What a call of [chat] that returns has done to the history. *)
Lemma chat_returns_history prompt self h reply self' t :
  history self = PList h ->
  chat env prompt self = (Returns reply, self', t) ->
  self' = set_history (PList (h ++ turn prompt reply)) self.
Proof.
  intros Hh. unfold chat, history_append. run_m. rewrite Hh. cbn.
  destruct (pipeline self) as [p|]; cbn.
  - destruct (pipeline_call env _ _) as [out|e]; cbn; [|discriminate].
    destruct (py_first out) as [x|e]; cbn; [|discriminate].
    destruct (py_getitem x _) as [g|e]; cbn; [|discriminate].
    destruct (py_strip g) as [r|e]; cbn; [|discriminate].
    intros [= <- <- <-]. unfold turn. now rewrite <- app_assoc.
  - intros [= <- <- <-]. unfold turn. now rewrite <- app_assoc.
Qed.
End agent.

Lemma chat_sequence_history calls : forall self h replies self' t,
  history self = PList h ->
  chat_sequence calls self = (Returns replies, self', t) ->
  length replies = length calls
  /\ self' = set_history (PList (h ++ turns (List.map snd calls) replies)) self.
Proof.
  induction calls as [|[env prompt] rest IH]; intros self h replies self' t Hh.
  - cbn. unfold ret. intros [= <- <- <-]. split; [reflexivity|].
    rewrite app_nil_r. rewrite <- Hh. now destruct self.
  - cbn [chat_sequence fst snd]. unfold bind at 1.
    destruct (chat env prompt self) as [[r1 s1] t1] eqn:E1.
    destruct r1 as [reply|e]; [|discriminate].
    apply (chat_returns_history env prompt self h) in E1; [|exact Hh].
    unfold bind at 1.
    destruct (chat_sequence rest s1) as [[r2 s2] t2] eqn:E2.
    destruct r2 as [reps|e]; [|discriminate].
    cbn. intros [= <- <- <-].
    apply (IH s1 (h ++ turn prompt reply)) in E2; [|subst s1; reflexivity].
    destruct E2 as [Hlen ->]. split; [cbn; now rewrite Hlen|].
    subst s1. cbn. now rewrite <- app_assoc.
Qed.

Lemma turns_length prompts : forall replies,
  length replies = length prompts ->
  length (turns prompts replies) = (2 * length prompts)%nat.
Proof.
  induction prompts as [|p ps IH]; intros [|r rs] Hlen; try discriminate.
  - reflexivity.
  - cbn in Hlen. cbn. rewrite (IH rs) by lia. lia.
Qed.

Lemma turns_lookup prompts : forall replies i p r,
  prompts !! i = Some p -> replies !! i = Some r ->
  turns prompts replies !! (2 * i)%nat = Some (history_entry "user" p)
  /\ turns prompts replies !! (2 * i + 1)%nat
     = Some (history_entry "bot" (PStr r)).
Proof.
  induction prompts as [|p0 ps IH]; intros [|r0 rs] i p r Hp Hr;
    try discriminate.
  destruct i as [|i].
  - cbn in Hp, Hr. injection Hp as <-. injection Hr as <-. now split.
  - cbn in Hp, Hr. destruct (IH rs i p r Hp Hr) as [H1 H2].
    replace (2 * S i)%nat with (S (S (2 * i))) by lia.
    replace (S (S (2 * i)) + 1)%nat with (S (S (2 * i + 1))) by lia.
    now split.
Qed.

(** C3, as stated, fails for a bot whose history is not a list:
    [create_bot] takes the history from the local history file as the
    decoder returns it, here a JSON object, and [chat] on that bot, with
    no pipeline bound, raises AttributeError at the first append instead
    of returning the fallback reply; nothing is appended. *)
Lemma chat_without_model_counterexample :
  let w1 := snd (fst (create_bot env_offline helper_req object_history_world)) in
  bots w1 !! u "helper" = Some broken_bot
  /\ pipeline broken_bot = None
  /\ chat env_offline (PStr (u "hi")) broken_bot
     = (Raises (PyExc AttributeError
                  (u "'dict' object has no attribute 'append'")),
        broken_bot, [Acquire self_lock; Release self_lock])
  /\ fst (fst (bot_chat env_offline (u "helper") (message "hi") w1))
     = Raises (PyExc AttributeError
                 (u "'dict' object has no attribute 'append'")).
Proof. vm_compute. repeat split; reflexivity. Qed.

(** C3, amended: on a bot whose history is a list, with no pipeline
    bound, [chat] returns the fixed fallback reply and appends exactly two
    entries to the history, the user entry with the prompt and then the
    bot entry with the fallback; nothing is raised. *)
Theorem chat_without_model env (prompt : pyobj) (self : BotInstance) (h : list pyobj) :
  history self = PList h ->
  pipeline self = None ->
  exists self' t,
    chat env prompt self = (Returns (u "Model not available."), self', t)
    /\ history self'
       = PList (h ++ [PDict [(u "role", PStr (u "user")); (u "text", prompt)];
                      PDict [(u "role", PStr (u "bot"));
                             (u "text", PStr (u "Model not available."))]])
    /\ cfg self' = cfg self /\ pipeline self' = pipeline self.
Proof.
  intros Hh Hp. eexists _, _. split.
  - apply (chat_unavailable_run env prompt self h Hh Hp).
  - now repeat split.
Qed.

Lemma chat_without_model_witness :
  exists self' t,
    chat env_offline (PStr (u "hi")) helper_bot
    = (Returns (u "Model not available."), self', t)
    /\ history self'
       = PList ([] ++ [PDict [(u "role", PStr (u "user")); (u "text", PStr (u "hi"))];
                       PDict [(u "role", PStr (u "bot"));
                              (u "text", PStr (u "Model not available."))]])
    /\ cfg self' = cfg helper_bot /\ pipeline self' = pipeline helper_bot.
Proof.
  apply (chat_without_model env_offline (PStr (u "hi")) helper_bot []);
    reflexivity.
Defined.

(** C1, as stated, fails: a bound pipeline whose call raises makes [chat]
    raise the same exception to its caller; the history then holds the
    user entry only. *)
Lemma chat_raises_counterexample :
  chat env_model_raises (PStr (u "hi")) helper_bot_loaded
  = (Raises (PyExc LibraryError (u "CUDA out of memory")),
     set_history (PList [history_entry "user" (PStr (u "hi"))]) helper_bot_loaded,
     [Acquire self_lock;
      ModelCall (full_prompt env_model_raises (cfg helper_bot_loaded) (PStr (u "hi")));
      Release self_lock]).
Proof. reflexivity. Qed.

(** C1, amended: on a bot whose history is a list, [chat] absorbs the
    unavailability of the model and only that.  With no pipeline bound it
    returns the fallback reply and does not raise; an exception raised by
    the call of a bound pipeline is not caught in [chat]: it reaches the
    caller, after the user entry has been appended and with the lock of
    the instance released. *)
Theorem chat_failure_handling env (prompt : pyobj) (self : BotInstance) (h : list pyobj) :
  history self = PList h ->
  (pipeline self = None ->
   fst (fst (chat env prompt self)) = Returns fallback_reply)
  /\ (forall p e,
        pipeline self = Some p ->
        pipeline_call env (full_prompt env (cfg self) prompt)
          (cfg_max_length (cfg self)) = Raises e ->
        chat env prompt self
        = (Raises e,
           set_history (PList (h ++ [history_entry "user" prompt])) self,
           [Acquire self_lock;
            ModelCall (full_prompt env (cfg self) prompt);
            Release self_lock])).
Proof.
  intros Hh. split.
  - intros Hp. now rewrite (chat_unavailable_run env prompt self h Hh Hp).
  - intros p e Hp He. unfold chat, history_append. run_m.
    rewrite Hh. cbn. rewrite Hp. cbn. rewrite He. reflexivity.
Qed.

Lemma chat_failure_handling_witness :
  fst (fst (chat env_offline (PStr (u "hi")) helper_bot))
  = Returns (u "Model not available.")
  /\ chat env_model_raises (PStr (u "hi")) helper_bot_loaded
     = (Raises (PyExc LibraryError (u "CUDA out of memory")),
        set_history (PList ([] ++ [history_entry "user" (PStr (u "hi"))]))
          helper_bot_loaded,
        [Acquire self_lock;
         ModelCall (full_prompt env_model_raises (cfg helper_bot_loaded)
                      (PStr (u "hi")));
         Release self_lock]).
Proof.
  split.
  - apply (proj1 (chat_failure_handling env_offline (PStr (u "hi"))
                    helper_bot [] eq_refl)).
    reflexivity.
  - apply (proj2 (chat_failure_handling env_model_raises (PStr (u "hi"))
                    helper_bot_loaded [] eq_refl)
             (mkPipeline (u "text-generation") (u "distilgpt2"))
             (PyExc LibraryError (u "CUDA out of memory")));
      reflexivity.
Defined.

(** C4, as stated, fails for a bot that [create_bot] seeded from a
    history file: after one chat call the history holds the stored turn
    and the new one, four entries. *)
Lemma history_after_chat_counterexample :
  let w1 := snd (fst (create_bot env_offline helper_req seeded_world)) in
  let w2 := snd (fst (bot_chat env_offline (u "helper") (message "hi") w1)) in
  fst (fst (bot_history (u "helper") w2))
  = Returns (PDict [(u "history",
       PList [history_entry "user" (PStr (u "hello"));
              history_entry "bot" (PStr (u "Hello."));
              history_entry "user" (PStr (u "hi"));
              history_entry "bot" (PStr (u "Model not available."))])]).
Proof. vm_compute. reflexivity. Qed.

(** C4, amended: after [n] sequential chat calls that all return,
    [get_history] returns the history the bot had before them followed by
    exactly [2n] entries in call order: for call [i] the user entry with
    its prompt, then the bot entry with its reply. *)
Theorem get_history_after_chats
  (calls : list (Env * pyobj)) (self : BotInstance) (h0 : list pyobj)
  (replies : list pystr) (self' : BotInstance) (t : list event) :
  history self = PList h0 ->
  chat_sequence calls self = (Returns replies, self', t) ->
  exists l,
    get_history self' = Returns (PList l)
    /\ length l = (length h0 + 2 * length calls)%nat
    /\ (forall i e, h0 !! i = Some e -> l !! i = Some e)
    /\ (forall i call reply,
          calls !! i = Some call -> replies !! i = Some reply ->
          l !! (length h0 + 2 * i)%nat = Some (history_entry "user" (snd call))
          /\ l !! (length h0 + 2 * i + 1)%nat
             = Some (history_entry "bot" (PStr reply))).
Proof.
  intros Hh Hrun.
  destruct (chat_sequence_history calls self h0 replies self' t Hh Hrun)
    as [Hlen ->].
  exists (h0 ++ turns (List.map snd calls) replies). split; [reflexivity|].
  split.
  { rewrite length_app, turns_length; rewrite length_map; [lia | exact Hlen]. }
  split.
  { intros i e Hi. now apply lookup_app_l_Some. }
  intros i call reply Hc Hr.
  assert (Hp : List.map snd calls !! i = Some (snd call)).
  { change (List.map snd calls) with (snd <$> calls).
    now rewrite list_lookup_fmap, Hc. }
  destruct (turns_lookup _ _ _ _ _ Hp Hr) as [H1 H2].
  split.
  - rewrite lookup_app_r by lia.
    replace (length h0 + 2 * i - length h0)%nat with (2 * i)%nat by lia.
    exact H1.
  - rewrite lookup_app_r by lia.
    replace (length h0 + 2 * i + 1 - length h0)%nat with (2 * i + 1)%nat by lia.
    exact H2.
Qed.

Lemma get_history_after_chats_witness :
  exists l,
    get_history after_two_calls = Returns (PList l)
    /\ length l = (length (@nil pyobj) + 2 * length two_calls)%nat
    /\ (forall i e, @nil pyobj !! i = Some e -> l !! i = Some e)
    /\ (forall i call reply,
          two_calls !! i = Some call ->
          [fallback_reply; fallback_reply] !! i = Some reply ->
          l !! (length (@nil pyobj) + 2 * i)%nat
          = Some (history_entry "user" (snd call))
          /\ l !! (length (@nil pyobj) + 2 * i + 1)%nat
             = Some (history_entry "bot" (PStr reply))).
Proof.
  apply (get_history_after_chats two_calls helper_bot []
           [fallback_reply; fallback_reply] after_two_calls
           (snd (chat_sequence two_calls helper_bot))).
  - reflexivity.
  - vm_compute. reflexivity.
Defined.

(** ** Local persistence and the remote store *)

Section persistence.
Variable env : Env.

(** [load_local_history] reads and neither writes nor calls out. *)
Lemma load_local_history_run name w :
  load_local_history env name w
  = (match files w !! history_path name with
     | None => Returns (PList [])
     | Some doc =>
         match Json.loads doc with
         | Some v => Returns v
         | None => Raises (PyExc JSONDecodeError (json_errmsg env doc))
         end
     end, w, []).
Proof.
  unfold load_local_history, os_path_exists, file_read, json_load.
  run_m.
  destruct (files w !! history_path name) as [doc|] eqn:E; cbn;
    rewrite ?E; cbn; [|reflexivity].
  destruct (Json.loads doc); reflexivity.
Qed.

(** The whole behaviour of [save_bot_to_memory]. *)
Lemma save_bot_to_memory_run c w :
  save_bot_to_memory env c w
  = match open_w env (config_path c) with
    | Some e => (Returns (false, exn_str e), w, [])
    | None =>
        let data := json_dumps env (Some 2%nat) (BotConfig_dict c) in
        (Returns
           match requests_post env (save_url env) (cfg_name c ++ u ".bot.json") data with
           | Returns r => (resp_ok r, text r)
           | Raises e => (false, exn_str e)
           end,
         set_files (insert (config_path c) data) w,
         [HttpPost (save_url env) (cfg_name c ++ u ".bot.json")])
    end.
Proof.
  unfold save_bot_to_memory, open_write, file_write, file_read.
  run_m. destruct (open_w env _) as [e|]; cbn; [reflexivity|].
  rewrite lookup_insert_eq. cbn.
  destruct (requests_post env _ _ _) as [r|e]; cbn;
    unfold set_files; cbn; rewrite insert_insert_eq; reflexivity.
Qed.
End persistence.

(** ** The registry *)

Section registry.
Variable env : Env.

(** The whole behaviour of [create_bot] on a name that is not
    registered. *)
Lemma create_bot_run req w :
  pystr_eqb (strip (req_name req)) [] = false ->
  bots w !! strip (req_name req) = None ->
  create_bot env req w
  = let name := strip (req_name req) in
    match fst (fst (load_local_history env name w)) with
    | Raises e =>
        (Raises e, w,
         [Acquire bots_lock; RegContains name; ModelLoad; Release bots_lock])
    | Returns h =>
        let inst := {| cfg := config_of req; pipeline := loaded_pipeline env;
                       history := h |} in
        let w1 := set_bots (insert name inst) w in
        let '(saved, w2, t) := save_bot_to_memory env (config_of req) w1 in
        (match saved with
         | Returns sv => Returns (created_response name sv)
         | Raises e => Raises e
         end, w2,
         [Acquire bots_lock; RegContains name; ModelLoad; RegSet name;
          Release bots_lock] ++ t)
    end.
Proof.
  intros Hne Hfree. unfold create_bot. rewrite Hne.
  unfold reg_contains, reg_set, BotInstance_init, _load_model. run_m.
  rewrite Hfree. cbn.
  unfold loaded_pipeline, config_of, created_response.
  destruct (pipeline_new env) as [p|e0]; cbn;
    rewrite !load_local_history_run; cbn;
    (destruct (files w !! history_path _) as [doc|]; cbn;
     [destruct (Json.loads doc); cbn|]);
    try reflexivity;
    rewrite !save_bot_to_memory_run;
    destruct (open_w env _); cbn; rewrite ?app_nil_r; reflexivity.
Qed.
End registry.

Section handlers.
Variable env : Env.

Lemma load_bot_from_memory_run name w :
  load_bot_from_memory env name w
  = (Returns (fetch_config env name), w, [HttpGet (load_url env name)]).
Proof.
  unfold load_bot_from_memory, fetch_config, json_load. run_m.
  destruct (requests_get env _) as [r|e]; cbn; [|reflexivity].
  destruct (negb _); cbn; [reflexivity|].
  destruct (Json.loads (text r)); reflexivity.
Qed.

Lemma persist_local_history_run name h w :
  persist_local_history env name h w
  = match open_w env (history_path name) with
    | Some e => (Raises e, w, [])
    | None =>
        (Returns tt,
         set_files (insert (history_path name) (json_dumps env (Some 2%nat) h)) w,
         [])
    end.
Proof.
  unfold persist_local_history, open_write, file_write. run_m.
  destruct (open_w env _); cbn; [reflexivity|].
  unfold set_files; cbn. now rewrite insert_insert_eq.
Qed.

Lemma pystr_eqb_eq a : forall b, pystr_eqb a b = true <-> a = b.
Proof.
  induction a as [|x a IH]; intros [|y b];
    unfold pystr_eqb; fold pystr_eqb; try easy.
  rewrite andb_true_iff, N.eqb_eq, IH. split.
  - now intros [-> ->].
  - now intros [= -> ->].
Qed.

Lemma pystr_eqb_nil_false a : a <> [] -> pystr_eqb a [] = false.
Proof. destruct a; [congruence | reflexivity]. Qed.

Lemma create_bot_empty_run req w :
  strip (req_name req) = [] ->
  create_bot env req w = (Raises (HTTPException 400 (u "name required")), w, []).
Proof. intros H. unfold create_bot. now rewrite H. Qed.

Lemma create_bot_exists_run req w inst :
  strip (req_name req) <> [] ->
  bots w !! strip (req_name req) = Some inst ->
  create_bot env req w
  = (Raises (HTTPException 400 (u "bot already exists")), w,
     [Acquire bots_lock; RegContains (strip (req_name req));
      Release bots_lock]).
Proof.
  intros Hne Hreg. unfold create_bot.
  rewrite (pystr_eqb_nil_false _ Hne).
  unfold reg_contains. run_m. rewrite Hreg. reflexivity.
Qed.

Lemma deploy_bot_registered_run name w inst :
  bots w !! name = Some inst ->
  deploy_bot env name w
  = (Returns (PDict [(u "status", PStr (u "already_deployed"));
                     (u "name", PStr name)]),
     w, [Acquire bots_lock; RegContains name; Release bots_lock]).
Proof.
  intros Hreg. unfold deploy_bot, reg_contains. run_m.
  rewrite Hreg. reflexivity.
Qed.

(** The whole behaviour of [deploy_bot] on a name that is not
    registered. *)
Lemma deploy_bot_run name w :
  bots w !! name = None ->
  deploy_bot env name w
  = let pre := [Acquire bots_lock; RegContains name;
                HttpGet (load_url env name)] in
    if py_truthy env (fst (fetch_config env name)) then
      match BotConfig_unpack env (fst (fetch_config env name)) with
      | Raises e => (Raises e, w, pre ++ [Release bots_lock])
      | Returns c =>
          match fst (fst (load_local_history env name w)) with
          | Raises e => (Raises e, w, pre ++ [ModelLoad; Release bots_lock])
          | Returns h =>
              (Returns (PDict [(u "deployed", PStr name)]),
               set_bots (insert name {| cfg := c;
                                        pipeline := loaded_pipeline env;
                                        history := h |}) w,
               pre ++ [ModelLoad; RegSet name; Release bots_lock])
          end
      end
    else
      (Raises (HTTPException 404
                 (u "bot config not found in memory: "
                    ++ py_str env (snd (fetch_config env name)))),
       w, pre ++ [Release bots_lock]).
Proof.
  intros Hfree. unfold deploy_bot, reg_contains, reg_set,
    BotInstance_init, _load_model. run_m.
  rewrite Hfree. cbn. rewrite !load_bot_from_memory_run. cbn.
  destruct (fetch_config env name) as [cfg_data err]. cbn.
  destruct (py_truthy env cfg_data); cbn; [|reflexivity].
  destruct (BotConfig_unpack env cfg_data) as [c|e]; cbn; [|reflexivity].
  unfold loaded_pipeline.
  destruct (pipeline_new env) as [p|e0]; cbn;
    rewrite !load_local_history_run; cbn;
    (destruct (files w !! history_path _) as [doc|]; cbn;
     [destruct (Json.loads doc); cbn|]);
    reflexivity.
Qed.

Lemma bot_chat_no_message_run name body w :
  py_truthy env (body_message body) = false ->
  bot_chat env name body w
  = (Raises (HTTPException 400 (u "message required")), w, []).
Proof. intros H. unfold bot_chat. now rewrite H. Qed.

Lemma bot_chat_unknown_run name body w :
  py_truthy env (body_message body) = true ->
  bots w !! name = None ->
  bot_chat env name body w
  = (Raises (HTTPException 404 (u "bot not deployed")), w,
     [Acquire bots_lock; RegGet name; Release bots_lock]).
Proof.
  intros H Hfree. unfold bot_chat, reg_get. rewrite H. run_m.
  rewrite Hfree. reflexivity.
Qed.

Lemma bot_history_unknown_run name w :
  bots w !! name = None ->
  bot_history name w
  = (Raises (HTTPException 404 (u "bot not deployed")), w,
     [Acquire bots_lock; RegGet name; Release bots_lock]).
Proof.
  intros Hfree. unfold bot_history, reg_get. run_m.
  rewrite Hfree. reflexivity.
Qed.

Lemma bot_history_run name w inst :
  bots w !! name = Some inst ->
  bot_history name w
  = (match get_history inst with
     | Returns h => Returns (PDict [(u "history", h)])
     | Raises e => Raises e
     end, w, [Acquire bots_lock; RegGet name; Release bots_lock]).
Proof.
  intros Hreg. unfold bot_history, reg_get. run_m.
  rewrite Hreg. cbn. destruct (get_history inst); reflexivity.
Qed.
End handlers.

Section chat_handler.
Variable env : Env.

(** The whole behaviour of [bot_chat] on a registered name.  The answer
    of the memory server to the upload does not occur in it. *)
Lemma bot_chat_run name body w inst :
  py_truthy env (body_message body) = true ->
  bots w !! name = Some inst ->
  bot_chat env name body w
  = let '(r, inst', t) := chat env (body_message body) inst in
    let w1 := set_bots (insert name inst') w in
    let pre := [Acquire bots_lock; RegGet name; Release bots_lock] ++ t in
    match r with
    | Raises e => (Raises e, w1, pre)
    | Returns reply =>
        match get_history inst' with
        | Raises e => (Raises e, w1, pre)
        | Returns h =>
            match open_w env (history_path name) with
            | Some e => (Raises e, w1, pre)
            | None =>
                (Returns (PDict [(u "reply", PStr reply)]),
                 set_files (insert (history_path name) (json_dumps env None h)) w1,
                 pre ++ [HttpPost (save_url env) (history_file name)])
            end
        end
    end.
Proof.
  intros Hmsg Hreg. unfold bot_chat, reg_get, on_instance. rewrite Hmsg.
  run_m. rewrite Hreg. cbn.
  destruct (chat env (body_message body) inst) as [[r inst'] t]. cbn.
  destruct r as [reply|e]; cbn; rewrite ?app_nil_r; [|reflexivity].
  destruct (get_history inst') as [h|e]; cbn; rewrite ?app_nil_r;
    [|reflexivity].
  rewrite persist_local_history_run.
  unfold open_write, file_write, file_read.
  destruct (open_w env (history_path name)) as [e|] eqn:Eo; cbn;
    rewrite ?app_nil_r; [reflexivity|].
  unfold modify, raise. cbn. rewrite !lookup_insert_eq. cbn.
  unfold set_files, set_bots. cbn.
  rewrite !insert_insert_eq.
  destruct (requests_post env _ _ _); cbn; rewrite ?app_nil_r;
    reflexivity.
Qed.
End chat_handler.

(** ** [str.strip] *)




Lemma forallb_rev {A} (f : A -> bool) l :
  forallb f (rev l) = forallb f l.
Proof.
  induction l as [|x l IH]; cbn; [reflexivity|].
  rewrite forallb_app, IH. cbn. rewrite andb_true_r. apply andb_comm.
Qed.




(** ** Lock discipline of the handlers *)

Lemma create_bot_locking env req w :
  bots_guarded false (snd (create_bot env req w)) = true
  /\ (bots_sections (snd (create_bot env req w)) <= 1)%nat.
Proof.
  destruct (strip (req_name req)) as [|c s] eqn:En.
  - rewrite create_bot_empty_run by exact En. cbn. split; [reflexivity|lia].
  - assert (Hne : strip (req_name req) <> []) by (rewrite En; discriminate).
    destruct (bots w !! strip (req_name req)) as [inst|] eqn:Hreg.
    + rewrite (create_bot_exists_run env req w inst Hne Hreg). cbn.
      split; [reflexivity|lia].
    + rewrite (create_bot_run env req w (pystr_eqb_nil_false _ Hne) Hreg).
      cbn. rewrite load_local_history_run. cbn.
      destruct (files w !! _) as [doc|]; [destruct (Json.loads doc)|];
        cbn; rewrite ?save_bot_to_memory_run;
        try destruct (open_w env _); cbn; split; (reflexivity || lia).
Qed.

(** ** Claims on the registry *)

(** C2: a create call on a name that is already registered fails with
    "bot already exists" (status 400) and leaves the whole state as it
    was: the mapping, the registered bot with its config and history, and
    the files.  The membership test is made under [bots_lock]; and in
    every call of [create_bot] the accesses to the mapping, the test and
    the insert, lie within one and the same critical section of
    [bots_lock]. *)
Theorem create_bot_already_exists env (req : CreateReq) (w : World) (inst : BotInstance) :
  strip (req_name req) <> [] ->
  bots w !! strip (req_name req) = Some inst ->
  create_bot env req w
  = (Raises (HTTPException 400 (u "bot already exists")), w,
     [Acquire bots_lock; RegContains (strip (req_name req)); Release bots_lock])
  /\ (forall env' req' w',
        bots_guarded false (snd (create_bot env' req' w')) = true
        /\ (bots_sections (snd (create_bot env' req' w')) <= 1)%nat).
Proof.
  intros Hne Hreg. split.
  - exact (create_bot_exists_run env req w inst Hne Hreg).
  - intros env' req' w'. apply create_bot_locking.
Qed.

Lemma create_bot_already_exists_witness :
  create_bot env_model_raises helper_req world_with_helper
  = (Raises (HTTPException 400 (u "bot already exists")), world_with_helper,
     [Acquire bots_lock; RegContains (strip (req_name helper_req));
      Release bots_lock])
  /\ (forall env' req' w',
        bots_guarded false (snd (create_bot env' req' w')) = true
        /\ (bots_sections (snd (create_bot env' req' w')) <= 1)%nat).
Proof.
  apply (create_bot_already_exists env_model_raises helper_req
           world_with_helper helper_bot).
  - vm_compute. discriminate.
  - vm_compute. reflexivity.
Defined.

(** C5: [deploy_bot] on a registered name returns "already_deployed" and
    changes nothing: no instance is built, the mapping, the bot's config
    and history and the files stay as they were, and the memory server is
    not asked (no request is made, the answer holds for every
    environment). *)
Theorem deploy_bot_idempotent env (name : pystr) (w : World) (inst : BotInstance) :
  bots w !! name = Some inst ->
  deploy_bot env name w
  = (Returns (PDict [(u "status", PStr (u "already_deployed"));
                     (u "name", PStr name)]),
     w, [Acquire bots_lock; RegContains name; Release bots_lock]).
Proof. apply deploy_bot_registered_run. Qed.

Lemma deploy_bot_idempotent_witness :
  deploy_bot env_model_raises (u "helper") world_with_helper
  = (Returns (PDict [(u "status", PStr (u "already_deployed"));
                     (u "name", PStr (u "helper"))]),
     world_with_helper,
     [Acquire bots_lock; RegContains (u "helper"); Release bots_lock]).
Proof.
  apply (deploy_bot_idempotent env_model_raises (u "helper")
           world_with_helper helper_bot).
  vm_compute. reflexivity.
Defined.

(** C6: [load_local_history] returns the empty list when the history file
    does not exist, and raises the decoder's [JSONDecodeError] when the
    file exists and its text is not JSON; it does not fall back to an
    empty history. *)
Theorem load_local_history_contract env (name : pystr) (w : World) :
  (files w !! history_path name = None ->
   load_local_history env name w = (Returns (PList []), w, []))
  /\ (forall doc,
        files w !! history_path name = Some doc ->
        Json.decode doc = Json.PErr ->
        load_local_history env name w
        = (Raises (PyExc JSONDecodeError (json_errmsg env doc)), w, [])).
Proof.
  split.
  - intros H. rewrite load_local_history_run, H. reflexivity.
  - intros doc H Hd. rewrite load_local_history_run, H.
    unfold Json.loads. rewrite Hd. reflexivity.
Qed.

Lemma load_local_history_contract_witness :
  load_local_history env_offline (u "helper") empty_world
  = (Returns (PList []), empty_world, [])
  /\ load_local_history env_offline (u "helper") corrupt_world
     = (Raises (PyExc JSONDecodeError (json_errmsg env_offline (u "[{"))),
        corrupt_world, []).
Proof.
  split.
  - apply (load_local_history_contract env_offline (u "helper") empty_world).
    reflexivity.
  - apply (load_local_history_contract env_offline (u "helper") corrupt_world).
    + vm_compute. reflexivity.
    + vm_compute. reflexivity.
Defined.

(** [save_bot_to_memory] returns in every environment and leaves the
    mapping alone. *)
Lemma save_bot_to_memory_total env c w :
  exists saved w' t,
    save_bot_to_memory env c w = (Returns saved, w', t) /\ bots w' = bots w.
Proof.
  rewrite save_bot_to_memory_run.
  destruct (open_w env (config_path c)); eexists _, _, _; split; reflexivity.
Qed.

(** A call of [create_bot] that returns has registered the bot under the
    stripped name. *)
Lemma create_bot_returns env req w resp w1 t :
  create_bot env req w = (Returns resp, w1, t) ->
  strip (req_name req) <> []
  /\ bots w !! strip (req_name req) = None
  /\ exists h saved,
       fst (fst (load_local_history env (strip (req_name req)) w)) = Returns h
       /\ bots w1 = <[strip (req_name req) :=
                        {| cfg := config_of req;
                           pipeline := loaded_pipeline env;
                           history := h |}]> (bots w)
       /\ fst (fst (save_bot_to_memory env (config_of req)
                      (set_bots (insert (strip (req_name req))
                                   {| cfg := config_of req;
                                      pipeline := loaded_pipeline env;
                                      history := h |}) w)))
          = Returns saved
       /\ resp = created_response (strip (req_name req)) saved.
Proof.
  intros Hrun.
  destruct (strip (req_name req)) as [|c s] eqn:En.
  { rewrite create_bot_empty_run in Hrun by exact En. discriminate. }
  rewrite <- En in *.
  assert (Hne : strip (req_name req) <> []) by (rewrite En; discriminate).
  destruct (bots w !! strip (req_name req)) as [inst|] eqn:Hreg.
  { rewrite (create_bot_exists_run env req w inst Hne Hreg) in Hrun.
    discriminate. }
  rewrite (create_bot_run env req w (pystr_eqb_nil_false _ Hne) Hreg) in Hrun.
  cbn zeta in Hrun.
  destruct (fst (fst (load_local_history env _ w))) as [h|e]; [|discriminate].
  destruct (save_bot_to_memory_total env (config_of req)
              (set_bots (insert (strip (req_name req))
                           {| cfg := config_of req;
                              pipeline := loaded_pipeline env;
                              history := h |}) w))
    as (saved & w' & t' & Hs & Hb).
  rewrite Hs in *. injection Hrun as <- <- <-.
  repeat split; try assumption.
  exists h, saved. split; [reflexivity|]. split; [exact Hb|].
  split; [now rewrite Hs | reflexivity].
Qed.

(** C7: failures of the memory server do not fail the operation that
    met them.  [save_bot_to_memory] returns in every environment: an
    exception of the upload gives [(False, str(e))], an error status of
    the server gives [(False, r.text)].  A [create_bot] that registered
    its bot returns the response that reports what the upload returned.
    The result of [bot_chat], the state it leaves and what it does are
    the same whatever the upload of the history does, and when the turn
    itself went through it returns the reply. *)
Theorem remote_failures_absorbed env :
  (forall c w, exists saved w' t,
      save_bot_to_memory env c w = (Returns saved, w', t) /\ bots w' = bots w)
  /\ (forall c w e,
        open_w env (config_path c) = None ->
        requests_post env (save_url env) (cfg_name c ++ u ".bot.json")
          (json_dumps env (Some 2%nat) (BotConfig_dict c)) = Raises e ->
        fst (fst (save_bot_to_memory env c w)) = Returns (false, exn_str e))
  /\ (forall c w r,
        open_w env (config_path c) = None ->
        requests_post env (save_url env) (cfg_name c ++ u ".bot.json")
          (json_dumps env (Some 2%nat) (BotConfig_dict c)) = Returns r ->
        fst (fst (save_bot_to_memory env c w)) = Returns (resp_ok r, text r))
  /\ (forall req w h,
        strip (req_name req) <> [] ->
        bots w !! strip (req_name req) = None ->
        fst (fst (load_local_history env (strip (req_name req)) w)) = Returns h ->
        let inst := {| cfg := config_of req; pipeline := loaded_pipeline env;
                       history := h |} in
        exists saved w' t,
          create_bot env req w
          = (Returns (created_response (strip (req_name req)) saved), w', t)
          /\ bots w' = <[strip (req_name req) := inst]> (bots w)
          /\ fst (fst (save_bot_to_memory env (config_of req)
                         (set_bots (insert (strip (req_name req)) inst) w)))
             = Returns saved)
  /\ (forall post name body w,
        bot_chat (with_post env post) name body w = bot_chat env name body w)
  /\ (forall name body w inst reply inst' t h,
        py_truthy env (body_message body) = true ->
        bots w !! name = Some inst ->
        chat env (body_message body) inst = (Returns reply, inst', t) ->
        get_history inst' = Returns h ->
        open_w env (history_path name) = None ->
        fst (fst (bot_chat env name body w))
        = Returns (PDict [(u "reply", PStr reply)])).
Proof.
  repeat apply conj.
  - intros c w. apply save_bot_to_memory_total.
  - intros c w e Ho Hp. rewrite save_bot_to_memory_run, Ho. cbn.
    now rewrite Hp.
  - intros c w r Ho Hp. rewrite save_bot_to_memory_run, Ho. cbn.
    now rewrite Hp.
  - intros req w h Hne Hreg Hl inst.
    rewrite (create_bot_run env req w (pystr_eqb_nil_false _ Hne) Hreg).
    cbn zeta. rewrite Hl. fold inst.
    destruct (save_bot_to_memory_total env (config_of req)
                (set_bots (insert (strip (req_name req)) inst) w))
      as (saved & w' & t' & Hs & Hb).
    rewrite Hs. eexists saved, w', _. split; [reflexivity|].
    split; [exact Hb | reflexivity].
  - intros post name body w.
    destruct (py_truthy env (body_message body)) eqn:Hm.
    + destruct (bots w !! name) as [inst|] eqn:Hreg.
      * rewrite (bot_chat_run env name body w inst Hm Hreg).
        rewrite (bot_chat_run (with_post env post) name body w inst Hm Hreg).
        reflexivity.
      * rewrite (bot_chat_unknown_run env name body w Hm Hreg).
        now rewrite (bot_chat_unknown_run (with_post env post) name body w Hm Hreg).
    + rewrite (bot_chat_no_message_run env name body w Hm).
      now rewrite (bot_chat_no_message_run (with_post env post) name body w Hm).
  - intros name body w inst reply inst' t h Hm Hreg Hc Hh Ho.
    rewrite (bot_chat_run env name body w inst Hm Hreg), Hc, Hh, Ho.
    reflexivity.
Qed.

Lemma remote_failures_absorbed_witness :
  fst (fst (save_bot_to_memory env_offline (config_of helper_req) empty_world))
  = Returns (false, u "connection refused")
  /\ fst (fst (save_bot_to_memory (with_post env_offline server_error)
                 (config_of helper_req) empty_world))
     = Returns (false, u "Internal Server Error")
  /\ (exists saved w' t,
        create_bot env_offline helper_req empty_world
        = (Returns (created_response (strip (req_name helper_req)) saved), w', t)
        /\ bots w' = <[strip (req_name helper_req) := helper_bot]> (bots empty_world)
        /\ fst (fst (save_bot_to_memory env_offline (config_of helper_req)
                       (set_bots (insert (strip (req_name helper_req)) helper_bot)
                          empty_world)))
           = Returns saved)
  /\ fst (fst (bot_chat env_offline (u "helper") (message "hi") world_with_helper))
     = Returns (PDict [(u "reply", PStr (u "Model not available."))]).
Proof.
  split; [|split; [|split]].
  - apply (proj1 (proj2 (remote_failures_absorbed env_offline))
             (config_of helper_req) empty_world
             (PyExc LibraryError (u "connection refused"))); reflexivity.
  - apply (proj1 (proj2 (proj2 (remote_failures_absorbed
                                  (with_post env_offline server_error))))
             (config_of helper_req) empty_world
             {| status_code := 500; text := u "Internal Server Error" |});
      reflexivity.
  - apply (proj1 (proj2 (proj2 (proj2 (remote_failures_absorbed env_offline))))
             helper_req empty_world (PList []));
      vm_compute; (reflexivity || discriminate).
  - apply (proj2 (proj2 (proj2 (proj2 (proj2
             (remote_failures_absorbed env_offline)))))
             (u "helper") (message "hi") world_with_helper helper_bot
             (u "Model not available.")
             (snd (fst (chat env_offline (PStr (u "hi")) helper_bot)))
             (snd (chat env_offline (PStr (u "hi")) helper_bot))
             (PList (turn (PStr (u "hi")) (u "Model not available."))));
      vm_compute; reflexivity.
Defined.



(** C10: when reading the history file raises, as it does when the file
    exists and is not JSON, [create_bot] and [deploy_bot] raise as well
    and leave the state as it was: the instance they built is not
    inserted, so no name becomes reachable.  For [deploy_bot] this holds
    whatever the memory server answered; when it delivered a config the
    exception is that of the history file. *)
Theorem history_load_failure_keeps_registry env :
  (forall req w e,
      strip (req_name req) <> [] ->
      bots w !! strip (req_name req) = None ->
      fst (fst (load_local_history env (strip (req_name req)) w)) = Raises e ->
      create_bot env req w
      = (Raises e, w,
         [Acquire bots_lock; RegContains (strip (req_name req)); ModelLoad;
          Release bots_lock]))
  /\ (forall name w e,
        bots w !! name = None ->
        fst (fst (load_local_history env name w)) = Raises e ->
        exists e' t, deploy_bot env name w = (Raises e', w, t))
  /\ (forall name w e c,
        bots w !! name = None ->
        fst (fst (load_local_history env name w)) = Raises e ->
        py_truthy env (fst (fetch_config env name)) = true ->
        BotConfig_unpack env (fst (fetch_config env name)) = Returns c ->
        deploy_bot env name w
        = (Raises e, w,
           [Acquire bots_lock; RegContains name; HttpGet (load_url env name);
            ModelLoad; Release bots_lock]))
  /\ (forall name w doc,
        files w !! history_path name = Some doc ->
        Json.decode doc = Json.PErr ->
        fst (fst (load_local_history env name w))
        = Raises (PyExc JSONDecodeError (json_errmsg env doc))).
Proof.
  repeat apply conj.
  - intros req w e Hne Hfree Hl.
    rewrite (create_bot_run env req w (pystr_eqb_nil_false _ Hne) Hfree).
    cbn zeta. now rewrite Hl.
  - intros name w e Hfree Hl. rewrite (deploy_bot_run env name w Hfree).
    cbn zeta. rewrite Hl.
    destruct (py_truthy env _); [destruct (BotConfig_unpack env _)|];
      eexists _, _; reflexivity.
  - intros name w e c Hfree Hl Ht Hc.
    rewrite (deploy_bot_run env name w Hfree). cbn zeta.
    now rewrite Ht, Hc, Hl.
  - intros name w doc Hf Hd. rewrite load_local_history_run, Hf.
    unfold Json.loads. now rewrite Hd.
Qed.

Lemma history_load_failure_keeps_registry_witness :
  create_bot env_offline helper_req corrupt_world
  = (Raises (PyExc JSONDecodeError (u "Expecting value")), corrupt_world,
     [Acquire bots_lock; RegContains (strip (req_name helper_req)); ModelLoad;
      Release bots_lock])
  /\ deploy_bot env_remote_config (u "helper") corrupt_world
     = (Raises (PyExc JSONDecodeError (u "Expecting value")), corrupt_world,
        [Acquire bots_lock; RegContains (u "helper");
         HttpGet (load_url env_remote_config (u "helper"));
         ModelLoad; Release bots_lock]).
Proof.
  split.
  - apply (proj1 (history_load_failure_keeps_registry env_offline)
             helper_req corrupt_world
             (PyExc JSONDecodeError (u "Expecting value")));
      vm_compute; (reflexivity || discriminate).
  - apply (proj1 (proj2 (proj2 (history_load_failure_keeps_registry
                                  env_remote_config)))
             (u "helper") corrupt_world
             (PyExc JSONDecodeError (u "Expecting value"))
             (config_of helper_req));
      vm_compute; reflexivity.
Defined.

(** ** The json codec *)

Module JsonFacts.
Import Json.

Lemma hexval_hexdigit d : d < 16 -> hexval (hexdigit d) = Some d.
Proof.
  intros H.
  assert (E : d = 0 \/ d = 1 \/ d = 2 \/ d = 3 \/ d = 4 \/ d = 5 \/ d = 6
              \/ d = 7 \/ d = 8 \/ d = 9 \/ d = 10 \/ d = 11 \/ d = 12
              \/ d = 13 \/ d = 14 \/ d = 15) by lia.
  repeat (destruct E as [-> | E]; [reflexivity|]). now subst.
Qed.

Lemma decode_hex4_hex4 n :
  n < 65536 ->
  decode_hex4 (hexdigit (n / 4096 mod 16)) (hexdigit (n / 256 mod 16))
    (hexdigit (n / 16 mod 16)) (hexdigit (n mod 16)) = Some n.
Proof.
  intros H. unfold decode_hex4.
  rewrite !hexval_hexdigit by (apply N.mod_lt; discriminate).
  f_equal. zify. Z.to_euclidean_division_equations. lia.
Qed.

Lemma lor_disjoint k n b : b < 2 ^ n -> N.lor (k * 2 ^ n) b = k * 2 ^ n + b.
Proof.
  intros Hb.
  assert (Hl : N.land (k * 2 ^ n) b = 0).
  { apply N.bits_inj. intros m. rewrite N.land_spec, N.bits_0.
    destruct (N.lt_ge_cases m n) as [Hm|Hm].
    - now rewrite N.mul_pow2_bits_low.
    - rewrite andb_false_iff. right.
      destruct (N.eq_dec b 0) as [->|Hb0]; [apply N.bits_0|].
      apply N.bits_above_log2. apply N.log2_lt_pow2; [lia|].
      eapply N.lt_le_trans; [exact Hb|]. apply N.pow_le_mono_r; [discriminate|exact Hm]. }
  rewrite <- (N.lxor_lor _ _ Hl). symmetry. now apply N.add_nocarry_lxor.
Qed.


Lemma high_of_eq c : 65536 <= c < 1114112 -> high_of c = 55296 + (c - 65536) / 1024.
Proof.
  intros H. unfold high_of.
  change 1023 with (N.ones 10). rewrite N.land_ones, N.shiftr_div_pow2.
  change (2 ^ 10) with 1024.
  rewrite N.mod_small by (zify; Z.to_euclidean_division_equations; lia).
  change 55296 with (54 * 2 ^ 10). apply lor_disjoint.
  change (2 ^ 10) with 1024. zify; Z.to_euclidean_division_equations; lia.
Qed.

Lemma low_of_eq c : 65536 <= c -> low_of c = 56320 + (c - 65536) mod 1024.
Proof.
  intros H. unfold low_of.
  change 1023 with (N.ones 10). rewrite N.land_ones.
  change (2 ^ 10) with 1024.
  change 56320 with (55 * 2 ^ 10). apply lor_disjoint.
  change (2 ^ 10) with 1024. apply N.mod_lt. discriminate.
Qed.

Lemma join_high_low c :
  65536 <= c < 1114112 -> join_surrogates (high_of c) (low_of c) = c.
Proof.
  intros H. rewrite high_of_eq, low_of_eq by lia. unfold join_surrogates.
  rewrite N.shiftl_mul_pow2.
  rewrite (N.add_comm 55296), (N.add_comm 56320), !N.add_sub.
  rewrite lor_disjoint by (change (2 ^ 10) with 1024; apply N.mod_lt; discriminate).
  change (2 ^ 10) with 1024.
  zify; Z.to_euclidean_division_equations; lia.
Qed.



Lemma scanstring_u uni acc tail a b c d :
  decode_hex4 a b c d = Some uni ->
  is_high_surrogate uni = false \/ lookahead_safe tail = true ->
  scanstring (92 :: 117 :: a :: b :: c :: d :: tail) acc
  = scanstring tail (uni :: acc).
Proof.
  intros Hd Hs. cbn [scanstring]. change (92 =? 34) with false.
  change (92 =? 92) with true. change (117 =? 117) with true. cbv iota.
  rewrite Hd. destruct (is_high_surrogate uni) eqn:Eh; [|reflexivity].
  destruct Hs as [Hs|Hs]; [discriminate|].
  unfold lookahead_safe in Hs.
  destruct tail as [|b1 [|u1 [|a2 [|b2 [|c2 [|d2 r3]]]]]]; try reflexivity.
  destruct ((b1 =? 92) && (u1 =? 117)); [|reflexivity].
  destruct (decode_hex4 a2 b2 c2 d2) as [x|]; [|discriminate].
  now destruct (is_low_surrogate x).
Qed.

Lemma scanstring_pair hi lo acc tail a b c d a2 b2 c2 d2 :
  decode_hex4 a b c d = Some hi -> is_high_surrogate hi = true ->
  decode_hex4 a2 b2 c2 d2 = Some lo -> is_low_surrogate lo = true ->
  scanstring (92 :: 117 :: a :: b :: c :: d :: 92 :: 117 :: a2 :: b2 :: c2 :: d2 :: tail) acc
  = scanstring tail (join_surrogates hi lo :: acc).
Proof.
  intros Hd Hh Hd2 Hl. cbn [scanstring]. change (92 =? 34) with false.
  change (92 =? 92) with true. change (117 =? 117) with true. cbv iota.
  rewrite Hd, Hh. cbn [andb]. cbv iota. now rewrite Hd2, Hl.
Qed.


Lemma scanstring_simple e x acc tail :
  (e =? 117) = false -> unescape e = Some x ->
  scanstring (92 :: e :: tail) acc = scanstring tail (x :: acc).
Proof.
  intros He Hx. cbn [scanstring]. change (92 =? 34) with false.
  change (92 =? 92) with true. cbv iota. now rewrite He, Hx.
Qed.

Lemma scanstring_plain c acc tail :
  (c =? 34) = false -> (c =? 92) = false -> (c <? 32) = false ->
  scanstring (c :: tail) acc = scanstring tail (c :: acc).
Proof. intros H1 H2 H3. cbn [scanstring]. now rewrite H1, H2, H3. Qed.

Lemma high_of_range c :
  65536 <= c < 1114112 -> 55296 <= high_of c <= 56319.
Proof.
  intros H. rewrite high_of_eq by exact H.
  zify; Z.to_euclidean_division_equations; lia.
Qed.

Lemma low_of_range c : 65536 <= c -> 56320 <= low_of c <= 57343.
Proof.
  intros H. rewrite low_of_eq by exact H.
  zify; Z.to_euclidean_division_equations; lia.
Qed.

Lemma decode_u_escape n tail :
  n < 65536 ->
  exists a b c d,
    u_escape n ++ tail = 92 :: 117 :: a :: b :: c :: d :: tail
    /\ decode_hex4 a b c d = Some n.
Proof.
  intros H. eexists _, _, _, _. split; [reflexivity|].
  now apply decode_hex4_hex4.
Qed.


Lemma escape_char_shape c : c < 1114112 -> escape_shape c (escape_char c).
Proof.
  intros Hc. unfold escape_char.
  destruct (c =? 34) eqn:E1; [apply N.eqb_eq in E1; subst; now constructor|].
  destruct (c =? 92) eqn:E2; [apply N.eqb_eq in E2; subst; now constructor|].
  destruct (c =? 10) eqn:E3; [apply N.eqb_eq in E3; subst; now constructor|].
  destruct (c =? 13) eqn:E4; [apply N.eqb_eq in E4; subst; now constructor|].
  destruct (c =? 9) eqn:E5; [apply N.eqb_eq in E5; subst; now constructor|].
  destruct (c =? 8) eqn:E6; [apply N.eqb_eq in E6; subst; now constructor|].
  destruct (c =? 12) eqn:E7; [apply N.eqb_eq in E7; subst; now constructor|].
  destruct ((32 <=? c) && (c <=? 126)) eqn:E8.
  { apply andb_true_iff in E8 as [E8 _]. apply N.leb_le in E8.
    apply shape_plain; try assumption. apply N.ltb_ge. exact E8. }
  destruct (c <? 65536) eqn:E9.
  { apply N.ltb_lt in E9. now apply shape_u. }
  apply N.ltb_ge in E9. apply shape_pair. lia.
Qed.

Lemma lookahead_safe_escaped s rest :
  match s with
  | c :: _ => c < 1114112 /\ is_low_surrogate c = false
  | [] => True
  end ->
  lookahead_safe (flat_map escape_char s ++ 34 :: rest) = true.
Proof.
  destruct s as [|c s]; cbn [flat_map app].
  - intros _. now destruct rest as [|? [|? [|? [|? [|? ?]]]]].
  - intros [Hc Hl]. rewrite <- app_assoc.
    generalize (flat_map escape_char s ++ 34 :: rest). intros X.
    destruct (escape_char_shape c Hc) as [e He Hx | H1 H2 H3 | Hu | Hp].
    + cbn [app]. unfold lookahead_safe.
      destruct X as [|? [|? [|? [|? ?]]]]; try reflexivity.
      now rewrite He, andb_false_r.
    + cbn [app]. unfold lookahead_safe.
      destruct X as [|? [|? [|? [|? [|? ?]]]]]; try reflexivity.
      now rewrite H2.
    + destruct (decode_u_escape c X Hu) as (a & b & c' & d & -> & Hd).
      unfold lookahead_safe. change (92 =? 92) with true.
      change (117 =? 117) with true. cbn [andb]. cbv iota.
      now rewrite Hd, Hl.
    + rewrite <- app_assoc.
      pose proof (high_of_range c Hp) as Hr.
      destruct (decode_u_escape (high_of c) (u_escape (low_of c) ++ X))
        as (a & b & c' & d & -> & Hd); [lia|].
      unfold lookahead_safe. change (92 =? 92) with true.
      change (117 =? 117) with true. cbn [andb]. cbv iota.
      rewrite Hd. unfold is_low_surrogate.
      replace (56320 <=? high_of c) with false; [reflexivity|].
      symmetry. apply N.leb_gt. lia.
Qed.

(** The decoder reads back what the encoder wrote for a string. *)
Lemma scanstring_escaped s : forall acc rest,
  json_safe s = true ->
  scanstring (flat_map escape_char s ++ 34 :: rest) acc
  = Some (rev acc ++ s, rest).
Proof.
  induction s as [|c s IH]; intros acc rest Hs.
  - cbn. now rewrite app_nil_r.
  - cbn [json_safe] in Hs.
    apply andb_true_iff in Hs as [Hs Hs'].
    apply andb_true_iff in Hs as [Hc Hpair].
    apply N.ltb_lt in Hc. apply negb_true_iff in Hpair.
    replace (rev acc ++ c :: s) with (rev (c :: acc) ++ s)
      by (cbn; now rewrite <- app_assoc).
    cbn [flat_map]. rewrite <- app_assoc.
    destruct (escape_char_shape c Hc) as [e He Hx | H1 H2 H3 | Hu | Hp].
    + cbn [app]. rewrite (scanstring_simple e c) by assumption. now apply IH.
    + cbn [app]. rewrite scanstring_plain by assumption. now apply IH.
    + destruct (decode_u_escape c (flat_map escape_char s ++ 34 :: rest) Hu)
        as (a & b & c' & d & -> & Hd).
      rewrite (scanstring_u c); [now apply IH | exact Hd |].
      destruct (is_high_surrogate c) eqn:Eh; [right|now left].
      cbn [andb] in Hpair. apply lookahead_safe_escaped.
      destruct s as [|c2 s2]; [exact I|].
      cbn [json_safe] in Hs'.
      apply andb_true_iff in Hs' as [Hs' _].
      apply andb_true_iff in Hs' as [Hc2 _]. apply N.ltb_lt in Hc2.
      now split.
    + rewrite <- app_assoc.
      pose proof (high_of_range c Hp) as Hr.
      pose proof (low_of_range c (proj1 Hp)) as Hr2.
      destruct (decode_u_escape (high_of c)
                  (u_escape (low_of c) ++ flat_map escape_char s ++ 34 :: rest))
        as (a & b & c' & d & -> & Hd); [lia|].
      destruct (decode_u_escape (low_of c) (flat_map escape_char s ++ 34 :: rest))
        as (a2 & b2 & c2 & d2 & -> & Hd2); [lia|].
      rewrite (scanstring_pair (high_of c) (low_of c)); try assumption.
      * rewrite join_high_low by exact Hp. now apply IH.
      * unfold is_high_surrogate. apply andb_true_iff. split; apply N.leb_le; lia.
      * unfold is_low_surrogate. apply andb_true_iff. split; apply N.leb_le; lia.
Qed.


Lemma skip_ws_spaces n x : skip_ws (repeat 32 n ++ x) = skip_ws x.
Proof. induction n as [|n IH]; [reflexivity|exact IH]. Qed.

Lemma skip_ws_newline_indent indent level x :
  skip_ws (newline_indent indent level ++ x) = skip_ws x.
Proof.
  destruct indent as [k|]; [|reflexivity].
  cbn [newline_indent app skip_ws]. change (is_ws 10) with true. cbv iota.
  apply skip_ws_spaces.
Qed.

Lemma skip_ws_separator indent level x :
  exists ws,
    item_separator indent ++ newline_indent indent level ++ x = 44 :: ws
    /\ skip_ws ws = skip_ws x.
Proof.
  destruct indent as [k|].
  - exists (newline_indent (Some k) level ++ x). split; [reflexivity|].
    apply skip_ws_newline_indent.
  - exists (32 :: x). split; reflexivity.
Qed.

Lemma skip_ws_quote x : skip_ws (34 :: x) = 34 :: x.
Proof. reflexivity. Qed.

Lemma scan_once_string f s rest :
  json_safe s = true ->
  scan_once (S f) (encode_basestring_ascii s ++ rest) = POk (PStr s) rest.
Proof.
  intros Hs. unfold encode_basestring_ascii.
  cbn [app scan_once]. change (34 =? 34) with true. cbv iota.
  rewrite <- app_assoc. cbn [app].
  now rewrite scanstring_escaped.
Qed.

Lemma scan_once_string_sp f s rest :
  json_safe s = true ->
  scan_once (S f) (skip_ws (32 :: encode_basestring_ascii s ++ rest))
  = POk (PStr s) rest.
Proof. intros Hs. now apply scan_once_string. Qed.

Lemma parse_object_last f k X v Y rest acc :
  json_safe k = true ->
  scan_once f (skip_ws X) = POk v Y ->
  skip_ws Y = 125 :: rest ->
  parse_object (S f) (flat_map escape_char k ++ 34 :: 58 :: X) acc
  = POk (PDict (dict_of_pairs (rev ((k, v) :: acc)))) rest.
Proof.
  intros Hk Hv HY. cbn [parse_object].
  rewrite scanstring_escaped by exact Hk. cbn [rev app skip_ws].
  change (is_ws 58) with false. cbv iota. change (58 =? 58) with true.
  cbv iota. rewrite Hv, HY. reflexivity.
Qed.

Lemma parse_object_more f k X v Y Z W acc :
  json_safe k = true ->
  scan_once f (skip_ws X) = POk v Y ->
  skip_ws Y = 44 :: Z ->
  skip_ws Z = 34 :: W ->
  parse_object (S f) (flat_map escape_char k ++ 34 :: 58 :: X) acc
  = parse_object f W ((k, v) :: acc).
Proof.
  intros Hk Hv HY HZ. cbn [parse_object].
  rewrite scanstring_escaped by exact Hk. cbn [rev app skip_ws].
  change (is_ws 58) with false. cbv iota. change (58 =? 58) with true.
  cbv iota. rewrite Hv, HY. change (44 =? 125) with false.
  change (44 =? 44) with true. cbv iota. rewrite HZ. reflexivity.
Qed.

Lemma parse_array_last f s v Y rest acc :
  scan_once f s = POk v Y ->
  skip_ws Y = 93 :: rest ->
  parse_array (S f) s acc = POk (PList (rev (v :: acc))) rest.
Proof. intros Hv HY. cbn [parse_array]. rewrite Hv, HY. reflexivity. Qed.

Lemma parse_array_more f s v Y Z acc :
  scan_once f s = POk v Y ->
  skip_ws Y = 44 :: Z ->
  parse_array (S f) s acc = parse_array f (skip_ws Z) (v :: acc).
Proof. intros Hv HY. cbn [parse_array]. rewrite Hv, HY. reflexivity. Qed.

Lemma scan_once_object f r W :
  skip_ws r = 34 :: W ->
  scan_once (S f) (123 :: r) = parse_object f W [].
Proof. intros Hr. cbn [scan_once]. rewrite Hr. reflexivity. Qed.

Lemma scan_once_array f r c1 r1 :
  skip_ws r = c1 :: r1 -> (c1 =? 93) = false ->
  scan_once (S f) (91 :: r) = parse_array f (c1 :: r1) [].
Proof. intros Hr Hc. cbn [scan_once]. rewrite Hr. cbn. now rewrite Hc. Qed.


Lemma iterencode_two_fields fr indent level k1 r k2 t rest :
  iterencode fr indent (two_fields k1 r k2 t) level ++ rest
  = 123 :: newline_indent indent (S level)
      ++ 34 :: flat_map escape_char k1 ++ 34 :: 58 :: 32
      :: encode_basestring_ascii r
      ++ item_separator indent ++ newline_indent indent (S level)
      ++ 34 :: flat_map escape_char k2 ++ 34 :: 58 :: 32
      :: encode_basestring_ascii t
      ++ newline_indent indent level ++ 125 :: rest.
Proof.
  unfold two_fields. cbn [iterencode flat_map fst snd].
  unfold key_separator, encode_basestring_ascii.
  repeat (rewrite <- ?app_assoc; cbn [app]). reflexivity.
Qed.

Lemma scan_once_two_fields fr indent level f k1 r k2 t rest :
  json_safe k1 = true -> json_safe r = true ->
  json_safe k2 = true -> json_safe t = true ->
  pystr_eqb k2 k1 = false ->
  scan_once (S (S (S (S f))))
    (iterencode fr indent (two_fields k1 r k2 t) level ++ rest)
  = POk (two_fields k1 r k2 t) rest.
Proof.
  intros Hk1 Hr Hk2 Ht Hne. rewrite iterencode_two_fields.
  rewrite (scan_once_object _ _ (flat_map escape_char k1 ++ 34 :: 58 :: 32
             :: encode_basestring_ascii r
             ++ item_separator indent ++ newline_indent indent (S level)
             ++ 34 :: flat_map escape_char k2 ++ 34 :: 58 :: 32
             :: encode_basestring_ascii t
             ++ newline_indent indent level ++ 125 :: rest))
    by apply skip_ws_newline_indent.
  destruct (skip_ws_separator indent (S level)
              (34 :: flat_map escape_char k2 ++ 34 :: 58 :: 32
                 :: encode_basestring_ascii t
                 ++ newline_indent indent level ++ 125 :: rest))
    as (ws & Hsep & Hws).
  rewrite Hsep.
  rewrite (parse_object_more _ k1 _ (PStr r) (44 :: ws) ws
             (flat_map escape_char k2 ++ 34 :: 58 :: 32
                :: encode_basestring_ascii t
                ++ newline_indent indent level ++ 125 :: rest));
    [| exact Hk1 | now apply scan_once_string_sp | reflexivity | exact Hws].
  rewrite (parse_object_last _ k2 _ (PStr t)
             (newline_indent indent level ++ 125 :: rest) rest);
    [| exact Hk2 | now apply scan_once_string_sp
     | apply skip_ws_newline_indent].
  unfold two_fields, dict_of_pairs. cbn [rev app fold_left dict_set fst snd].
  now rewrite Hne.
Qed.


Section arrays.
Variable fr : pystr -> pystr.
Variable indent : option nat.


Lemma decodes_skip_ws n e level rest :
  decodes fr indent n e ->
  skip_ws (iterencode fr indent e level ++ rest)
  = iterencode fr indent e level ++ rest.
Proof.
  intros H. destruct (H level) as (_ & c & x & -> & Hc & _).
  cbn [app skip_ws]. now rewrite Hc.
Qed.


Lemma parse_array_items n level rest es : forall e acc f,
  Forall (decodes fr indent n) (e :: es) ->
  (n + length es + 1 <= f)%nat ->
  parse_array f
    (iterencode fr indent e (S level) ++ items fr indent level es
       ++ newline_indent indent level ++ 93 :: rest) acc
  = POk (PList (rev acc ++ e :: es)) rest.
Proof.
  induction es as [|e2 es IH]; intros e acc f Hall Hf.
  - destruct f as [|f]; [lia|].
    apply Forall_cons_1 in Hall as [He _].
    cbn [items flat_map app].
    rewrite (parse_array_last f _ e (newline_indent indent level ++ 93 :: rest) rest).
    + reflexivity.
    + apply (proj1 (He (S level))). cbn in Hf. lia.
    + apply skip_ws_newline_indent.
  - destruct f as [|f]; [lia|].
    apply Forall_cons_1 in Hall as [He Hall].
    pose proof (Forall_inv Hall) as He2.
    cbn [items flat_map]. fold (items fr indent level es).
    rewrite <- !app_assoc.
    destruct (skip_ws_separator indent (S level)
                (iterencode fr indent e2 (S level) ++ items fr indent level es
                   ++ newline_indent indent level ++ 93 :: rest))
      as (ws & Hsep & Hws).
    rewrite Hsep.
    rewrite (parse_array_more f _ e (44 :: ws) ws).
    + rewrite Hws, (decodes_skip_ws n) by exact He2.
      rewrite (IH e2 (e :: acc) f Hall) by (cbn in Hf; lia).
      cbn [rev]. now rewrite <- app_assoc.
    + apply (proj1 (He (S level))). cbn in Hf. lia.
    + reflexivity.
Qed.

Lemma length_items level es : (length es <= length (items fr indent level es))%nat.
Proof.
  induction es as [|e es IH]; [reflexivity|].
  cbn [items flat_map]. fold (items fr indent level es).
  rewrite !length_app. destruct indent; cbn; lia.
Qed.

(** A list of such values is read back from its encoding. *)
Lemma decode_list n es :
  (n <= 4)%nat ->
  Forall (decodes fr indent n) es ->
  decode (dumps fr indent (PList es)) = POk (PList es) [].
Proof.
  intros Hn Hall. destruct es as [|e es]; [reflexivity|].
  unfold dumps. cbn [iterencode]. fold (items fr indent 0 es).
  unfold decode.
  set (doc := 91 :: newline_indent indent 1 ++ iterencode fr indent e 1
                ++ items fr indent 0 es ++ newline_indent indent 0 ++ [93]).
  assert (Hlen : (length es + 2 <= length doc)%nat).
  { unfold doc. cbn [length]. rewrite !length_app.
    pose proof (length_items 0 es). cbn [length]. lia. }
  change (match doc with c :: _ => c =? 65279 | [] => false end) with false.
  cbv iota.
  change (skip_ws doc) with doc. unfold fuel_for.
  destruct (2 * length doc + 2)%nat as [|f] eqn:Ef; [lia|].
  unfold doc at 1.
  pose proof (Forall_inv Hall) as He.
  destruct (He 1%nat) as (_ & c & x & Hcx & Hc & Hc93).
  rewrite (scan_once_array f _ c
             (x ++ items fr indent 0 es ++ newline_indent indent 0 ++ [93])).
  - change (c :: x ++ ?y) with ((c :: x) ++ y). rewrite <- Hcx.
    rewrite (parse_array_items n 0 [] es e [] f Hall) by lia.
    reflexivity.
  - rewrite skip_ws_newline_indent, Hcx. cbn [app skip_ws]. now rewrite Hc.
  - exact Hc93.
Qed.

Lemma decodes_two_fields k1 r k2 t :
  json_safe k1 = true -> json_safe r = true ->
  json_safe k2 = true -> json_safe t = true ->
  pystr_eqb k2 k1 = false ->
  decodes fr indent 4 (two_fields k1 r k2 t).
Proof.
  intros Hk1 Hr Hk2 Ht Hne level. split.
  - intros f rest Hf. do 4 (destruct f as [|f]; [lia|]).
    now apply scan_once_two_fields.
  - eexists 123, _. split; [|now split].
    unfold two_fields. cbn [iterencode]. reflexivity.
Qed.
End arrays.


(** *** The recursion budget is never spent *)

Lemma skip_ws_le s : (length (skip_ws s) <= length s)%nat.
Proof.
  induction s as [|c s IH]; [reflexivity|].
  cbn [skip_ws]. destruct (is_ws c); cbn; lia.
Qed.

Ltac break_match :=
  match goal with
  | |- context [match ?x with _ => _ end] => destruct x eqn:?
  | |- context [if ?x then _ else _] => destruct x eqn:?
  end.

Lemma scanstring_lt n : forall s acc x r,
  (length s <= n)%nat ->
  scanstring s acc = Some (x, r) -> (length r < length s)%nat.
Proof.
  induction n as [|n IH]; intros s acc x r Hn.
  - destruct s; [discriminate | cbn in Hn; lia].
  - destruct s as [|c s]; [discriminate|]. cbn [scanstring].
    cbn [length] in Hn.
    repeat (break_match; try discriminate);
      try (intros [= <- <-]; cbn; lia);
      intros H; apply IH in H; subst; cbn [length] in *; lia.
Qed.

Lemma span_digits_le s : (length (snd (span_digits s)) <= length s)%nat.
Proof.
  induction s as [|c s IH]; [reflexivity|].
  cbn [span_digits]. destruct (is_digit c); [|reflexivity].
  destruct (span_digits s). cbn in *. lia.
Qed.

Lemma strip_prefix_length p : forall s r,
  strip_prefix p s = Some r -> length s = (length p + length r)%nat.
Proof.
  induction p as [|x p IH]; intros s r; cbn [strip_prefix].
  - now intros [= ->].
  - destruct s as [|y s]; [discriminate|].
    destruct (x =? y); [|discriminate]. intros H. apply IH in H. cbn. lia.
Qed.

Lemma match_integer_lt s neg ds r :
  match_integer s = Some (neg, ds, r) -> (length r < length s)%nat.
Proof.
  unfold match_integer.
  destruct s as [|c s]; [discriminate|].
  destruct (c =? 45).
  - destruct s as [|c2 s]; [discriminate|].
    destruct (c2 =? 48); [intros [= <- <- <-]; cbn; lia|].
    destruct (is_digit c2); [|discriminate].
    pose proof (span_digits_le s). destruct (span_digits s).
    intros [= <- <- <-]. cbn in *. lia.
  - destruct (c =? 48); [intros [= <- <- <-]; cbn; lia|].
    destruct (is_digit c); [|discriminate].
    pose proof (span_digits_le s). destruct (span_digits s).
    intros [= <- <- <-]. cbn in *. lia.
Qed.

Lemma match_frac_le s : (length (snd (match_frac s)) <= length s)%nat.
Proof.
  unfold match_frac. destruct s as [|c s]; [reflexivity|].
  destruct (c =? 46); [|reflexivity].
  pose proof (span_digits_le s). destruct (span_digits s) as [[|d ds] r'];
    cbn in *; lia.
Qed.

Lemma match_exp_le s : (length (snd (match_exp s)) <= length s)%nat.
Proof.
  unfold match_exp. destruct s as [|c s]; [reflexivity|].
  destruct ((c =? 101) || (c =? 69)); [|reflexivity].
  destruct s as [|g s'].
  - cbn. lia.
  - destruct ((g =? 45) || (g =? 43)).
    + pose proof (span_digits_le s'). destruct (span_digits s') as [[|d ds] r'];
        cbn in *; lia.
    + pose proof (span_digits_le (g :: s')).
      destruct (span_digits (g :: s')) as [[|d ds] r']; cbn in *; lia.
Qed.

Lemma match_number_lt s v r :
  match_number s = Some (v, r) -> (length r < length s)%nat.
Proof.
  unfold match_number.
  destruct (match_integer s) as [[[neg ds] r0]|] eqn:Ei; [|discriminate].
  apply match_integer_lt in Ei.
  pose proof (match_frac_le r0). destruct (match_frac r0) as [frac r1].
  pose proof (match_exp_le r1). destruct (match_exp r1) as [exp r2].
  cbn in *. destruct frac, exp; intros [= <- <-]; lia.
Qed.

Lemma scan_constant_lt s v r :
  scan_constant s = Some (v, r) -> (length r < length s)%nat.
Proof.
  unfold scan_constant.
  repeat match goal with
  | |- context [strip_prefix ?p s] =>
      let E := fresh "E" in
      destruct (strip_prefix p s) eqn:E;
      [apply strip_prefix_length in E; intros [= <- <-];
       set (n := length p) in E; vm_compute in n; subst n; lia|]
  | |- context [match_number s] =>
      let E := fresh "E" in
      destruct (match_number s) as [[? ?]|] eqn:E;
      [apply match_number_lt in E; intros [= <- <-]; exact E|]
  end.
  discriminate.
Qed.

Lemma scanners_consume f :
  (forall s v r, scan_once f s = POk v r -> (length r < length s)%nat)
  /\ (forall s acc v r,
        parse_array f s acc = POk v r -> (length r < length s)%nat)
  /\ (forall s acc v r,
        parse_object f s acc = POk v r -> (length r < length s)%nat).
Proof.
  induction f as [|f (IHo & IHa & IHb)]; [repeat split; discriminate|].
  repeat split.
  - intros s v r. cbn [scan_once].
    destruct s as [|c s]; [discriminate|].
    destruct (c =? 34).
    { destruct (scanstring s []) as [[str r']|] eqn:E; [|discriminate].
      apply (scanstring_lt (length s)) in E; [|lia].
      intros [= <- <-]. cbn. lia. }
    destruct (c =? 123).
    { pose proof (skip_ws_le s). destruct (skip_ws s) as [|c1 r1]; [discriminate|].
      destruct (c1 =? 125); [intros [= <- <-]; cbn in *; lia|].
      destruct (c1 =? 34); [|discriminate].
      intros H'. apply IHb in H'. cbn in *. lia. }
    destruct (c =? 91).
    { pose proof (skip_ws_le s). destruct (skip_ws s) as [|c1 r1]; [discriminate|].
      destruct (c1 =? 93); [intros [= <- <-]; cbn in *; lia|].
      intros H'. apply IHa in H'. cbn in *. lia. }
    destruct (scan_constant (c :: s)) as [[v' r']|] eqn:E; [|discriminate].
    apply scan_constant_lt in E. now intros [= <- <-].
  - intros s acc v r. cbn [parse_array].
    destruct (scan_once f s) as [v1 r1| |] eqn:E; try discriminate.
    apply IHo in E. pose proof (skip_ws_le r1).
    destruct (skip_ws r1) as [|c r2]; [discriminate|].
    destruct (c =? 93); [intros [= <- <-]; cbn in *; lia|].
    destruct (c =? 44); [|discriminate].
    intros H'. apply IHa in H'. pose proof (skip_ws_le r2). cbn in *. lia.
  - intros s acc v r. cbn [parse_object].
    destruct (scanstring s []) as [[key r0]|] eqn:Es; [|discriminate].
    apply (scanstring_lt (length s)) in Es; [|lia].
    pose proof (skip_ws_le r0).
    destruct (skip_ws r0) as [|c r1]; [discriminate|].
    destruct (c =? 58); [|discriminate].
    pose proof (skip_ws_le r1).
    destruct (scan_once f (skip_ws r1)) as [v1 r2| |] eqn:E; try discriminate.
    apply IHo in E. pose proof (skip_ws_le r2).
    destruct (skip_ws r2) as [|c2 r3]; [discriminate|].
    destruct (c2 =? 125); [intros [= <- <-]; cbn in *; lia|].
    destruct (c2 =? 44); [|discriminate].
    pose proof (skip_ws_le r3).
    destruct (skip_ws r3) as [|c3 r4]; [discriminate|].
    destruct (c3 =? 34); [|discriminate].
    intros H'. apply IHb in H'. cbn in *. lia.
Qed.

Lemma scanners_fuel f :
  (forall s, (2 * length s + 1 <= f)%nat -> scan_once f s <> PFuel)
  /\ (forall s acc, (2 * length s + 2 <= f)%nat -> parse_array f s acc <> PFuel)
  /\ (forall s acc, (2 * length s + 2 <= f)%nat -> parse_object f s acc <> PFuel).
Proof.
  induction f as [|f (IHo & IHa & IHb)]; [repeat split; intros; lia|].
  destruct (scanners_consume f) as (Co & Ca & Cb).
  repeat split.
  - intros s Hf. cbn [scan_once].
    destruct s as [|c s]; [discriminate|]. cbn [length] in Hf.
    destruct (c =? 34).
    { destruct (scanstring s []) as [[str r']|]; discriminate. }
    destruct (c =? 123).
    { pose proof (skip_ws_le s). destruct (skip_ws s) as [|c1 r1]; [discriminate|].
      destruct (c1 =? 125); [discriminate|].
      destruct (c1 =? 34); [|discriminate].
      apply IHb. cbn in *. lia. }
    destruct (c =? 91).
    { pose proof (skip_ws_le s). destruct (skip_ws s) as [|c1 r1]; [discriminate|].
      destruct (c1 =? 93); [discriminate|].
      apply IHa. cbn in *. lia. }
    destruct (scan_constant (c :: s)) as [[v' r']|]; discriminate.
  - intros s acc Hf. cbn [parse_array].
    destruct (scan_once f s) as [v1 r1| |] eqn:E; try discriminate.
    + apply Co in E. pose proof (skip_ws_le r1).
      destruct (skip_ws r1) as [|c r2]; [discriminate|].
      destruct (c =? 93); [discriminate|].
      destruct (c =? 44); [|discriminate].
      apply IHa. pose proof (skip_ws_le r2). cbn in *. lia.
    + exfalso. revert E. apply IHo. lia.
  - intros s acc Hf. cbn [parse_object].
    destruct (scanstring s []) as [[key r0]|] eqn:Es; [|discriminate].
    apply (scanstring_lt (length s)) in Es; [|lia].
    pose proof (skip_ws_le r0).
    destruct (skip_ws r0) as [|c r1]; [discriminate|].
    destruct (c =? 58); [|discriminate].
    pose proof (skip_ws_le r1).
    destruct (scan_once f (skip_ws r1)) as [v1 r2| |] eqn:E; try discriminate.
    + apply Co in E. pose proof (skip_ws_le r2).
      destruct (skip_ws r2) as [|c2 r3]; [discriminate|].
      destruct (c2 =? 125); [discriminate|].
      destruct (c2 =? 44); [|discriminate].
      pose proof (skip_ws_le r3).
      destruct (skip_ws r3) as [|c3 r4]; [discriminate|].
      destruct (c3 =? 34); [|discriminate].
      apply IHb. cbn in *. lia.
    + exfalso. revert E. apply IHo. cbn in *. lia.
Qed.

(** [decode] always decides: it returns a value or a decode error. *)
Lemma decode_decides s : decode s <> PFuel.
Proof.
  unfold decode.
  destruct (match s with c :: _ => c =? 65279 | [] => false end);
    [discriminate|].
  destruct (scan_once (fuel_for s) (skip_ws s)) as [v r| |] eqn:E.
  - destruct (skip_ws r); discriminate.
  - discriminate.
  - exfalso. revert E. apply (proj1 (scanners_fuel (fuel_for s))).
    pose proof (skip_ws_le s). unfold fuel_for. lia.
Qed.

End JsonFacts.
(** ** Round trip of the history file *)

Lemma history_entry_decodes fr indent e :
  is_history_entry e = true -> Json.decodes fr indent 4 e.
Proof.
  destruct e as [| | | | | |d]; try discriminate.
  destruct d as [|[k1 [| | | |r| |]] [|[k2 [| | | |t| |]] [|]]];
    try discriminate.
  cbn [is_history_entry]. intros H.
  apply andb_true_iff in H as [H Ht].
  apply andb_true_iff in H as [H Hr].
  apply andb_true_iff in H as [Hk1 Hk2].
  apply pystr_eqb_eq in Hk1, Hk2. subst k1 k2.
  apply (JsonFacts.decodes_two_fields fr indent (u "role") r (u "text") t);
    (assumption || reflexivity).
Qed.

(** A history of such entries is read back from the text [json.dump]
    writes for it, with and without indentation. *)
Lemma loads_dumps_history fr indent h :
  forallb is_history_entry h = true ->
  Json.loads (Json.dumps fr indent (PList h)) = Some (PList h).
Proof.
  intros Hh. unfold Json.loads.
  rewrite (JsonFacts.decode_list fr indent 4 h); [reflexivity | lia |].
  apply List.Forall_forall. intros e He.
  apply history_entry_decodes.
  rewrite forallb_forall in Hh. now apply Hh.
Qed.

(** C8, as stated, fails for a text that holds a high surrogate followed
    by a low surrogate as two characters: the encoder writes two escapes,
    the decoder reads them back as the one character they spell. *)
Lemma local_history_round_trip_counterexample :
  let h := PList [history_entry "user" (PStr [55357; 56832])] in
  let w' := snd (fst (persist_local_history env_offline (u "helper") h
                        empty_world)) in
  fst (fst (load_local_history env_offline (u "helper") w'))
  = Returns (PList [history_entry "user" (PStr [128512])])
  /\ PList [history_entry "user" (PStr [128512])] <> h.
Proof. split; [vm_compute; reflexivity | discriminate]. Qed.

(** C8, amended: for every bot name whose history file can be opened for
    writing and every history of entries {role, text} whose strings hold
    no high surrogate immediately followed by a low surrogate, saving the
    history with [persist_local_history] and then loading it for the same
    name with [load_local_history] returns the same sequence of entries;
    loading changes nothing. *)
Theorem local_history_round_trip env (name : pystr) (h : list pyobj) (w : World) :
  forallb is_history_entry h = true ->
  open_w env (history_path name) = None ->
  exists w',
    persist_local_history env name (PList h) w = (Returns tt, w', [])
    /\ load_local_history env name w' = (Returns (PList h), w', []).
Proof.
  intros Hh Ho. eexists. split.
  - rewrite persist_local_history_run, Ho. reflexivity.
  - rewrite load_local_history_run. cbn [files set_files].
    rewrite lookup_insert_eq.
    unfold json_dumps. now rewrite loads_dumps_history.
Qed.

Lemma local_history_round_trip_witness :
  exists w',
    persist_local_history env_offline (u "helper")
      (PList (turn (PStr (u "hi")) (u "Model not available."))) empty_world
    = (Returns tt, w', [])
    /\ load_local_history env_offline (u "helper") w'
       = (Returns (PList (turn (PStr (u "hi")) (u "Model not available."))),
          w', []).
Proof.
  apply (local_history_round_trip env_offline (u "helper")
           (turn (PStr (u "hi")) (u "Model not available.")) empty_world);
    reflexivity.
Defined.

(** * Further properties *)

(** ** Further properties: the agent *)
(** The whole behaviour of [chat] on a history that is a list. *)
Lemma chat_run env prompt self h :
  history self = PList h ->
  chat env prompt self
  = match pipeline self with
    | None =>
        (Returns fallback_reply,
         set_history (PList (h ++ turn prompt fallback_reply)) self,
         [Acquire self_lock; Release self_lock])
    | Some _ =>
        (generate env (cfg self) prompt,
         set_history
           (PList (h ++ history_entry "user" prompt
                     :: match generate env (cfg self) prompt with
                        | Returns reply => [history_entry "bot" (PStr reply)]
                        | Raises _ => []
                        end)) self,
         [Acquire self_lock; ModelCall (full_prompt env (cfg self) prompt);
          Release self_lock])
    end.
Proof.
  intros Hh. unfold chat, history_append, generate. run_m. rewrite Hh. cbn.
  destruct (pipeline self) as [p|]; cbn.
  - destruct (pipeline_call env _ _) as [out|e]; cbn; [|reflexivity].
    destruct (py_first out) as [x|e]; cbn; [|reflexivity].
    destruct (py_getitem x _) as [g|e]; cbn; [|reflexivity].
    destruct (py_strip g) as [r|e]; cbn; [|reflexivity].
    now rewrite <- app_assoc.
  - unfold turn. now rewrite <- app_assoc.
Qed.

(** chat on a history that is not a list. *)
Lemma chat_not_list env prompt self :
  (forall h, history self <> PList h) ->
  chat env prompt self
  = (Raises (no_attribute (history self) "append"), self,
     [Acquire self_lock; Release self_lock]).
Proof.
  intros Hh. unfold chat, history_append. run_m.
  destruct (history self) as [| | | | |l|d] eqn:E; try reflexivity.
  now destruct (Hh l).
Qed.

(** ** Further properties: strip *)


Lemma lstrip_head s :
  match lstrip s with [] => true | c :: _ => negb (py_isspace c) end = true.
Proof.
  induction s as [|c s IH]; [reflexivity|]. cbn [lstrip].
  destruct (py_isspace c) eqn:E; [exact IH|]. now rewrite E.
Qed.

Lemma lstrip_fixed s :
  match s with [] => true | c :: _ => negb (py_isspace c) end = true ->
  lstrip s = s.
Proof.
  destruct s as [|c s]; [reflexivity|]. cbn [lstrip].
  now destruct (py_isspace c).
Qed.

(** [lstrip] removes a prefix of white space. *)
Lemma lstrip_split s :
  exists ws, s = ws ++ lstrip s /\ forallb py_isspace ws = true.
Proof.
  induction s as [|c s (ws & E & Hws)]; [now exists []|]. cbn [lstrip].
  destruct (py_isspace c) eqn:Ec.
  - exists (c :: ws). split; [cbn; now rewrite <- E | cbn; now rewrite Ec].
  - now exists [].
Qed.

Lemma rstrip_split s :
  exists ws, s = rstrip s ++ ws /\ forallb py_isspace ws = true.
Proof.
  unfold rstrip. destruct (lstrip_split (rev s)) as (ws & E & Hws).
  exists (rev ws). split.
  - rewrite <- rev_app_distr, <- E. now rewrite rev_involutive.
  - now rewrite forallb_rev.
Qed.

Lemma rstrip_last s :
  match rev (rstrip s) with [] => true | c :: _ => negb (py_isspace c) end = true.
Proof. unfold rstrip. rewrite rev_involutive. apply lstrip_head. Qed.

(** [rstrip] keeps the first character of a string that does not start
    with white space. *)
Lemma rstrip_head s :
  match s with [] => true | c :: _ => negb (py_isspace c) end = true ->
  match rstrip s with [] => true | c :: _ => negb (py_isspace c) end = true.
Proof.
  intros Hs. destruct (rstrip_split s) as (ws & E & Hws).
  destruct (rstrip s) as [|c r]; [reflexivity|].
  rewrite E in Hs. exact Hs.
Qed.

Lemma strip_trimmed s : trimmed (strip s) = true.
Proof.
  unfold trimmed, strip. apply andb_true_iff. split.
  - apply rstrip_head, lstrip_head.
  - apply rstrip_last.
Qed.

Lemma strip_fixed s : trimmed s = true -> strip s = s.
Proof.
  unfold trimmed, strip. intros H. apply andb_true_iff in H as [H1 H2].
  rewrite (lstrip_fixed s H1). unfold rstrip.
  rewrite (lstrip_fixed (rev s) H2). apply rev_involutive.
Qed.

Lemma strip_idempotent s : strip (strip s) = strip s.
Proof. apply strip_fixed, strip_trimmed. Qed.

(** [strip] removes white space at both ends and nothing else. *)
Lemma strip_split s :
  exists l r, s = l ++ strip s ++ r
              /\ forallb py_isspace l = true /\ forallb py_isspace r = true.
Proof.
  destruct (lstrip_split s) as (l & El & Hl).
  destruct (rstrip_split (lstrip s)) as (r & Er & Hr).
  exists l, r. unfold strip. now rewrite <- Er, <- El.
Qed.

(** ** Further properties: paths *)

Lemma data_dir_join b :
  os_path_join DATA_DIR b
  = match b with 47 :: _ => b | _ => u "bots/" ++ b end.
Proof.
  unfold os_path_join.
  destruct b as [|c b]; [reflexivity|].
  destruct (N.eq_dec c 47) as [->|Hc]; [reflexivity|].
  destruct c as [|p]; [reflexivity|].
  do 6 (destruct p as [p|p|]; try reflexivity).
Qed.

Lemma data_dir_join_inj b1 b2 :
  os_path_join DATA_DIR b1 = os_path_join DATA_DIR b2 -> b1 = b2.
Proof.
  rewrite !data_dir_join.
  destruct b1 as [|c1 b1], b2 as [|c2 b2]; try discriminate; try reflexivity.
  - destruct (N.eq_dec c2 47) as [->|Hc]; [discriminate|].
    destruct c2 as [|p]; [discriminate|].
    do 6 (destruct p as [p|p|]; try discriminate).
  - destruct (N.eq_dec c1 47) as [->|Hc]; [discriminate|].
    destruct c1 as [|p]; [discriminate|].
    do 6 (destruct p as [p|p|]; try discriminate).
  - intros H.
    assert (E1 : match c1 :: b1 with 47 :: _ => c1 :: b1 | _ => u "bots/" ++ c1 :: b1 end
                 = if c1 =? 47 then c1 :: b1 else u "bots/" ++ c1 :: b1).
    { destruct c1 as [|p]; [reflexivity|].
      do 6 (destruct p as [p|p|]; try reflexivity). }
    assert (E2 : match c2 :: b2 with 47 :: _ => c2 :: b2 | _ => u "bots/" ++ c2 :: b2 end
                 = if c2 =? 47 then c2 :: b2 else u "bots/" ++ c2 :: b2).
    { destruct c2 as [|p]; [reflexivity|].
      do 6 (destruct p as [p|p|]; try reflexivity). }
    rewrite E1, E2 in H. clear E1 E2.
    destruct (c1 =? 47) eqn:H1, (c2 =? 47) eqn:H2.
    + exact H.
    + apply N.eqb_eq in H1. subst c1. discriminate H.
    + apply N.eqb_eq in H2. subst c2. discriminate H.
    + now apply app_inv_head in H.
Qed.

(** Two bots never share a history file. *)
Lemma history_path_inj n1 n2 : history_path n1 = history_path n2 -> n1 = n2.
Proof.
  unfold history_path, history_file. intros H.
  apply data_dir_join_inj in H. now apply app_inv_tail in H.
Qed.

(** A config file is never a history file. *)
Lemma config_path_not_history c n : config_path c <> history_path n.
Proof.
  unfold config_path, history_path, history_file. intros H.
  apply data_dir_join_inj in H.
  apply (f_equal (@rev N)) in H. rewrite !rev_app_distr in H.
  vm_compute (rev (u ".bot.json")) in H.
  vm_compute (rev (u ".history.json")) in H.
  cbn in H. discriminate H.
Qed.

(** ** Further properties: registry *)

(** what a returning create_bot has done. *)
Lemma create_bot_returns_effect env (req : CreateReq) (w : World)
  (resp : pyobj) (w' : World) (t : list event) :
  create_bot env req w = (Returns resp, w', t) ->
  let k := strip (req_name req) in
  (exists l r, req_name req = l ++ k ++ r
               /\ forallb py_isspace l = true /\ forallb py_isspace r = true)
  /\ k <> [] /\ trimmed k = true
  /\ bots w !! k = None
  /\ (exists inst,
        bots w' !! k = Some inst
        /\ cfg inst = {| cfg_name := k; cfg_persona := req_persona req;
                         cfg_max_length := req_max_length req |}
        /\ fst (fst (load_local_history env k w)) = Returns (history inst))
  /\ (forall k', k' <> k -> bots w' !! k' = bots w !! k')
  /\ (forall p, p <> config_path (config_of req) -> files w' !! p = files w !! p).
Proof.
  intros Hrun k.
  destruct (create_bot_returns env req w resp w' t Hrun)
    as (Hne & Hfree & h & saved & Hl & Hb & Hs & _).
  split; [apply strip_split|].
  split; [exact Hne|]. split; [apply strip_trimmed|]. split; [exact Hfree|].
  split; [|split].
  - eexists. rewrite Hb, lookup_insert_eq. repeat split. exact Hl.
  - intros k' Hk. rewrite Hb. now apply lookup_insert_ne.
  - intros p Hp.
    rewrite (create_bot_run env req w (pystr_eqb_nil_false _ Hne) Hfree) in Hrun.
    cbn zeta in Hrun. rewrite Hl in Hrun.
    rewrite save_bot_to_memory_run in Hrun.
    destruct (open_w env (config_path (config_of req)));
      injection Hrun as _ <- _; cbn [files set_files set_bots];
      [reflexivity|]. now apply lookup_insert_ne.
Qed.

(** a create_bot or deploy_bot that raises leaves the state as it was. *)
Lemma registration_failure_state env :
  (forall req w e w' t, create_bot env req w = (Raises e, w', t) -> w' = w)
  /\ (forall name w e w' t, deploy_bot env name w = (Raises e, w', t) -> w' = w).
Proof.
  split.
  - intros req w e w' t.
    destruct (strip (req_name req)) as [|c s] eqn:En.
    { rewrite create_bot_empty_run by exact En. now intros [= _ <- _]. }
    assert (Hne : strip (req_name req) <> []) by (rewrite En; discriminate).
    clear En.
    destruct (bots w !! strip (req_name req)) as [inst|] eqn:Hreg.
    { rewrite (create_bot_exists_run env req w inst Hne Hreg).
      now intros [= _ <- _]. }
    rewrite (create_bot_run env req w (pystr_eqb_nil_false _ Hne) Hreg).
    cbn zeta.
    destruct (fst (fst (load_local_history env _ w))) as [h|e'];
      [|now intros [= _ <- _]].
    rewrite save_bot_to_memory_run.
    destruct (open_w env _); discriminate.
  - intros name w e w' t.
    destruct (bots w !! name) as [inst|] eqn:Hreg.
    { rewrite (deploy_bot_registered_run env name w inst Hreg). discriminate. }
    rewrite (deploy_bot_run env name w Hreg). cbn zeta.
    destruct (py_truthy env _); [|now intros [= _ <- _]].
    destruct (BotConfig_unpack env _); [|now intros [= _ <- _]].
    destruct (fst (fst (load_local_history env name w)));
      [discriminate | now intros [= _ <- _]].
Qed.

(** what a returning deploy_bot has done on a name that was not
    registered. *)
Lemma deploy_bot_returns_effect env (name : pystr) (w : World)
  (resp : pyobj) (w' : World) (t : list event) :
  bots w !! name = None ->
  deploy_bot env name w = (Returns resp, w', t) ->
  resp = PDict [(u "deployed", PStr name)]
  /\ (exists inst,
        bots w' = <[name := inst]> (bots w)
        /\ BotConfig_unpack env (fst (fetch_config env name)) = Returns (cfg inst)
        /\ pipeline inst = loaded_pipeline env
        /\ fst (fst (load_local_history env name w)) = Returns (history inst))
  /\ files w' = files w
  /\ t = [Acquire bots_lock; RegContains name; HttpGet (load_url env name);
          ModelLoad; RegSet name; Release bots_lock].
Proof.
  intros Hfree. rewrite (deploy_bot_run env name w Hfree). cbn zeta.
  destruct (py_truthy env _); [|discriminate].
  destruct (BotConfig_unpack env _) as [c|]; [|discriminate].
  destruct (fst (fst (load_local_history env name w))) as [h|]; [|discriminate].
  intros [= <- <- <-]. split; [reflexivity|]. split; [|now split].
  eexists. split; [reflexivity|]. now repeat split.
Qed.

(** X7: on a name that is not registered [deploy_bot] answers 404 and
    changes nothing, without loading a model, when the memory server
    cannot be reached (the detail carries the exception), answers with
    another status than 200 ("memory returned" and the status), sends a
    text that is not JSON (the decoder's message), or sends a JSON value
    that is false in Python, like null or an empty object (the detail
    then ends in "None"). *)
Theorem deploy_bot_not_found env (name : pystr) (w : World) :
  bots w !! name = None ->
  let not_found (why : pystr) : outcome pyobj * World * list event :=
    (Raises (HTTPException 404 (u "bot config not found in memory: " ++ why)),
     w, [Acquire bots_lock; RegContains name; HttpGet (load_url env name);
         Release bots_lock]) in
  (forall e,
      requests_get env (load_url env name) = Raises e ->
      deploy_bot env name w = not_found (exn_str e))
  /\ (forall r,
        requests_get env (load_url env name) = Returns r ->
        status_code r <> 200%Z ->
        deploy_bot env name w
        = not_found (u "memory returned " ++ Json.int_repr (status_code r)))
  /\ (forall r,
        requests_get env (load_url env name) = Returns r ->
        status_code r = 200%Z ->
        Json.decode (text r) = Json.PErr ->
        deploy_bot env name w = not_found (json_errmsg env (text r)))
  /\ (forall r v,
        requests_get env (load_url env name) = Returns r ->
        status_code r = 200%Z ->
        Json.loads (text r) = Some v ->
        py_truthy env v = false ->
        deploy_bot env name w = not_found (u "None")).
Proof.
  intros Hfree not_found. unfold not_found.
  rewrite (deploy_bot_run env name w Hfree). cbn zeta. unfold fetch_config.
  repeat apply conj.
  - intros e ->. reflexivity.
  - intros r -> Hs. apply Z.eqb_neq in Hs. rewrite Hs. reflexivity.
  - intros r -> Hs Hd. rewrite Hs. cbn [negb Z.eqb Pos.eqb].
    unfold Json.loads. rewrite Hd. reflexivity.
  - intros r v -> Hs Hv Ht. rewrite Hs. cbn [negb Z.eqb Pos.eqb].
    rewrite Hv. cbn [fst snd]. rewrite Ht. reflexivity.
Qed.

(** ** Further properties: chat handler *)

Lemma history_cases (self : BotInstance) :
  (exists h, history self = PList h) \/ (forall h, history self <> PList h).
Proof.
  destruct (history self) as [| | | | |l|d]; try (right; discriminate).
  left. now exists l.
Qed.

(** [chat] changes nothing but the history, which it only extends. *)
Lemma chat_keeps env prompt self :
  let self' := snd (fst (chat env prompt self)) in
  cfg self' = cfg self /\ pipeline self' = pipeline self
  /\ forall h, history self = PList h ->
               exists more, history self' = PList (h ++ more).
Proof.
  destruct (history_cases self) as [[h Hh]|Hn].
  - rewrite (chat_run env prompt self h Hh).
    destruct (pipeline self) eqn:Ep; cbn;
      (split; [reflexivity|split; [now rewrite Ep|]]);
      intros h' Hh'; rewrite Hh in Hh'; injection Hh' as <-; eexists; reflexivity.
  - rewrite (chat_not_list env prompt self Hn). cbn.
    split; [reflexivity|split; [reflexivity|]].
    intros h Hh. now destruct (Hn h).
Qed.

Lemma chat_trace env prompt self :
  snd (chat env prompt self) = [Acquire self_lock; Release self_lock]
  \/ snd (chat env prompt self)
     = [Acquire self_lock; ModelCall (full_prompt env (cfg self) prompt);
        Release self_lock].
Proof.
  destruct (history_cases self) as [[h Hh]|Hn].
  - rewrite (chat_run env prompt self h Hh). destruct (pipeline self); auto.
  - rewrite (chat_not_list env prompt self Hn). auto.
Qed.

(** bot_chat touches one bot and one file. *)
Lemma bot_chat_frame env (name : pystr) (body : pyobj) (w : World) :
  let w' := snd (fst (bot_chat env name body w)) in
  (forall k, k <> name -> bots w' !! k = bots w !! k)
  /\ (forall k, is_Some (bots w' !! k) <-> is_Some (bots w !! k))
  /\ (forall inst, bots w !! name = Some inst ->
        exists inst', bots w' !! name = Some inst'
                      /\ cfg inst' = cfg inst /\ pipeline inst' = pipeline inst
                      /\ forall h, history inst = PList h ->
                           exists more, history inst' = PList (h ++ more))
  /\ (forall p, p <> history_path name -> files w' !! p = files w !! p).
Proof.
  destruct (py_truthy env (body_message body)) eqn:Hm.
  2:{ rewrite (bot_chat_no_message_run env name body w Hm). cbn.
      split; [reflexivity|]. split; [reflexivity|]. split; [|reflexivity].
      intros inst Hi. exists inst. split; [exact Hi|].
      split; [reflexivity|]. split; [reflexivity|].
      intros h Hh. exists []. now rewrite app_nil_r. }
  assert (Hcase : (exists inst, bots w !! name = Some inst)
                  \/ bots w !! name = None)
    by (destruct (bots w !! name); eauto).
  destruct Hcase as [[inst Hreg]|Hreg].
  2:{ rewrite (bot_chat_unknown_run env name body w Hm Hreg). cbn.
      split; [reflexivity|]. split; [reflexivity|]. split; [|reflexivity].
      intros inst Hi. rewrite Hreg in Hi. discriminate. }
  rewrite (bot_chat_run env name body w inst Hm Hreg).
  pose proof (chat_keeps env (body_message body) inst) as Hk.
  destruct (chat env (body_message body) inst) as [[r inst'] t].
  cbn in Hk. destruct Hk as (Hc & Hp & Hh).
  assert (Hb : (forall k, k <> name ->
                  bots (set_bots (insert name inst') w) !! k = bots w !! k)
               /\ (forall k, is_Some (bots (set_bots (insert name inst') w) !! k)
                             <-> is_Some (bots w !! k))
               /\ (forall inst0, bots w !! name = Some inst0 ->
                     exists inst'0,
                       bots (set_bots (insert name inst') w) !! name = Some inst'0
                       /\ cfg inst'0 = cfg inst0 /\ pipeline inst'0 = pipeline inst0
                       /\ forall h, history inst0 = PList h ->
                            exists more, history inst'0 = PList (h ++ more))).
  { cbn [bots set_bots]. split; [|split].
    - intros k Hk. now apply lookup_insert_ne.
    - intros k. destruct (decide (name = k)) as [<-|Hk].
      + rewrite lookup_insert_eq, Hreg. split; intros _; now eexists.
      + now rewrite lookup_insert_ne.
    - intros inst0 Hi. rewrite Hreg in Hi. injection Hi as <-.
      exists inst'. rewrite lookup_insert_eq. now split. }
  destruct Hb as (H1 & H2 & H3). cbn zeta.
  destruct r as [reply|e]; [destruct (get_history inst') as [h|e];
    [destruct (open_w env (history_path name))|]|]; cbn [fst snd];
    (split; [exact H1|]; split; [exact H2|]; split; [exact H3|]);
    intros p Hp'; cbn [files set_files set_bots]; try reflexivity.
  now apply lookup_insert_ne.
Qed.

(** What a returning bot_chat has done. *)
Lemma bot_chat_returns env name body w resp w' t :
  bot_chat env name body w = (Returns resp, w', t) ->
  exists inst reply inst' tc h',
    bots w !! name = Some inst
    /\ chat env (body_message body) inst = (Returns reply, inst', tc)
    /\ get_history inst' = Returns h'
    /\ resp = PDict [(u "reply", PStr reply)]
    /\ w' = set_files (insert (history_path name) (json_dumps env None h'))
              (set_bots (insert name inst') w).
Proof.
  destruct (py_truthy env (body_message body)) eqn:Hm.
  2:{ rewrite (bot_chat_no_message_run env name body w Hm). discriminate. }
  destruct (bots w !! name) as [inst|] eqn:Hreg.
  2:{ rewrite (bot_chat_unknown_run env name body w Hm Hreg). discriminate. }
  rewrite (bot_chat_run env name body w inst Hm Hreg).
  destruct (chat env (body_message body) inst) as [[r inst'] tc] eqn:Ec.
  destruct r as [reply|e]; [|discriminate].
  destruct (get_history inst') as [h'|e] eqn:Eg; [|discriminate].
  destruct (open_w env (history_path name)); [discriminate|].
  intros [= <- <- <-]. exists inst, reply, inst', tc, h'.
  repeat split; try reflexivity; assumption.
Qed.

(** X10: after a [bot_chat] that returned on a bot whose history is a
    list, [bot_history] shows that history followed by the user entry
    with the message and the bot entry with the reply that was returned,
    and changes nothing. *)
Theorem bot_chat_then_history env (name : pystr) (body : pyobj) (w : World)
  (inst : BotInstance) (h : list pyobj) (resp : pyobj) (w' : World)
  (t : list event) :
  bots w !! name = Some inst ->
  history inst = PList h ->
  bot_chat env name body w = (Returns resp, w', t) ->
  exists reply,
    resp = PDict [(u "reply", PStr reply)]
    /\ bot_history name w'
       = (Returns (PDict [(u "history",
                           PList (h ++ [history_entry "user" (body_message body);
                                        history_entry "bot" (PStr reply)]))]),
          w', [Acquire bots_lock; RegGet name; Release bots_lock]).
Proof.
  intros Hreg Hh Hrun.
  destruct (bot_chat_returns env name body w resp w' t Hrun)
    as (inst0 & reply & inst' & tc & h' & Hreg' & Hc & Hg & -> & ->).
  rewrite Hreg in Hreg'. injection Hreg' as <-.
  exists reply. split; [reflexivity|].
  apply (chat_returns_history env _ inst h) in Hc; [|exact Hh]. subst inst'.
  erewrite bot_history_run; [|cbn [bots set_files set_bots]; apply lookup_insert_eq].
  reflexivity.
Qed.

(** X11: the history file a returned [bot_chat] leaves holds the history
    the bot has in memory.  When the entries are {role, text} entries of
    strings the codec returns unchanged, [load_local_history] reads that
    history back in any process that sees the same files, and a
    [create_bot] for the same name in a new process (empty mapping)
    returns with a bot that has it. *)
Theorem history_survives_restart env (name : pystr) (body : pyobj) (w : World)
  (inst : BotInstance) (h : list pyobj) (reply : pystr) (w' : World)
  (t : list event) :
  bots w !! name = Some inst ->
  history inst = PList h ->
  forallb is_history_entry h = true ->
  is_history_entry (history_entry "user" (body_message body)) = true ->
  Json.json_safe reply = true ->
  bot_chat env name body w = (Returns (PDict [(u "reply", PStr reply)]), w', t) ->
  exists inst',
    bots w' !! name = Some inst'
    /\ history inst' = PList (h ++ turn (body_message body) reply)
    /\ (forall env2 others,
          load_local_history env2 name {| bots := others; files := files w' |}
          = (Returns (history inst'),
             {| bots := others; files := files w' |}, []))
    /\ (forall env2 req,
          strip (req_name req) = name -> name <> [] ->
          exists resp2 w2 t2 inst2,
            create_bot env2 req {| bots := ∅; files := files w' |}
            = (Returns resp2, w2, t2)
            /\ bots w2 !! name = Some inst2
            /\ history inst2 = history inst').
Proof.
  intros Hreg Hh Hwf Hu Hr Hrun.
  destruct (bot_chat_returns env name body w _ w' t Hrun)
    as (inst0 & reply0 & inst' & tc & h' & Hreg' & Hc & Hg & Hresp & ->).
  injection Hresp as <-.
  rewrite Hreg in Hreg'. injection Hreg' as <-.
  apply (chat_returns_history env _ inst h) in Hc; [|exact Hh]. subst inst'.
  cbn in Hg. injection Hg as <-.
  assert (Hall : forallb is_history_entry (h ++ turn (body_message body) reply) = true).
  { rewrite forallb_app, Hwf. cbn [andb turn forallb]. rewrite Hu.
    cbn [andb is_history_entry history_entry].
    now rewrite Hr. }
  assert (Hload : forall env2 others,
            load_local_history env2 name
              {| bots := others;
                 files := <[history_path name :=
                              json_dumps env None
                                (PList (h ++ turn (body_message body) reply))]>
                            (files w) |}
            = (Returns (PList (h ++ turn (body_message body) reply)),
               {| bots := others;
                  files := <[history_path name :=
                               json_dumps env None
                                 (PList (h ++ turn (body_message body) reply))]>
                             (files w) |}, [])).
  { intros env2 others. rewrite load_local_history_run. cbn [files].
    rewrite lookup_insert_eq. unfold json_dumps.
    now rewrite loads_dumps_history. }
  eexists. split; [cbn [bots set_files set_bots]; apply lookup_insert_eq|].
  split; [reflexivity|]. split; [exact Hload|].
  intros env2 req Hn Hne.
  pose proof (create_bot_run env2 req
                {| bots := ∅;
                   files := <[history_path name :=
                                json_dumps env None
                                  (PList (h ++ turn (body_message body) reply))]>
                              (files w) |}) as Hcr.
  rewrite Hn in Hcr. specialize (Hcr (pystr_eqb_nil_false _ Hne) (lookup_empty _)).
  cbn zeta in Hcr. rewrite Hload in Hcr. cbn [fst] in Hcr.
  destruct (save_bot_to_memory_total env2 (config_of req)
              (set_bots (insert name
                 {| cfg := config_of req; pipeline := loaded_pipeline env2;
                    history := PList (h ++ turn (body_message body) reply) |})
                 {| bots := ∅;
                    files := <[history_path name :=
                                 json_dumps env None
                                   (PList (h ++ turn (body_message body) reply))]>
                               (files w) |}))
    as (saved & w2 & t2 & Hs & Hb).
  rewrite Hs in Hcr. eexists _, w2, _, _. split; [exact Hcr|].
  rewrite Hb. cbn [bots set_bots]. split; [apply lookup_insert_eq|reflexivity].
Qed.

(** ** Further properties: locks *)

Lemma deploy_bot_trace env name w :
  exists mid,
    snd (deploy_bot env name w)
    = Acquire bots_lock :: RegContains name :: mid ++ [Release bots_lock]
    /\ (mid = [] \/ mid = [HttpGet (load_url env name)]
        \/ mid = [HttpGet (load_url env name); ModelLoad]
        \/ mid = [HttpGet (load_url env name); ModelLoad; RegSet name]).
Proof.
  assert (Hcase : (exists inst, bots w !! name = Some inst)
                  \/ bots w !! name = None)
    by (destruct (bots w !! name); eauto).
  destruct Hcase as [[inst Hreg]|Hreg].
  - rewrite (deploy_bot_registered_run env name w inst Hreg).
    exists []. split; [reflexivity | auto].
  - rewrite (deploy_bot_run env name w Hreg). cbn zeta.
    destruct (py_truthy env _);
      [destruct (BotConfig_unpack env _);
       [destruct (fst (fst (load_local_history env name w)))|]|].
    + exists [HttpGet (load_url env name); ModelLoad; RegSet name].
      split; [reflexivity|auto].
    + exists [HttpGet (load_url env name); ModelLoad].
      split; [reflexivity|auto].
    + exists [HttpGet (load_url env name)]. split; [reflexivity|auto].
    + exists [HttpGet (load_url env name)]. split; [reflexivity|auto].
Qed.

Lemma bot_chat_trace env name body w :
  snd (bot_chat env name body w) = []
  \/ exists mid post,
       snd (bot_chat env name body w)
       = [Acquire bots_lock; RegGet name; Release bots_lock] ++ mid ++ post
       /\ (mid = [] \/ mid = [Acquire self_lock; Release self_lock]
           \/ exists fp, mid = [Acquire self_lock; ModelCall fp; Release self_lock])
       /\ (post = [] \/ post = [HttpPost (save_url env) (history_file name)]).
Proof.
  destruct (py_truthy env (body_message body)) eqn:Hm.
  2:{ rewrite (bot_chat_no_message_run env name body w Hm). now left. }
  right.
  destruct (bots w !! name) as [inst|] eqn:Hreg.
  2:{ rewrite (bot_chat_unknown_run env name body w Hm Hreg).
      exists [], []. split; [reflexivity|]. split; now left. }
  rewrite (bot_chat_run env name body w inst Hm Hreg).
  pose proof (chat_trace env (body_message body) inst) as Ht.
  destruct (chat env (body_message body) inst) as [[r inst'] t].
  cbn [snd] in Ht.
  assert (Hmid : t = [] \/ t = [Acquire self_lock; Release self_lock]
                 \/ exists fp, t = [Acquire self_lock; ModelCall fp; Release self_lock]).
  { destruct Ht as [->| ->]; [auto | right; right; eauto]. }
  cbn zeta.
  destruct r as [reply|e]; [destruct (get_history inst') as [h|e];
    [destruct (open_w env (history_path name))|]|]; cbn [snd].
  1,3,4: exists t, []; rewrite app_nil_r; split; [reflexivity|]; split; [exact Hmid|now left].
  exists t, [HttpPost (save_url env) (history_file name)].
  split; [now rewrite <- app_assoc|]. split; [exact Hmid|now right].
Qed.

(** X13: the lock discipline of the registry.  [create_bot],
    [deploy_bot], [bot_chat], [bot_history] and [list_bots] read and write
    the mapping [bots] only while they hold [bots_lock], take that lock
    at most once and have released it when they end, also when they
    raise.  [health] is the exception: it reads the keys of [bots]
    without taking the lock.  [list_bots] and [health] change nothing and
    answer with the registered names. *)
Theorem registry_lock_discipline env (w : World) :
  (forall rq,
      bots_guarded false (snd (handle env rq w)) = true
      /\ (bots_sections (snd (handle env rq w)) <= 1)%nat)
  /\ (list_bots w
      = (Returns (dom (bots w)), w,
         [Acquire bots_lock; RegKeys; Release bots_lock])
      /\ bots_guarded false (snd (list_bots w)) = true
      /\ bots_sections (snd (list_bots w)) = 1%nat)
  /\ (health env w
      = (Returns {| health_status := u "ok"; health_bots := dom (bots w);
                    health_memory := MEMORY_URL env |}, w, [RegKeys])
      /\ bots_guarded false (snd (health env w)) = false
      /\ bots_sections (snd (health env w)) = 0%nat).
Proof.
  split; [|split; [now cbn | now cbn]].
  intros rq.
  destruct rq as [req|name|name body|name]; cbn [handle].
  - apply create_bot_locking.
  - destruct (deploy_bot_trace env name w) as (mid & -> & Hmid).
    destruct Hmid as [->|[->|[->| ->]]]; cbn; split; (reflexivity || lia).
  - destruct (bot_chat_trace env name body w) as [->|(mid & post & -> & Hmid & Hpost)].
    + cbn. split; [reflexivity|lia].
    + destruct Hmid as [->|[->|[fp ->]]], Hpost as [->| ->]; cbn;
        split; (reflexivity || lia).
  - destruct (bots w !! name) as [inst|] eqn:Hreg.
    + rewrite (bot_history_run name w inst Hreg). cbn. split; [reflexivity|lia].
    + rewrite (bot_history_unknown_run name w Hreg). cbn. split; [reflexivity|lia].
Qed.

(** X14: [bot_chat] calls out of the process only with [bots_lock]
    released: the model is called while the lock of the instance is held,
    the upload of the history is made with both locks released. *)
Theorem bot_chat_calls_out_unlocked env (name : pystr) (body : pyobj) (w : World) :
  let t := snd (bot_chat env name body w) in
  always_when bots_lock false is_external false t = true
  /\ always_when self_lock true is_model_call false t = true
  /\ always_when self_lock false is_upload false t = true.
Proof.
  destruct (bot_chat_trace env name body w) as [->|(mid & post & -> & Hmid & Hpost)].
  - now cbn.
  - destruct Hmid as [->|[->|[fp ->]]], Hpost as [->| ->]; now cbn.
Qed.

(** X15: [create_bot] and [deploy_bot] load the model while they hold
    [bots_lock], and [deploy_bot] also fetches the config from the memory
    server while it holds it; [create_bot] uploads the config after it
    has released the lock. *)
Theorem registration_holds_registry_lock env :
  (forall req w,
      let t := snd (create_bot env req w) in
      always_when bots_lock true is_model_load false t = true
      /\ always_when bots_lock false is_upload false t = true)
  /\ (forall name w,
        let t := snd (deploy_bot env name w) in
        always_when bots_lock true is_model_load false t = true
        /\ always_when bots_lock true is_download false t = true).
Proof.
  split.
  - intros req w.
    destruct (strip (req_name req)) as [|c s] eqn:En.
    { rewrite create_bot_empty_run by exact En. now cbn. }
    assert (Hne : strip (req_name req) <> []) by (rewrite En; discriminate).
    clear En.
    destruct (bots w !! strip (req_name req)) as [inst|] eqn:Hreg.
    { rewrite (create_bot_exists_run env req w inst Hne Hreg). now cbn. }
    rewrite (create_bot_run env req w (pystr_eqb_nil_false _ Hne) Hreg).
    cbn zeta.
    destruct (fst (fst (load_local_history env _ w))); [|now cbn].
    rewrite save_bot_to_memory_run.
    destruct (open_w env _); now cbn.
  - intros name w.
    destruct (deploy_bot_trace env name w) as (mid & -> & Hmid).
    destruct Hmid as [->|[->|[->| ->]]]; now cbn.
Qed.

(** ** Further properties: sequences of requests *)

Lemma bot_history_state name w : snd (fst (bot_history name w)) = w.
Proof.
  destruct (bots w !! name) as [inst|] eqn:Hreg.
  - now rewrite (bot_history_run name w inst Hreg).
  - now rewrite (bot_history_unknown_run name w Hreg).
Qed.


Lemma extends_refl b : extends b b.
Proof.
  repeat split. intros h Hh. exists []. now rewrite app_nil_r.
Qed.

Lemma extends_trans b1 b2 b3 : extends b1 b2 -> extends b2 b3 -> extends b1 b3.
Proof.
  intros (Hc1 & Hp1 & Hh1) (Hc2 & Hp2 & Hh2). split; [congruence|].
  split; [congruence|]. intros h Hh.
  destruct (Hh1 h Hh) as (m1 & E1). destruct (Hh2 _ E1) as (m2 & E2).
  exists (m1 ++ m2). now rewrite app_assoc.
Qed.

Lemma handle_keeps env rq w k b :
  bots w !! k = Some b ->
  exists b', bots (snd (fst (handle env rq w))) !! k = Some b' /\ extends b b'.
Proof.
  intros Hk. destruct rq as [req|name|name body|name]; cbn [handle].
  - destruct (create_bot env req w) as [[r w'] t] eqn:E. cbn [fst snd].
    destruct r as [resp|e].
    + destruct (create_bot_returns_effect env req w resp w' t E)
        as (_ & _ & _ & Hfree & _ & Hother & _).
      exists b. split; [|apply extends_refl].
      rewrite Hother; [exact Hk|]. intros ->. rewrite Hfree in Hk. discriminate.
    + apply (proj1 (registration_failure_state env)) in E. subst w'.
      exists b. split; [exact Hk|apply extends_refl].
  - destruct (deploy_bot env name w) as [[r w'] t] eqn:E. cbn [fst snd].
    destruct r as [resp|e].
    + destruct (bots w !! name) as [inst|] eqn:Hreg.
      * rewrite (deploy_bot_registered_run env name w inst Hreg) in E.
        injection E as _ <- _. exists b. split; [exact Hk|apply extends_refl].
      * destruct (deploy_bot_returns_effect env name w resp w' t Hreg E)
          as (_ & (inst & Hb & _) & _).
        exists b. split; [|apply extends_refl]. rewrite Hb.
        rewrite lookup_insert_ne; [exact Hk|].
        intros ->. rewrite Hreg in Hk. discriminate.
    + apply (proj2 (registration_failure_state env)) in E. subst w'.
      exists b. split; [exact Hk|apply extends_refl].
  - destruct (bot_chat_frame env name body w) as (Hother & _ & Hsame & _).
    destruct (decide (k = name)) as [->|Hne].
    + destruct (Hsame b Hk) as (b' & Hb' & Hext). now exists b'.
    + exists b. split; [|apply extends_refl]. now rewrite Hother.
  - rewrite bot_history_state. exists b. split; [exact Hk|apply extends_refl].
Qed.

(** X16: no sequence of requests removes or replaces a registered bot:
    after any requests, served in any environments, the name is still
    registered, with the same config and pipeline, and a history that was
    a list has only grown at its end. *)
Theorem registry_is_stable (rqs : list (Env * request)) (w : World)
  (k : pystr) (b : BotInstance) :
  bots w !! k = Some b ->
  exists b',
    bots (serve rqs w) !! k = Some b'
    /\ cfg b' = cfg b /\ pipeline b' = pipeline b
    /\ forall h, history b = PList h ->
          exists more, history b' = PList (h ++ more).
Proof.
  revert w b. induction rqs as [|[env rq] rest IH]; intros w b Hk.
  - exists b. split; [exact Hk|]. apply extends_refl.
  - cbn [serve fst snd].
    destruct (handle_keeps env rq w k b Hk) as (b1 & Hk1 & Hext1).
    destruct (IH _ b1 Hk1) as (b' & Hk' & Hext').
    exists b'. split; [exact Hk'|].
    apply (extends_trans b b1 b'); [exact Hext1|exact Hext'].
Qed.

(** ** Further properties: integers and configs in the codec *)

Module IntFacts.
Import Json.


Lemma span_digits_stop rest : number_stop rest = true -> span_digits rest = ([], rest).
Proof.
  destruct rest as [|c r]; [reflexivity|]. cbn [number_stop span_digits].
  intros H. apply negb_true_iff in H. apply orb_false_iff in H as [H _].
  apply orb_false_iff in H as [H _]. apply orb_false_iff in H as [H _].
  now rewrite H.
Qed.

Lemma match_frac_stop rest : number_stop rest = true -> match_frac rest = ([], rest).
Proof.
  destruct rest as [|c r]; [reflexivity|]. cbn [number_stop match_frac].
  intros H. apply negb_true_iff in H. apply orb_false_iff in H as [H _].
  apply orb_false_iff in H as [H _]. apply orb_false_iff in H as [_ H].
  now rewrite H.
Qed.

Lemma match_exp_stop rest : number_stop rest = true -> match_exp rest = ([], rest).
Proof.
  destruct rest as [|c r]; [reflexivity|]. cbn [number_stop match_exp].
  intros H. apply negb_true_iff in H. apply orb_false_iff in H as [H H69].
  apply orb_false_iff in H as [_ H101]. now rewrite H101, H69.
Qed.

Lemma span_digits_uint d rest :
  number_stop rest = true ->
  span_digits (uint_digits d ++ rest) = (uint_digits d, rest).
Proof.
  intros Hr. induction d as [|d IH|d IH|d IH|d IH|d IH|d IH|d IH|d IH|d IH|d IH];
    [now apply span_digits_stop|..];
    cbn [uint_digits app span_digits];
    match goal with |- context [is_digit ?c] => change (is_digit c) with true end;
    cbv iota; now rewrite IH.
Qed.


Lemma fold_digits_acc d : forall acc,
  fold_left digit_step (uint_digits d) (Zpos acc) = Zpos (Pos.of_uint_acc d acc).
Proof.
  induction d as [|d IH|d IH|d IH|d IH|d IH|d IH|d IH|d IH|d IH|d IH];
    intros acc; [reflexivity|..];
    cbn [uint_digits fold_left Pos.of_uint_acc]; rewrite <- IH; f_equal;
    unfold digit_step; lia.
Qed.

Lemma digits_value_uint d : digits_value (uint_digits d) = Z.of_N (Pos.of_uint d).
Proof.
  unfold digits_value. change (fun acc c => (10 * acc + (Z.of_N c - 48))%Z) with digit_step.
  induction d as [|d IH|d IH|d IH|d IH|d IH|d IH|d IH|d IH|d IH|d IH];
    [reflexivity | exact IH |..];
    cbn [uint_digits fold_left Pos.of_uint];
    match goal with
    | |- fold_left _ _ (digit_step 0 ?c) = _ =>
        let v := eval vm_compute in (digit_step 0 c) in
        change (digit_step 0 c) with v
    end;
    now rewrite fold_digits_acc.
Qed.

Lemma digits_value_pos p : digits_value (uint_digits (Pos.to_uint p)) = Zpos p.
Proof. now rewrite digits_value_uint, DecimalPos.Unsigned.of_to. Qed.

(** The digits of a positive number do not start with a zero. *)
Lemma to_uint_head p :
  match Pos.to_uint p with
  | Decimal.Nil | Decimal.D0 _ => False
  | _ => True
  end.
Proof.
  pose proof (DecimalPos.Unsigned.to_of (Pos.to_uint p)) as H.
  rewrite DecimalPos.Unsigned.of_to in H. cbn [N.to_uint] in H.
  pose proof (DecimalPos.Unsigned.to_uint_nonnil p) as Hnil.
  pose proof (DecimalPos.Unsigned.to_uint_nonzero p) as Hz.
  destruct (Pos.to_uint p) as [|d|d|d|d|d|d|d|d|d|d]; try exact I.
  - now apply Hnil.
  - unfold Decimal.unorm in H. cbn [Decimal.nzhead] in H.
    pose proof (DecimalFacts.nb_digits_nzhead d) as Hn.
    destruct (Decimal.nzhead d) eqn:E; try discriminate H.
    + injection H as Hd. subst d. now apply Hz.
    + injection H as Hd. subst d. cbn in Hn. lia.
Qed.

Lemma match_number_pos p rest :
  number_stop rest = true ->
  match_number (uint_digits (Pos.to_uint p) ++ rest) = Some (PInt (Zpos p), rest).
Proof.
  intros Hr. pose proof (to_uint_head p) as Hh.
  pose proof (digits_value_pos p) as Hv.
  unfold match_number, match_integer.
  destruct (Pos.to_uint p) as [|d|d|d|d|d|d|d|d|d|d]; try contradiction;
    cbn [uint_digits app] in *;
    match goal with
    | |- context [?c =? 45] => change (c =? 45) with false
    end; cbv iota;
    match goal with
    | |- context [?c =? 48] => change (c =? 48) with false
    end;
    match goal with
    | |- context [is_digit ?c] => change (is_digit c) with true
    end; cbv iota;
    rewrite (span_digits_uint d rest Hr), (match_frac_stop rest Hr),
      (match_exp_stop rest Hr); now rewrite Hv.
Qed.

Lemma match_number_neg p rest :
  number_stop rest = true ->
  match_number (45 :: uint_digits (Pos.to_uint p) ++ rest) = Some (PInt (Zneg p), rest).
Proof.
  intros Hr. pose proof (to_uint_head p) as Hh.
  pose proof (digits_value_pos p) as Hv.
  unfold match_number, match_integer.
  change (45 =? 45) with true. cbv iota.
  destruct (Pos.to_uint p) as [|d|d|d|d|d|d|d|d|d|d]; try contradiction;
    cbn [uint_digits app] in *;
    match goal with
    | |- context [?c =? 48] => change (c =? 48) with false
    end;
    match goal with
    | |- context [is_digit ?c] => change (is_digit c) with true
    end; cbv iota;
    rewrite (span_digits_uint d rest Hr), (match_frac_stop rest Hr),
      (match_exp_stop rest Hr); now rewrite Hv.
Qed.

Lemma match_number_int z rest :
  number_stop rest = true ->
  match_number (int_repr z ++ rest) = Some (PInt z, rest).
Proof.
  intros Hr. destruct z as [|p|p].
  - change (int_repr 0) with [48]. cbn [app].
    unfold match_number, match_integer. cbv beta iota zeta.
    change (48 =? 45) with false. cbv beta iota zeta.
    change (48 =? 48) with true. cbv beta iota zeta.
    now rewrite (match_frac_stop rest Hr), (match_exp_stop rest Hr).
  - now apply match_number_pos.
  - now apply match_number_neg.
Qed.

(** The first character of the text of an integer. *)
Lemma int_repr_head z :
  exists c ds, int_repr z = c :: ds /\ ((c =? 45) || is_digit c) = true.
Proof.
  destruct z as [|p|p].
  - now exists 48, [].
  - unfold int_repr. cbn [Z.to_int]. pose proof (to_uint_head p) as Hh.
    destruct (Pos.to_uint p); try contradiction; eexists _, _; split;
      (reflexivity || now cbn).
  - unfold int_repr. cbn [Z.to_int]. now eexists 45, _.
Qed.

Lemma scan_once_int f z rest :
  number_stop rest = true ->
  scan_once (S f) (int_repr z ++ rest) = POk (PInt z) rest.
Proof.
  intros Hr. pose proof (match_number_int z rest Hr) as Hm.
  destruct (int_repr_head z) as (c & ds & E & Hc). rewrite E in *.
  cbn [app scan_once] in *.
  assert (Hd : c = 45 \/ (48 <= c /\ c <= 57)).
  { apply orb_true_iff in Hc as [Hc|Hc].
    - left. now apply N.eqb_eq.
    - right. unfold is_digit in Hc. apply andb_true_iff in Hc as [H1 H2].
      apply N.leb_le in H1, H2. now split. }
  assert (E34 : (c =? 34) = false) by (apply N.eqb_neq; lia).
  assert (E123 : (c =? 123) = false) by (apply N.eqb_neq; lia).
  assert (E91 : (c =? 91) = false) by (apply N.eqb_neq; lia).
  rewrite E34, E123, E91. unfold scan_constant.
  assert (Hn : forall x p s, x <> c -> strip_prefix (x :: p) (c :: s) = None).
  { intros x p s Hx. cbn [strip_prefix]. apply N.eqb_neq in Hx. now rewrite Hx. }
  change (u "null") with (110 :: u "ull").
  change (u "true") with (116 :: u "rue").
  change (u "false") with (102 :: u "alse").
  rewrite !Hn by lia. now rewrite Hm.
Qed.


Lemma scan_once_int_sp f z rest :
  number_stop rest = true ->
  scan_once (S f) (skip_ws (32 :: int_repr z ++ rest)) = POk (PInt z) rest.
Proof.
  intros Hr. cbn [skip_ws]. change (is_ws 32) with true. cbv iota.
  destruct (int_repr_head z) as (c & ds & E & Hc).
  assert (Hws : skip_ws (int_repr z ++ rest) = int_repr z ++ rest).
  { rewrite E. cbn [app skip_ws].
    assert (Hd : c = 45 \/ (48 <= c /\ c <= 57)).
    { apply orb_true_iff in Hc as [Hc|Hc].
      - left. now apply N.eqb_eq.
      - right. unfold is_digit in Hc. apply andb_true_iff in Hc as [H1 H2].
        apply N.leb_le in H1, H2. now split. }
    unfold is_ws.
    replace (c =? 32) with false by (symmetry; apply N.eqb_neq; lia).
    replace (c =? 9) with false by (symmetry; apply N.eqb_neq; lia).
    replace (c =? 10) with false by (symmetry; apply N.eqb_neq; lia).
    replace (c =? 13) with false by (symmetry; apply N.eqb_neq; lia).
    reflexivity. }
  rewrite Hws. now apply scan_once_int.
Qed.

Lemma number_stop_newline indent level rest :
  number_stop (newline_indent indent level ++ 125 :: rest) = true.
Proof. now destruct indent. Qed.

Lemma skip_ws_newline_indent_quote indent level x :
  skip_ws (newline_indent indent level ++ 34 :: x) = 34 :: x.
Proof. now rewrite JsonFacts.skip_ws_newline_indent. Qed.

Section config.
Variable fr : pystr -> pystr.
Variable indent : option nat.

Lemma iterencode_config c level rest :
  iterencode fr indent (BotConfig_dict c) level ++ rest
  = 123 :: newline_indent indent (S level)
      ++ 34 :: flat_map escape_char (u "name") ++ 34 :: 58 :: 32
      :: encode_basestring_ascii (cfg_name c)
      ++ item_separator indent ++ newline_indent indent (S level)
      ++ 34 :: flat_map escape_char (u "persona") ++ 34 :: 58 :: 32
      :: encode_basestring_ascii (cfg_persona c)
      ++ item_separator indent ++ newline_indent indent (S level)
      ++ 34 :: flat_map escape_char (u "max_length") ++ 34 :: 58 :: 32
      :: int_repr (cfg_max_length c)
      ++ newline_indent indent level ++ 125 :: rest.
Proof.
  unfold BotConfig_dict. cbn [iterencode flat_map fst snd].
  unfold key_separator, encode_basestring_ascii.
  repeat (rewrite <- ?app_assoc; cbn [app]). reflexivity.
Qed.

Lemma scan_once_config c level f rest :
  json_safe (cfg_name c) = true -> json_safe (cfg_persona c) = true ->
  scan_once (S (S (S (S (S f)))))
    (iterencode fr indent (BotConfig_dict c) level ++ rest)
  = POk (BotConfig_dict c) rest.
Proof.
  intros Hn Hp. rewrite iterencode_config.
  erewrite JsonFacts.scan_once_object by apply skip_ws_newline_indent_quote.
  destruct (JsonFacts.skip_ws_separator indent (S level)
              (34 :: flat_map escape_char (u "persona") ++ 34 :: 58 :: 32
                 :: encode_basestring_ascii (cfg_persona c)
                 ++ item_separator indent ++ newline_indent indent (S level)
                 ++ 34 :: flat_map escape_char (u "max_length") ++ 34 :: 58 :: 32
                 :: int_repr (cfg_max_length c)
                 ++ newline_indent indent level ++ 125 :: rest))
    as (ws1 & Hsep1 & Hws1).
  rewrite Hsep1.
  erewrite (JsonFacts.parse_object_more _ (u "name") _ (PStr (cfg_name c))
              (44 :: ws1) ws1);
    [| reflexivity | now apply JsonFacts.scan_once_string_sp | reflexivity
     | exact Hws1].
  destruct (JsonFacts.skip_ws_separator indent (S level)
              (34 :: flat_map escape_char (u "max_length") ++ 34 :: 58 :: 32
                 :: int_repr (cfg_max_length c)
                 ++ newline_indent indent level ++ 125 :: rest))
    as (ws2 & Hsep2 & Hws2).
  rewrite Hsep2.
  erewrite (JsonFacts.parse_object_more _ (u "persona") _ (PStr (cfg_persona c))
              (44 :: ws2) ws2);
    [| reflexivity | now apply JsonFacts.scan_once_string_sp | reflexivity
     | exact Hws2].
  erewrite (JsonFacts.parse_object_last _ (u "max_length") _
              (PInt (cfg_max_length c))
              (newline_indent indent level ++ 125 :: rest) rest);
    [| reflexivity | apply scan_once_int_sp, number_stop_newline
     | apply JsonFacts.skip_ws_newline_indent].
  reflexivity.
Qed.

(** The text [json.dump] writes for a config is read back as the config. *)
Lemma loads_dumps_config c :
  json_safe (cfg_name c) = true -> json_safe (cfg_persona c) = true ->
  loads (dumps fr indent (BotConfig_dict c)) = Some (BotConfig_dict c).
Proof.
  intros Hn Hp. unfold loads, decode, dumps.
  pose proof (scan_once_config c 0 (2 * length (iterencode fr indent (BotConfig_dict c) 0) - 3) [] Hn Hp) as H.
  rewrite app_nil_r in H.
  assert (Hlen : (2 <= length (iterencode fr indent (BotConfig_dict c) 0))%nat).
  { pose proof (iterencode_config c 0 []) as E. rewrite app_nil_r in E.
    rewrite E. cbn [length]. rewrite length_app. cbn [length]. lia. }
  assert (Hhead : exists x, iterencode fr indent (BotConfig_dict c) 0 = 123 :: x).
  { pose proof (iterencode_config c 0 []) as E. rewrite app_nil_r in E.
    rewrite E. now eexists. }
  destruct Hhead as (x & Ex).
  unfold fuel_for.
  replace (2 * length (iterencode fr indent (BotConfig_dict c) 0) + 2)%nat
    with (S (S (S (S (S (2 * length (iterencode fr indent (BotConfig_dict c) 0) - 3))))))
    by lia.
  rewrite Ex in *. cbn [skip_ws]. change (is_ws 123) with false.
  change (123 =? 65279) with false. cbv iota.
  now rewrite H.
Qed.
End config.

End IntFacts.

(** * Further properties: statements *)

(** X1: on a history that is a list, [chat] only appends.  It appends the
    user entry and, exactly when it returns, the bot entry with the reply
    it returns; a call that raises leaves the user entry without an
    answer.  The config and the pipeline are never changed. *)
Theorem chat_appends env (prompt : pyobj) (self : BotInstance) (h : list pyobj) :
  history self = PList h ->
  exists r self' t,
    chat env prompt self = (r, self', t)
    /\ cfg self' = cfg self /\ pipeline self' = pipeline self
    /\ history self'
       = PList (h ++ history_entry "user" prompt
                  :: match r with
                     | Returns reply => [history_entry "bot" (PStr reply)]
                     | Raises _ => []
                     end).
Proof.
  intros Hh. rewrite (chat_run env prompt self h Hh).
  destruct (pipeline self) eqn:Ep; eexists _, _, _;
    (split; [reflexivity|]); cbn; rewrite ?Ep; now repeat split.
Qed.

Lemma chat_appends_witness :
  exists r self' t,
    chat env_model_raises (PStr (u "hi")) helper_bot_loaded = (r, self', t)
    /\ cfg self' = cfg helper_bot_loaded
    /\ pipeline self' = pipeline helper_bot_loaded
    /\ history self'
       = PList ([] ++ history_entry "user" (PStr (u "hi"))
                  :: match r with
                     | Returns reply => [history_entry "bot" (PStr reply)]
                     | Raises _ => []
                     end).
Proof.
  apply (chat_appends env_model_raises (PStr (u "hi")) helper_bot_loaded []).
  reflexivity.
Defined.

(** X2: when the history of a bot is not a list (the history file held
    another JSON value), [chat] raises AttributeError at the first append
    and changes nothing, with the lock of the instance released. *)
Theorem chat_on_broken_history env (prompt : pyobj) (self : BotInstance) :
  (forall h, history self <> PList h) ->
  chat env prompt self
  = (Raises (PyExc AttributeError
               ([39] ++ type_name (history self)
                  ++ u "' object has no attribute 'append'")),
     self, [Acquire self_lock; Release self_lock]).
Proof.
  intros Hn. rewrite (chat_not_list env prompt self Hn). reflexivity.
Qed.

Lemma chat_on_broken_history_witness :
  chat env_model_ok (PStr (u "hi")) broken_bot
  = (Raises (PyExc AttributeError
               ([39] ++ type_name (history broken_bot)
                  ++ u "' object has no attribute 'append'")),
     broken_bot, [Acquire self_lock; Release self_lock]).
Proof.
  apply (chat_on_broken_history env_model_ok (PStr (u "hi")) broken_bot).
  intros h. discriminate.
Defined.

(** X3: what [chat] makes of the output of the model.  From a list whose
    first element is a dict with a string under "generated_text" it
    returns that string without the white space around it, and appends
    the turn; on an empty list it raises IndexError, on a first dict
    without the key KeyError, and then the user entry stays alone. *)
Theorem chat_model_output env (prompt : pyobj) (self : BotInstance)
  (h : list pyobj) (p : Pipeline) :
  history self = PList h ->
  pipeline self = Some p ->
  let call := pipeline_call env (full_prompt env (cfg self) prompt)
                (cfg_max_length (cfg self)) in
  let trace := [Acquire self_lock;
                ModelCall (full_prompt env (cfg self) prompt);
                Release self_lock] in
  let asked := set_history (PList (h ++ [history_entry "user" prompt])) self in
  (forall d more g,
      call = Returns (PList (PDict d :: more)) ->
      dict_get d (u "generated_text") = Some (PStr g) ->
      chat env prompt self
      = (Returns (strip g),
         set_history (PList (h ++ turn prompt (strip g))) self, trace)
      /\ trimmed (strip g) = true
      /\ exists l r, g = l ++ strip g ++ r
                     /\ forallb py_isspace l = true
                     /\ forallb py_isspace r = true)
  /\ (call = Returns (PList []) ->
      chat env prompt self
      = (Raises (PyExc IndexError (u "list index out of range")), asked, trace))
  /\ (forall d more,
        call = Returns (PList (PDict d :: more)) ->
        dict_get d (u "generated_text") = None ->
        chat env prompt self
        = (Raises (PyExc KeyError ([39] ++ u "generated_text" ++ [39])),
           asked, trace)).
Proof.
  intros Hh Hp call trace asked. rewrite (chat_run env prompt self h Hh), Hp.
  unfold generate. fold call. repeat apply conj.
  - intros d more g -> Hg. cbn [py_first py_getitem]. rewrite Hg.
    cbn [py_strip]. split; [reflexivity|].
    split; [apply strip_trimmed | apply strip_split].
  - intros ->. reflexivity.
  - intros d more -> Hg. cbn [py_first py_getitem]. now rewrite Hg.
Qed.

Lemma chat_model_output_witness :
  chat env_model_ok (PStr (u "hi")) helper_bot_loaded
  = (Returns (u "Hello there."),
     set_history (PList ([] ++ turn (PStr (u "hi")) (u "Hello there.")))
       helper_bot_loaded,
     [Acquire self_lock;
      ModelCall (full_prompt env_model_ok (cfg helper_bot_loaded) (PStr (u "hi")));
      Release self_lock]).
Proof.
  apply (proj1 (chat_model_output env_model_ok (PStr (u "hi")) helper_bot_loaded
                  [] (mkPipeline (u "text-generation") (u "distilgpt2"))
                  eq_refl eq_refl)
           [(u "generated_text", PStr ([32; 32] ++ u "Hello there." ++ [32; 10]))]
           [] ([32; 32] ++ u "Hello there." ++ [32; 10]));
    reflexivity.
Defined.

(** X4: a [create_bot] that returns has registered the bot under the name
    of the request without the white space around it, a name that is not
    empty and was free; the new bot has the config of the request and the
    history that the local history file holds; every other bot is as it
    was, and no file but the local copy of the config is written. *)
Theorem create_bot_registers env (req : CreateReq) (w : World)
  (resp : pyobj) (w' : World) (t : list event) :
  create_bot env req w = (Returns resp, w', t) ->
  let k := strip (req_name req) in
  (exists l r, req_name req = l ++ k ++ r
               /\ forallb py_isspace l = true /\ forallb py_isspace r = true)
  /\ k <> [] /\ trimmed k = true
  /\ bots w !! k = None
  /\ (exists inst,
        bots w' !! k = Some inst
        /\ cfg inst = {| cfg_name := k; cfg_persona := req_persona req;
                         cfg_max_length := req_max_length req |}
        /\ fst (fst (load_local_history env k w)) = Returns (history inst))
  /\ (forall k', k' <> k -> bots w' !! k' = bots w !! k')
  /\ (forall p, p <> config_path (config_of req) -> files w' !! p = files w !! p).
Proof. apply create_bot_returns_effect. Qed.

Lemma create_bot_registers_witness :
  exists inst,
    bots world_with_helper !! u "helper" = Some inst
    /\ cfg inst = {| cfg_name := u "helper"; cfg_persona := u "You are terse.";
                     cfg_max_length := 64 |}.
Proof.
  destruct (create_bot_registers env_offline helper_req empty_world
              (created_response (u "helper") (false, u "connection refused"))
              world_with_helper
              (snd (create_bot env_offline helper_req empty_world)))
    as (_ & _ & _ & _ & (inst & Hi & Hc & _) & _).
  - vm_compute. reflexivity.
  - exists inst. split; [exact Hi | exact Hc].
Defined.

(** X5: a [create_bot] or a [deploy_bot] that raises, for whatever
    reason, leaves the mapping and the files as they were. *)
Theorem failed_registration_changes_nothing env :
  (forall req w e w' t, create_bot env req w = (Raises e, w', t) -> w' = w)
  /\ (forall name w e w' t, deploy_bot env name w = (Raises e, w', t) -> w' = w).
Proof. apply registration_failure_state. Qed.

Lemma failed_registration_changes_nothing_witness :
  snd (fst (deploy_bot env_offline (u "ghost") world_with_helper))
  = world_with_helper.
Proof.
  apply (proj2 (failed_registration_changes_nothing env_offline) (u "ghost")
           world_with_helper
           (HTTPException 404
              (u "bot config not found in memory: connection refused"))
           _ (snd (deploy_bot env_offline (u "ghost") world_with_helper))).
  vm_compute. reflexivity.
Defined.

(** X6: a [deploy_bot] that returns on a name that was not registered has
    inserted, under the name as given, a bot with the config pydantic made
    of what the memory server sent, the pipeline [_load_model] left and
    the history of the local history file; it writes no file. *)
Theorem deploy_bot_registers env (name : pystr) (w : World)
  (resp : pyobj) (w' : World) (t : list event) :
  bots w !! name = None ->
  deploy_bot env name w = (Returns resp, w', t) ->
  resp = PDict [(u "deployed", PStr name)]
  /\ (exists inst,
        bots w' = <[name := inst]> (bots w)
        /\ BotConfig_unpack env (fst (fetch_config env name)) = Returns (cfg inst)
        /\ pipeline inst = loaded_pipeline env
        /\ fst (fst (load_local_history env name w)) = Returns (history inst))
  /\ files w' = files w
  /\ t = [Acquire bots_lock; RegContains name; HttpGet (load_url env name);
          ModelLoad; RegSet name; Release bots_lock].
Proof. apply deploy_bot_returns_effect. Qed.

Lemma deploy_bot_registers_witness :
  exists inst,
    bots (snd (fst (deploy_bot env_remote_config (u "third") empty_world)))
    = <[u "third" := inst]> (bots empty_world)
    /\ cfg inst = config_of helper_req.
Proof.
  destruct (deploy_bot_registers env_remote_config (u "third") empty_world
              (PDict [(u "deployed", PStr (u "third"))])
              (snd (fst (deploy_bot env_remote_config (u "third") empty_world)))
              (snd (deploy_bot env_remote_config (u "third") empty_world)))
    as (_ & (inst & Hb & Hc & _) & _).
  - reflexivity.
  - vm_compute. reflexivity.
  - exists inst. split; [exact Hb|].
    assert (E : BotConfig_unpack env_remote_config
                  (fst (fetch_config env_remote_config (u "third")))
                = Returns (config_of helper_req)) by (vm_compute; reflexivity).
    rewrite E in Hc. now injection Hc.
Defined.

Lemma deploy_bot_not_found_witness :
  deploy_bot env_offline (u "ghost") world_with_helper
  = (Raises (HTTPException 404
               (u "bot config not found in memory: " ++ u "connection refused")),
     world_with_helper,
     [Acquire bots_lock; RegContains (u "ghost");
      HttpGet (load_url env_offline (u "ghost")); Release bots_lock]).
Proof.
  apply (proj1 (deploy_bot_not_found env_offline (u "ghost") world_with_helper
                  eq_refl)
           (PyExc LibraryError (u "connection refused"))).
  reflexivity.
Defined.

(** X8: [load_bot_from_memory] returns in every environment, changes
    nothing and makes one request; of the pair it returns, the error is
    None or the config is None, and an error is a string. *)
Theorem load_bot_from_memory_never_raises env (name : pystr) (w : World) :
  exists cfg_data err,
    load_bot_from_memory env name w
    = (Returns (cfg_data, err), w, [HttpGet (load_url env name)])
    /\ (err = PNone \/ (cfg_data = PNone /\ exists msg, err = PStr msg)).
Proof.
  rewrite load_bot_from_memory_run. unfold fetch_config.
  destruct (requests_get env _) as [r|e].
  - destruct (negb _).
    + eexists _, _. split; [reflexivity|]. right. split; [reflexivity|eauto].
    + destruct (Json.loads (text r)).
      * eexists _, _. split; [reflexivity|]. now left.
      * eexists _, _. split; [reflexivity|]. right. split; [reflexivity|eauto].
  - eexists _, _. split; [reflexivity|]. right. split; [reflexivity|eauto].
Qed.

(** X9: the text [save_bot_to_memory] writes to the local copy and
    uploads under "<name>.bot.json" is JSON that the decoder reads back
    as the dict of the config, when name and persona are strings the
    codec returns unchanged; [load_bot_from_memory] asks the memory
    server for that same file name, and when the server answers 200 with
    that text it returns the dict of the config and no error. *)
Theorem config_round_trip env (c : BotConfig) (w : World) :
  Json.json_safe (cfg_name c) = true ->
  Json.json_safe (cfg_persona c) = true ->
  open_w env (config_path c) = None ->
  let doc := json_dumps env (Some 2%nat) (BotConfig_dict c) in
  let posted := cfg_name c ++ u ".bot.json" in
  (exists w',
      save_bot_to_memory env c w
      = (Returns match requests_post env (save_url env) posted doc with
                 | Returns r => (resp_ok r, text r)
                 | Raises e => (false, exn_str e)
                 end, w', [HttpPost (save_url env) posted])
      /\ files w' !! config_path c = Some doc)
  /\ Json.loads doc = Some (BotConfig_dict c)
  /\ (forall env2 w2,
        load_url env2 (cfg_name c) = MEMORY_URL env2 ++ u "/ml/load/" ++ posted
        /\ (requests_get env2 (load_url env2 (cfg_name c))
            = Returns {| status_code := 200; text := doc |} ->
            load_bot_from_memory env2 (cfg_name c) w2
            = (Returns (BotConfig_dict c, PNone), w2,
               [HttpGet (load_url env2 (cfg_name c))]))).
Proof.
  intros Hn Hp Ho doc posted.
  assert (Hdoc : Json.loads doc = Some (BotConfig_dict c))
    by (apply IntFacts.loads_dumps_config; assumption).
  split; [|split; [exact Hdoc|]].
  - rewrite save_bot_to_memory_run, Ho. eexists. split; [reflexivity|].
    cbn [files set_files]. apply lookup_insert_eq.
  - intros env2 w2. split; [reflexivity|]. intros Hget.
    rewrite load_bot_from_memory_run. unfold fetch_config. rewrite Hget.
    cbn [status_code text negb Z.eqb Pos.eqb]. now rewrite Hdoc.
Qed.

Lemma config_round_trip_witness :
  Json.loads (json_dumps env_offline (Some 2%nat)
                (BotConfig_dict (config_of helper_req)))
  = Some (BotConfig_dict (config_of helper_req)).
Proof.
  apply (proj1 (proj2 (config_round_trip env_offline (config_of helper_req)
                         empty_world eq_refl eq_refl eq_refl))).
Defined.

Lemma bot_chat_then_history_witness :
  exists reply,
    PDict [(u "reply", PStr (u "Model not available."))]
    = PDict [(u "reply", PStr reply)]
    /\ bot_history (u "helper")
         (snd (fst (bot_chat env_offline (u "helper") (message "hi")
                      world_with_helper)))
       = (Returns (PDict [(u "history",
                           PList ([] ++ [history_entry "user"
                                           (body_message (message "hi"));
                                         history_entry "bot" (PStr reply)]))]),
          snd (fst (bot_chat env_offline (u "helper") (message "hi")
                      world_with_helper)),
          [Acquire bots_lock; RegGet (u "helper"); Release bots_lock]).
Proof.
  apply (bot_chat_then_history env_offline (u "helper") (message "hi")
           world_with_helper helper_bot []
           (PDict [(u "reply", PStr (u "Model not available."))])
           (snd (fst (bot_chat env_offline (u "helper") (message "hi")
                        world_with_helper)))
           (snd (bot_chat env_offline (u "helper") (message "hi")
                   world_with_helper)));
    vm_compute; reflexivity.
Defined.

Lemma history_survives_restart_witness :
  exists inst',
    bots (snd (fst (bot_chat env_offline (u "helper") (message "hi")
                      world_with_helper))) !! u "helper" = Some inst'
    /\ history inst'
       = PList ([] ++ turn (body_message (message "hi")) (u "Model not available.")).
Proof.
  destruct (history_survives_restart env_offline (u "helper") (message "hi")
              world_with_helper helper_bot [] (u "Model not available.")
              (snd (fst (bot_chat env_offline (u "helper") (message "hi")
                           world_with_helper)))
              (snd (bot_chat env_offline (u "helper") (message "hi")
                      world_with_helper)))
    as (inst' & Hi & Hh & _).
  - vm_compute. reflexivity.
  - reflexivity.
  - reflexivity.
  - reflexivity.
  - reflexivity.
  - vm_compute. reflexivity.
  - exists inst'. split; [exact Hi | exact Hh].
Defined.

(** X12: whatever it returns or raises, [bot_chat] touches one bot and
    one file: every other bot is as it was, the set of registered names
    is the same, the bot it talked to keeps its config and pipeline and a
    history that was a list has only grown at its end, and no file but
    the history file of that name is written. *)
Theorem bot_chat_touches_one_bot env (name : pystr) (body : pyobj) (w : World) :
  let w' := snd (fst (bot_chat env name body w)) in
  (forall k, k <> name -> bots w' !! k = bots w !! k)
  /\ (forall k, is_Some (bots w' !! k) <-> is_Some (bots w !! k))
  /\ (forall inst, bots w !! name = Some inst ->
        exists inst', bots w' !! name = Some inst'
                      /\ cfg inst' = cfg inst /\ pipeline inst' = pipeline inst
                      /\ forall h, history inst = PList h ->
                           exists more, history inst' = PList (h ++ more))
  /\ (forall p, p <> history_path name -> files w' !! p = files w !! p).
Proof. apply bot_chat_frame. Qed.

Lemma registry_is_stable_witness :
  exists b',
    bots (serve some_requests world_with_helper) !! u "helper" = Some b'
    /\ cfg b' = cfg helper_bot /\ pipeline b' = pipeline helper_bot
    /\ forall h, history helper_bot = PList h ->
          exists more, history b' = PList (h ++ more).
Proof.
  apply (registry_is_stable some_requests world_with_helper (u "helper")
           helper_bot).
  vm_compute. reflexivity.
Defined.

Lemma bot_chat_touches_one_bot_witness :
  files (snd (fst (bot_chat env_offline (u "helper") (message "hi")
                     world_with_helper))) !! history_path (u "other")
  = files world_with_helper !! history_path (u "other").
Proof.
  apply (proj2 (proj2 (proj2 (bot_chat_touches_one_bot env_offline (u "helper")
                                (message "hi") world_with_helper)))).
  intro H. vm_compute in H. discriminate H.
Defined.
